(** * finalproject.py: a movie recommender over two pandas tables

    The program filters and ranks a catalog ([filter_movies]), looks titles up
    in an award table ([check_oscar_status]) and rotates a window of at most
    five recommendations ([show_recommendations]).  This file embeds those
    three functions and proves the properties stated for them.  It also
    embeds the two loaders, the survey ([get_user_preferences]) and [main],
    and proves further properties of the whole program.

    Modelling conventions
    - A DataFrame read by [pd.read_csv] is the list of its rows in index
      order; the row at position [i] carries index label [i] (the default
      RangeIndex).  A frame produced by boolean indexing or sorting keeps the
      labels of its rows, so it is a list of (label, row) pairs.
    - Text is [string]; case mapping and white space follow Python on ASCII
      characters, bytes above 127 are left alone.
    - A rating is a finite float64.  Only comparisons are applied to it, so
      it is represented by the rational number it denotes ([Q]); two
      ratings are equal when they are [Qeq].
    - Cells that pandas may leave missing (NaN) are [option] or [CNaN].
    - [print] becomes a list of events, [input] a list of typed lines.
    - A call has a result [Done x] or none ([Unsupported]): it raised, or it
      left the part of the runtime that is modelled (a pattern with other
      special characters than the dot, a set whose elements meet in a
      slot).  The results state for which inputs a call is [Done]. *)

From Stdlib Require Import String Ascii QArith ZArith List.
From Stdlib Require Import Permutation Sorted Lia Lqa.
From Stdlib Require OrderedTypeEx.
From stdpp Require Import base list.
Import ListNotations.

Local Open Scope string_scope.
Local Open Scope list_scope.
Local Open Scope nat_scope.

(* ===================================================================== *)
(** * Python runtime: strings *)
(* ===================================================================== *)

Module Py.

Definition is_upper (c : ascii) : bool :=
  let n := nat_of_ascii c in (65 <=? n) && (n <=? 90).

Definition lower_char (c : ascii) : ascii :=
  if is_upper c then ascii_of_nat (nat_of_ascii c + 32) else c.

(** [s.lower()] *)
Fixpoint lower (s : string) : string :=
  match s with
  | EmptyString => EmptyString
  | String c t => String (lower_char c) (lower t)
  end.

(** The characters [str.strip()] removes: tab, LF, VT, FF, CR, the four
    separators 0x1c-0x1f and the space. *)
Definition is_space (c : ascii) : bool :=
  let n := nat_of_ascii c in
  ((9 <=? n) && (n <=? 13)) || ((28 <=? n) && (n <=? 32)).

Fixpoint lstrip (s : string) : string :=
  match s with
  | EmptyString => EmptyString
  | String c t => if is_space c then lstrip t else s
  end.

Fixpoint rstrip (s : string) : string :=
  match s with
  | EmptyString => EmptyString
  | String c t =>
      match rstrip t with
      | EmptyString => if is_space c then EmptyString else String c EmptyString
      | t' => String c t'
      end
  end.

(** [s.strip()] *)
Definition strip (s : string) : string := rstrip (lstrip s).

(** [needle in hay] on two strings. *)
Fixpoint str_in (needle hay : string) : bool :=
  String.prefix needle hay ||
  match hay with
  | EmptyString => false
  | String _ t => str_in needle t
  end.

Definition is_digit (c : ascii) : bool :=
  let n := nat_of_ascii c in (48 <=? n) && (n <=? 57).

Fixpoint all_digits (s : string) : bool :=
  match s with
  | EmptyString => true
  | String c t => is_digit c && all_digits t
  end.

(** [s.isdigit()]: at least one character, all of them digits. *)
Definition isdigit (s : string) : bool :=
  match s with
  | EmptyString => false
  | _ => all_digits s
  end.

Fixpoint int_acc (acc : Z) (s : string) : Z :=
  match s with
  | EmptyString => acc
  | String c t => int_acc (10 * acc + Z.of_nat (nat_of_ascii c - 48))%Z t
  end.

(** [int(s)] for a string of digits. *)
Definition int (s : string) : Z := int_acc 0%Z s.

(** [s.split(sep)] for a one-character separator: one more piece than
    there are separators, the empty string gives one empty piece. *)
Fixpoint split (sep : ascii) (s : string) : list string :=
  match s with
  | EmptyString => [EmptyString]
  | String c t =>
      let r := split sep t in
      if Ascii.eqb c sep then EmptyString :: r
      else match r with
           | h :: r' => String c h :: r'
           | [] => [String c EmptyString]
           end
  end.

(** A table cell as [read_csv] leaves it: a boolean, a string or NaN. *)
Inductive cell : Type :=
| CBool (b : bool)
| CStr (s : string)
| CNaN.

(** [str(x)] on a cell. *)
Definition str (x : cell) : string :=
  match x with
  | CBool true => "True"
  | CBool false => "False"
  | CStr s => s
  | CNaN => "nan"
  end.

End Py.

(* ===================================================================== *)
(** * Regular expressions, as far as [Series.str.contains] needs them *)
(* ===================================================================== *)

(** [Series.str.contains(pat, case=False, na=False)] leaves [regex] at its
    default [True]: the pattern is compiled with [re.compile(pat,
    re.IGNORECASE)] and every cell is tested with [search].  The model
    covers patterns built from ordinary characters and the dot.  A pattern
    with any other special character gets no result here ([Unsupported]):
    Python then either raises [re.error] or applies an operator that is
    not modelled.  [Unsupported] also stands for a call that raises for
    another reason the model knows of. *)

Inductive run (A : Type) : Type :=
| Done (a : A)
| Unsupported.

Arguments Done {A} a.
Arguments Unsupported {A}.

Module Re.

Inductive item : Type :=
| Any                 (* the dot *)
| Chr (c : ascii).    (* an ordinary character *)

Definition specials : list ascii :=
  list_ascii_of_string ".^$*+?{}[]\|()".

Definition is_special (c : ascii) : bool :=
  existsb (Ascii.eqb c) specials.

Definition dot : ascii := ".".
Definition newline : ascii := ascii_of_nat 10.

Fixpoint compile (pat : string) : option (list item) :=
  match pat with
  | EmptyString => Some []
  | String c t =>
      if Ascii.eqb c dot then option_map (cons Any) (compile t)
      else if is_special c then None
      else option_map (cons (Chr c)) (compile t)
  end.

(** One pattern item against one character under [re.IGNORECASE]; the dot
    takes anything but a newline. *)
Definition item_matches (it : item) (c : ascii) : bool :=
  match it with
  | Any => negb (Ascii.eqb c newline)
  | Chr p => Ascii.eqb (Py.lower_char p) (Py.lower_char c)
  end.

(** [pattern.match(s)]: the pattern matches at the start of [s]. *)
Fixpoint match_here (re : list item) (s : string) : bool :=
  match re with
  | [] => true
  | it :: re' =>
      match s with
      | EmptyString => false
      | String c t => item_matches it c && match_here re' t
      end
  end.

(** [pattern.search(s) is not None]: the pattern matches somewhere. *)
Fixpoint search (re : list item) (s : string) : bool :=
  match_here re s ||
  match s with
  | EmptyString => false
  | String _ t => search re t
  end.

End Re.

(** [col.str.contains(pat, case=False, na=False)]: one boolean per cell,
    [False] for a missing cell. *)
Definition str_contains (pat : string) (col : list (option string))
  : run (list bool) :=
  match Re.compile pat with
  | Some re =>
      Done (map (fun x => match x with
                          | Some s => Re.search re s
                          | None => false
                          end) col)
  | None => Unsupported
  end.

(** [df[mask]] for a boolean mask aligned with [df]: the rows whose mask
    entry is [True], in order. *)
Definition boolean_index {A : Type} (df : list A) (mask : list bool) : list A :=
  map fst (List.filter snd (combine df mask)).

(* ===================================================================== *)
(** * check_oscar_status *)
(* ===================================================================== *)

(** A row of the award table, after [load_oscar_data] stripped [film]. *)
Record OscarRow : Type := {
  film : option string;
  category : Py.cell;
  winner : Py.cell
}.

(** ["Winner" if str(winner).strip().lower() == 'true' else "Nominated"] *)
Definition oscar_status (w : Py.cell) : string :=
  if String.eqb (Py.lower (Py.strip (Py.str w))) "true"
  then "Winner" else "Nominated".

(** [f"{status} for {category}"] *)
Definition oscar_line (row : OscarRow) : string :=
  (oscar_status (winner row) ++ " for " ++ Py.str (category row))%string.

(** [oscar_df] is [None] when the award file could not be read.  The
    result is Python's [None] or a list of lines. *)
Definition check_oscar_status (movie_title : string)
    (oscar_df : option (list OscarRow)) : run (option (list string)) :=
  match oscar_df with
  | Some df =>
      match str_contains movie_title (map film df) with
      | Done mask =>
          let matched_rows := boolean_index df mask in
          match matched_rows with
          | [] => Done None
          | _ :: _ => Done (Some (map oscar_line matched_rows))
          end
      | Unsupported => Unsupported
      end
  | None => Done None
  end.

(* ===================================================================== *)
(** * filter_movies *)
(* ===================================================================== *)

(** A catalog row after [load_movie_data]: [Genre] is the list of trimmed
    genre names; rows without rating, year, runtime or votes were dropped,
    [Actors] may still be missing. *)
Record Movie : Type := {
  Title : string;
  Genre : list string;
  Year : Z;
  Rating : Q;
  Runtime : Z;
  Votes : Z;
  Actors : option string
}.

(** The [prefs] dictionary. *)
Record Prefs : Type := {
  genre : option string;
  min_rating : option Q;
  min_year : option Z;
  max_year : option Z;
  max_runtime : option Z;
  fav_actor : option string
}.

(** One line of the list of recommendations: its number, the row, the
    award lines found for the title ([None] when there is no note) and
    whether the favourite actor is announced. *)
Record Line : Type := {
  number : nat;
  shown : Movie;
  oscar_note : option (list string);
  actor_note : bool
}.

(** What the program prints: one constructor per message, the texts
    themselves are not modelled.  [Recommendations] is the headline with
    one line per displayed index; it records those indices.  [EndOfInput]
    is not a message: [input] found no more input and raised [EOFError],
    which ends the program. *)
Inductive event : Type :=
| NoActorMatch (actor : string)       (* filter_movies: no match for the actor *)
| NoMatches                           (* "Sorry, no movies matched your criteria." *)
| Recommendations (indices : list nat) (lines : list Line)
| Enjoy                               (* "Enjoy your movie night!" *)
| NotANumber (num : string)           (* "'{num}' is not a valid number. Skipping." *)
| NotInList (number : Z)              (* "'{val + 1}' is not in the list ... Skipping." *)
| NoMoreReplacements (number : Z)     (* "No more new recommendations to replace movie #..." *)
| NoValidSelections                   (* "No valid selections were made." *)
| ProcessingError                     (* "Error processing your input. ..." *)
| PleaseAnswer                        (* "Please enter 'y' or 'n'." *)
| EndOfInput.

(** Truth value of a string-or-None: [None] and the empty string are false. *)
Definition truthy (s : option string) : bool :=
  match s with
  | Some (String _ _) => true
  | _ => false
  end.

(** [mask &= other] on two aligned boolean Series. *)
Definition mask_and (mask other : list bool) : list bool :=
  zip_with andb mask other.

(** [mask &= column] when the preference is set, [mask] otherwise. *)
Definition narrow {P : Type} (pref : option P) (test : P -> Movie -> bool)
    (df : list Movie) (mask : list bool) : list bool :=
  match pref with
  | Some p => mask_and mask (map (test p) df)
  | None => mask
  end.

(** The mask built by the five [if] statements of [filter_movies]. *)
Definition filter_mask (df : list Movie) (prefs : Prefs) : list bool :=
  let mask := replicate (length df) true in
  let mask :=
    if truthy (genre prefs)
    then narrow (genre prefs)
           (fun g row => existsb (String.eqb g) (Genre row)) df mask
    else mask in
  let mask := narrow (min_rating prefs)
                (fun r row => Qle_bool r (Rating row)) df mask in
  let mask := narrow (min_year prefs)
                (fun y row => (y <=? Year row)%Z) df mask in
  let mask := narrow (max_year prefs)
                (fun y row => (Year row <=? y)%Z) df mask in
  narrow (max_runtime prefs)
    (fun t row => (Runtime row <=? t)%Z) df mask.

(** A frame with its index labels. *)
Abbreviation DataFrame := (list (nat * Movie)) (only parsing).

(** The catalog with the labels [read_csv] gave it. *)
Definition labelled (df : list Movie) : DataFrame :=
  combine (seq 0 (length df)) df.

(** [sort_values] on several keys orders the rows with a stable
    lexicographic sort, so rows with equal keys stay in their order.  A
    stable sort has one possible result; insertion from the right, each
    row placed before the first row it does not come after, computes it.
    [le a b] says that [a] may stand before [b]. *)
Fixpoint insert_row {A : Type} (le : A -> A -> bool) (x : A) (l : list A)
  : list A :=
  match l with
  | [] => [x]
  | y :: t => if le x y then x :: y :: t else y :: insert_row le x t
  end.

Definition sort_values {A : Type} (le : A -> A -> bool) (l : list A) : list A :=
  foldr (insert_row le) [] l.

(** [by=['Rating', 'Votes'], ascending=False] *)
Definition rating_votes_desc (a b : Movie) : bool :=
  match (Rating a ?= Rating b)%Q with
  | Gt => true
  | Lt => false
  | Eq => (Votes b <=? Votes a)%Z
  end.

(** [by=['Actors', 'Rating', 'Votes'], ascending=[False, False, False]]
    with the key function replacing the [Actors] column by [actor_mask]:
    rows are compared on (mask entry, rating, votes), [True] first. *)
Definition actor_rating_votes_desc (a b : bool * Movie) : bool :=
  match fst a, fst b with
  | true, false => true
  | false, true => false
  | _, _ => rating_votes_desc (snd a) (snd b)
  end.

Definition on_row {K : Type} (le : Movie -> Movie -> bool)
  : (K * Movie) -> (K * Movie) -> bool :=
  fun a b => le (snd a) (snd b).

(** The [.str] accessor exists on a column of dtype object only.
    [read_csv] gives a column without any text the dtype float64, unless
    the table has no row; on such a column [.str] raises. *)
Definition has_str (col : list (option string)) : bool :=
  match col with
  | [] => true
  | _ :: _ => existsb (fun x => match x with Some _ => true | None => false end) col
  end.

(** What [filter_movies] prints, and the frame it returns. *)
Definition filter_movies (df : list Movie) (prefs : Prefs)
  : run (list event * DataFrame) :=
  let mask := filter_mask df prefs in
  let filtered_df := boolean_index (labelled df) mask in
  if truthy (fav_actor prefs) then
    let actor := default EmptyString (fav_actor prefs) in
    if negb (has_str (map Actors df)) then Unsupported
    else
      match str_contains actor (map (fun r => Actors (snd r)) filtered_df) with
      | Done actor_mask =>
          let out := if existsb id actor_mask then [] else [NoActorMatch actor] in
          let keyed := combine actor_mask filtered_df in
          let sorted :=
            sort_values (fun a b => actor_rating_votes_desc
                                      (fst a, snd (snd a)) (fst b, snd (snd b)))
                        keyed in
          Done (out, map snd sorted)
      | Unsupported => Unsupported
      end
  else
    Done ([], sort_values (on_row rating_votes_desc) filtered_df).

(** The favourite-actor test of [show_recommendations]:
    [fav_actor.lower() in movie['Actors'].lower()]. *)
Definition features (fav_actor : string) (actors : string) : bool :=
  Py.str_in (Py.lower fav_actor) (Py.lower actors).

(* ===================================================================== *)
(** * Python runtime: a set of small integers, a list assignment *)
(* ===================================================================== *)

(** [seen_indices] is a CPython set of ints.  CPython keeps a set in a hash
    table: 8 slots at first, [hash(v) = v] for a small non-negative int,
    and [v] goes to slot [v & mask].  After an insertion that leaves the
    table three fifths full it is rebuilt with more slots (the first power
    of two above four times the number of elements), the entries being
    re-inserted in table order.  Iteration walks the slots from 0 upwards.
    The model covers the case where the slot is free or already holds the
    value; a negative value or an occupied slot (CPython then probes other
    slots) gets no result ([None]). *)
Module PySet.

Abbreviation table := (list (option Z)) (only parsing).

Definition min_size : nat := 8.

Definition empty : table := replicate min_size None.

Definition slot (t : table) (v : Z) : nat :=
  Z.to_nat (v mod Z.of_nat (length t)).

Definition used (t : table) : nat := length (omap id t).

(** Store [v] in its own slot. *)
Definition put (t : table) (v : Z) : option table :=
  if (v <? 0)%Z then None
  else match t !! slot t v with
       | Some None => Some (<[slot t v := Some v]> t)
       | Some (Some w) => if (w =? v)%Z then Some t else None
       | None => None
       end.

Fixpoint new_size (fuel size minused : nat) : nat :=
  match fuel with
  | 0 => size
  | S fuel' =>
      if size <=? minused then new_size fuel' (2 * size) minused else size
  end.

Fixpoint put_all (t : table) (vs : list Z) : option table :=
  match vs with
  | [] => Some t
  | v :: vs' =>
      match put t v with
      | Some t' => put_all t' vs'
      | None => None
      end
  end.

Definition resize (t : table) : option table :=
  let minused := 4 * used t in
  put_all (replicate (new_size (S minused) min_size minused) None) (omap id t).

(** [s.add(v)] *)
Definition add (t : table) (v : Z) : option table :=
  if (v <? 0)%Z then None
  else match t !! slot t v with
       | Some None =>
           let t' := <[slot t v := Some v]> t in
           if used t' * 5 <? (length t' - 1) * 3 then Some t' else resize t'
       | Some (Some w) => if (w =? v)%Z then Some t else None
       | None => None
       end.

(** [for v in s] *)
Definition iter (t : table) : list Z := omap id t.

End PySet.

(** [l[i] = v] on a Python list: a negative index counts from the end, an
    index out of range raises [IndexError] ([None]). *)
Definition setitem (l : list nat) (i : Z) (v : nat) : option (list nat) :=
  let len := Z.of_nat (length l) in
  if (0 <=? i)%Z && (i <? len)%Z then Some (<[Z.to_nat i := v]> l)
  else if (- len <=? i)%Z && (i <? 0)%Z then Some (<[Z.to_nat (len + i) := v]> l)
  else None.

(* ===================================================================== *)
(** * show_recommendations: the window and one round of replacements *)
(* ===================================================================== *)

(** The two variables the loop of [show_recommendations] updates. *)
Record Window : Type := {
  display_indices : list nat;
  next_index : nat
}.

(** The start of [show_recommendations] for [top_matches] of length [n]:
    with no row the function prints one message and returns, otherwise it
    sets up the window. *)
Definition start (n : nat) : list event * option Window :=
  match n with
  | 0 => ([NoMatches], None)
  | _ =>
      let display_limit := Nat.min 5 n in
      ([], Some {| display_indices := seq 0 display_limit;
                   next_index := display_limit |})
  end.

Definition emit {A : Type} (e : event) (r : run (A * list event))
  : run (A * list event) :=
  match r with
  | Done (a, out) => Done (a, e :: out)
  | Unsupported => Unsupported
  end.

(** The first loop of the [try] block: every piece of the answer is
    stripped, checked and, when it names a displayed movie, added to
    [seen_indices].  [int] is the unbounded conversion: the limit of 4300
    digits that CPython 3.11 and later put on it by default (a
    [ValueError], which the [except] branch would catch) is not
    modelled. *)
Fixpoint read_numbers (len : nat) (nums : list string) (seen_indices : PySet.table)
  : run (PySet.table * list event) :=
  match nums with
  | [] => Done (seen_indices, [])
  | num :: rest =>
      let num := Py.strip num in
      if negb (Py.isdigit num) then
        emit (NotANumber num) (read_numbers len rest seen_indices)
      else
        let val := (Py.int num - 1)%Z in
        if (val <? 0)%Z || (val >=? Z.of_nat len)%Z then
          emit (NotInList (val + 1)%Z) (read_numbers len rest seen_indices)
        else
          match PySet.add seen_indices val with
          | Some seen_indices' => read_numbers len rest seen_indices'
          | None => Unsupported
          end
  end.

(** The second loop, over the elements of [seen_indices] in the order the
    set yields them.  The boolean tells whether the list assignment
    raised, which ends the loop. *)
Fixpoint replace_seen (n : nat) (w : Window) (order : list Z)
  : Window * list event * bool :=
  match order with
  | [] => (w, [], false)
  | seen_idx :: rest =>
      if next_index w <? n then
        match setitem (display_indices w) seen_idx (next_index w) with
        | Some d =>
            replace_seen n {| display_indices := d;
                              next_index := next_index w + 1 |} rest
        | None => (w, [], true)
        end
      else
        let '(w', out, raised) := replace_seen n w rest in
        (w', NoMoreReplacements (seen_idx + 1)%Z :: out, raised)
  end.

(** The [try] statement of one round: [nums] is [seen_nums.split(',')],
    [n] is [len(top_matches)]. *)
Definition mark_seen_pieces (n : nat) (w : Window) (nums : list string)
  : run (Window * list event) :=
  match read_numbers (length (display_indices w)) nums PySet.empty with
  | Done (seen_indices, out1) =>
      let '(w', out2, raised) := replace_seen n w (PySet.iter seen_indices) in
      if raised then Done (w', out1 ++ out2 ++ [ProcessingError])
      else
        match PySet.iter seen_indices with
        | [] => Done (w', out1 ++ out2 ++ [NoValidSelections])
        | _ :: _ => Done (w', out1 ++ out2)
        end
  | Unsupported => Unsupported
  end.

Definition comma : ascii := ",".

Definition mark_seen (n : nat) (w : Window) (seen_nums : string)
  : run (Window * list event) :=
  mark_seen_pieces n w (Py.split comma seen_nums).

(** Sequencing of calls that may have no result. *)
Definition bind {A B : Type} (r : run A) (k : A -> run B) : run B :=
  match r with
  | Done a => k a
  | Unsupported => Unsupported
  end.

Notation "'let*' x ':=' r 'in' k" := (bind r (fun x => k))
  (at level 10, x name, r at level 100, k at level 200).

(** One line of the list: the row at [idx] ([iloc] raises beyond the last
    row), its award lines, and the favourite-actor test, which is only
    evaluated for a non-empty favourite actor and raises on a missing
    [Actors] cell. *)
Definition line_for (top_matches : list Movie)
    (oscar_df : option (list OscarRow)) (fav_actor : option string)
    (i idx : nat) : run Line :=
  match top_matches !! idx with
  | Some movie =>
      let* oscar_info := check_oscar_status (Title movie) oscar_df in
      let* announced := (if truthy fav_actor then
                      match Actors movie with
                      | Some actors =>
                          Done (features (default EmptyString fav_actor) actors)
                      | None => Unsupported
                      end
                    else Done false) in
      Done {| number := i + 1; shown := movie;
              oscar_note := oscar_info; actor_note := announced |}
  | None => Unsupported
  end.

(** [for i, idx in enumerate(display_indices)], from position [i] on. *)
Fixpoint lines_from (top_matches : list Movie)
    (oscar_df : option (list OscarRow)) (fav_actor : option string)
    (i : nat) (indices : list nat) : run (list Line) :=
  match indices with
  | [] => Done []
  | idx :: rest =>
      let* line := line_for top_matches oscar_df fav_actor i idx in
      let* lines := lines_from top_matches oscar_df fav_actor (S i) rest in
      Done (line :: lines)
  end.

(** The [while True] loop.  [inputs] holds the lines the user types, one
    per call of [input]; the loop ends on the answer "n" or when the
    input runs out. *)
Fixpoint show_loop (top_matches : list Movie)
    (oscar_df : option (list OscarRow)) (fav_actor : option string)
    (w : Window) (inputs : list string) : run (list event) :=
  let* lines :=
    lines_from top_matches oscar_df fav_actor 0 (display_indices w) in
  let listing := Recommendations (display_indices w) lines in
  match inputs with
  | [] => Done [listing; EndOfInput]
  | answer :: rest =>
      let seen_input := Py.lower (Py.strip answer) in
      if String.eqb seen_input "n" then Done [listing; Enjoy]
      else if String.eqb seen_input "y" then
        match rest with
        | [] => Done [listing; EndOfInput]
        | seen_nums :: rest' =>
            let* round := mark_seen (length top_matches) w seen_nums in
            let* later :=
              show_loop top_matches oscar_df fav_actor (fst round) rest' in
            Done (listing :: snd round ++ later)
        end
      else
        let* later := show_loop top_matches oscar_df fav_actor w rest in
        Done (listing :: PleaseAnswer :: later)
  end.

(** [show_recommendations]: [top_matches] is [recommendations] with the
    index reset, that is, its rows in order. *)
Definition show_recommendations (recommendations : DataFrame)
    (oscar_df : option (list OscarRow)) (fav_actor : option string)
    (inputs : list string) : run (list event) :=
  let top_matches := map snd recommendations in
  match start (length top_matches) with
  | (out, Some w) =>
      let* later := show_loop top_matches oscar_df fav_actor w inputs in
      Done (out ++ later)
  | (out, None) => Done out
  end.

(* ===================================================================== *)
(** * Python runtime: title case, integers, sorted sets of text *)
(* ===================================================================== *)

Module PyText.

Definition is_lower (c : ascii) : bool :=
  let n := nat_of_ascii c in (97 <=? n) && (n <=? 122).

Definition upper_char (c : ascii) : ascii :=
  if is_lower c then ascii_of_nat (nat_of_ascii c - 32) else c.

Definition is_cased (c : ascii) : bool := Py.is_upper c || is_lower c.

(** [s.title()]: a character after a cased one is put in lower case, any
    other in upper case. *)
Fixpoint title_from (previous_is_cased : bool) (s : string) : string :=
  match s with
  | EmptyString => EmptyString
  | String c t =>
      String (if previous_is_cased then Py.lower_char c else upper_char c)
             (title_from (is_cased c) t)
  end.

Definition title (s : string) : string := title_from false s.

Definition underscore : ascii := "_".
Definition plus : ascii := "+".
Definition minus : ascii := "-".

(** The digits of an integer literal: single underscores may stand
    between digits.  [after_digit] tells whether the last character was
    a digit. *)
Fixpoint digits_value (after_digit : bool) (acc : Z) (s : string)
  : option Z :=
  match s with
  | EmptyString => if after_digit then Some acc else None
  | String c t =>
      if Py.is_digit c then
        digits_value true (10 * acc + Z.of_nat (nat_of_ascii c - 48))%Z t
      else if Ascii.eqb c underscore && after_digit then
        digits_value false acc t
      else None
  end.

(** [int(s)] on text: blanks around, an optional sign, digits.  [None]
    is [ValueError].  As for [Py.int], no bound on the number of digits
    is modelled. *)
Definition parse_int (s : string) : option Z :=
  match Py.strip s with
  | String c t =>
      if Ascii.eqb c plus then digits_value false 0%Z t
      else if Ascii.eqb c minus then option_map Z.opp (digits_value false 0%Z t)
      else digits_value false 0%Z (String c t)
  | EmptyString => None
  end.

(** [sorted(set(l))] on texts: the distinct elements in increasing
    order. *)
Fixpoint set_insert (x : string) (l : list string) : list string :=
  match l with
  | [] => [x]
  | y :: t =>
      match String.compare x y with
      | Lt => x :: y :: t
      | Eq => y :: t
      | Gt => y :: set_insert x t
      end
  end.

Definition sorted_set (l : list string) : list string :=
  foldr set_insert [] l.

End PyText.

(** What [float(s)] gives: a finite number, an infinity or a NaN. *)
Inductive pyfloat : Type :=
| Finite (q : Q)
| Infinity (negative : bool)
| NaN.

(* ===================================================================== *)
(** * load_movie_data, load_oscar_data *)
(* ===================================================================== *)

(** Messages of the loaders, of [get_user_preferences] and of [main].
    [InputEnded] is not a message: [input] raised [EOFError]. *)
Inductive notice : Type :=
| MovieFileMissing                    (* "File not found. Check the file path." *)
| OscarFileMissing                    (* "Oscar data file not found." *)
| Welcome                             (* "Welcome to movie recommender!" *)
| Instructions                        (* "First, you'll go through a quick survey ..." *)
| AvailableGenres (genres : list string)
| TryGenreAgain                       (* "Okay, try typing your genre again." *)
| InvalidYesNo                        (* "Invalid response. Please type 'y' or 'n'." *)
| FilterHeading                       (* "Now enter your filter preferences: ..." *)
| NumberOutOfRange                    (* "Enter a number between {min_val} and {max_val}." *)
| NotAFloat                           (* "Invalid input. Please enter a number." *)
| IntegerOutOfRange                   (* "Input out of range." *)
| NotAnInteger                        (* "Invalid input. Please enter an integer." *)
| YearsInverted                       (* "Earliest year must be less than or equal to latest year." *)
| InputEnded.

(** A row of the movie file as [read_csv] gives it: any cell but the
    title may be missing. *)
Record RawMovie : Type := {
  raw_title : string;
  raw_genre : option string;
  raw_year : option Z;
  raw_rating : option Q;
  raw_runtime : option Z;
  raw_votes : option Z;
  raw_actors : option string
}.

(** [[genre.strip() for genre in g.split(',')]] after [fillna('')]. *)
Definition genre_list (g : option string) : list string :=
  map Py.strip (Py.split comma (default EmptyString g)).

(** The row with its genre list, when [dropna] keeps it: rating, year,
    runtime and votes are there (the genre column, now holding lists, has
    nothing missing). *)
Definition cleaned (raw : RawMovie) : option Movie :=
  match raw_rating raw, raw_year raw, raw_runtime raw, raw_votes raw with
  | Some rating, Some year, Some runtime, Some votes =>
      Some {| Title := raw_title raw; Genre := genre_list (raw_genre raw);
              Year := year; Rating := rating; Runtime := runtime;
              Votes := votes; Actors := raw_actors raw |}
  | _, _, _, _ => None
  end.

(** [load_movie_data]: [file] is [None] when the file does not exist.
    The frame returned keeps the labels the rows had in the file. *)
Definition load_movie_data (file : option (list RawMovie))
  : list notice * option DataFrame :=
  match file with
  | Some rows =>
      ([], Some (omap (fun p => option_map (pair (fst p)) (cleaned (snd p)))
                      (combine (seq 0 (length rows)) rows)))
  | None => ([MovieFileMissing], None)
  end.

(** [oscar_df['film'].str.strip()] on one row: a missing title stays
    missing. *)
Definition strip_film (row : OscarRow) : OscarRow :=
  {| film := option_map Py.strip (film row);
     category := category row; winner := winner row |}.

(** [load_oscar_data]; [.str] raises on a film column without text. *)
Definition load_oscar_data (file : option (list OscarRow))
  : run (list notice * option (list OscarRow)) :=
  match file with
  | Some rows =>
      if has_str (map film rows) then Done ([], Some (map strip_film rows))
      else Unsupported
  | None => Done ([OscarFileMissing], None)
  end.

(* ===================================================================== *)
(** * get_user_preferences *)
(* ===================================================================== *)

(** The question the survey is at, with the answers collected so far.
    Each line of input answers one question. *)
Inductive question : Type :=
| AskGenre
| AskSeeGenres
| AskMinRating (g : option string)
| AskMinYear (g : option string) (r : option Q)
| AskMaxYear (g : option string) (r : option Q) (lo : option Z)
| AskMaxRuntime (g : option string) (r : option Q) (lo hi : option Z)
| AskFavActor (g : option string) (r : option Q) (lo hi t : option Z).

Definition say {A : Type} (notes : list notice) (r : list notice * A)
  : list notice * A :=
  (notes ++ fst r, snd r).

(** The test of [get_int_input]:
    [(min_val is None or val >= min_val) and (max_val is None or val <= max_val)]. *)
Definition int_in_range (min_val max_val : option Z) (val : Z) : bool :=
  match min_val with Some lo => (lo <=? val)%Z | None => true end
  && match max_val with Some hi => (val <=? hi)%Z | None => true end.

(** One pass of the loop of [get_int_input] on a stripped line: skipped,
    accepted or rejected with a message. *)
Inductive reading (A : Type) : Type :=
| Skipped
| Accepted (a : A)
| Rejected (note : notice).

Arguments Skipped {A}.
Arguments Accepted {A} a.
Arguments Rejected {A} note.

Definition read_int (min_val max_val : option Z) (line : string)
  : reading Z :=
  let val := Py.strip line in
  if String.eqb val EmptyString then Skipped
  else match PyText.parse_int val with
       | Some v => if int_in_range min_val max_val v then Accepted v
                   else Rejected IntegerOutOfRange
       | None => Rejected NotAnInteger
       end.

(** One pass of the loop of [get_float_input].  [float] is Python's
    conversion, [None] standing for [ValueError]; an infinity or a NaN
    fails the comparison [min_val <= val <= max_val]. *)
Definition read_float (float : string -> option pyfloat) (min_val max_val : Q)
    (line : string) : reading Q :=
  let val := Py.strip line in
  if String.eqb val EmptyString then Skipped
  else match float val with
       | Some (Finite q) =>
           if Qle_bool min_val q && Qle_bool q max_val then Accepted q
           else Rejected NumberOutOfRange
       | Some _ => Rejected NumberOutOfRange
       | None => Rejected NotAFloat
       end.

Definition reading_value {A : Type} (r : reading A) : option A :=
  match r with
  | Accepted a => Some a
  | _ => None
  end.

(** The survey from a question on.  The result holds the preferences and
    the input left, or nothing when the input ended first. *)
Fixpoint survey (float : string -> option pyfloat) (all_genres : list string)
    (q : question) (inputs : list string)
  : list notice * option (Prefs * list string) :=
  match inputs with
  | [] => ([InputEnded], None)
  | line :: rest =>
      match q with
      | AskGenre =>
          let genre := PyText.title line in
          if String.eqb genre EmptyString then
            say [FilterHeading] (survey float all_genres (AskMinRating None) rest)
          else if existsb (String.eqb genre) all_genres then
            say [FilterHeading]
                (survey float all_genres (AskMinRating (Some genre)) rest)
          else survey float all_genres AskSeeGenres rest
      | AskSeeGenres =>
          let see_genres := Py.lower (Py.strip line) in
          if String.eqb see_genres "y" then
            say [AvailableGenres all_genres]
                (survey float all_genres AskGenre rest)
          else if String.eqb see_genres "n" then
            say [TryGenreAgain] (survey float all_genres AskGenre rest)
          else say [InvalidYesNo] (survey float all_genres AskSeeGenres rest)
      | AskMinRating g =>
          match read_float float 0 10 line with
          | Rejected note =>
              say [note] (survey float all_genres (AskMinRating g) rest)
          | r => survey float all_genres (AskMinYear g (reading_value r)) rest
          end
      | AskMinYear g r =>
          match read_int (Some 2006%Z) (Some 2016%Z) line with
          | Rejected note =>
              say [note] (survey float all_genres (AskMinYear g r) rest)
          | lo => survey float all_genres (AskMaxYear g r (reading_value lo)) rest
          end
      | AskMaxYear g r lo =>
          match read_int (Some 2006%Z) (Some 2016%Z) line with
          | Rejected note =>
              say [note] (survey float all_genres (AskMaxYear g r lo) rest)
          | hi =>
              match lo, reading_value hi with
              | Some l, Some h =>
                  if (l <=? h)%Z then
                    survey float all_genres (AskMaxRuntime g r lo (Some h)) rest
                  else say [YearsInverted]
                           (survey float all_genres (AskMinYear g r) rest)
              | _, h => survey float all_genres (AskMaxRuntime g r lo h) rest
              end
          end
      | AskMaxRuntime g r lo hi =>
          match read_int (Some 50%Z) None line with
          | Rejected note =>
              say [note] (survey float all_genres (AskMaxRuntime g r lo hi) rest)
          | t => survey float all_genres
                   (AskFavActor g r lo hi (reading_value t)) rest
          end
      | AskFavActor g r lo hi t =>
          ([], Some ({| genre := g; min_rating := r; min_year := lo;
                        max_year := hi; max_runtime := t;
                        fav_actor := Some (PyText.title (Py.strip line)) |},
                     rest))
      end
  end.

(** [get_user_preferences(df)]: the genres on offer are those of the
    frame. *)
Definition get_user_preferences (float : string -> option pyfloat)
    (df : list Movie) (inputs : list string)
  : list notice * option (Prefs * list string) :=
  survey float (PyText.sorted_set (concat (map Genre df))) AskGenre inputs.

(* ===================================================================== *)
(** * main *)
(* ===================================================================== *)

(** A line of output of the whole program. *)
Inductive printed : Type :=
| Note (n : notice)
| Event (e : event).

(** [main]: the two files as [read_csv] gives them ([None] for a file
    that does not exist) and the lines typed.  [filter_movies] builds its
    mask on the default index, so the model follows the run only when
    [load_movie_data] left that index, that is, dropped no row before a
    row it kept. *)
Definition main (float : string -> option pyfloat)
    (movie_file : option (list RawMovie))
    (oscar_file : option (list OscarRow)) (inputs : list string)
  : run (list printed) :=
  let (notes1, movie_df) := load_movie_data movie_file in
  let* loaded := load_oscar_data oscar_file in
  let greeting := map Note (notes1 ++ fst loaded ++ [Welcome; Instructions]) in
  match movie_df, snd loaded with
  | Some df, Some oscar_df =>
      if negb (bool_decide (map fst df = seq 0 (length df)))
      then Unsupported
      else
        let rows := map snd df in
        match get_user_preferences float rows inputs with
        | (notes2, Some (prefs, rest)) =>
            let* ranked := filter_movies rows prefs in
            let* shown := show_recommendations (snd ranked) (Some oscar_df)
                            (fav_actor prefs) rest in
            Done (greeting ++ map Note notes2
                           ++ map Event (fst ranked ++ shown))
        | (notes2, None) => Done (greeting ++ map Note notes2)
        end
  | _, _ => Done greeting
  end.

(* ===================================================================== *)
(** * Vocabulary of the properties *)
(* ===================================================================== *)

(** A text without any character that is special in a pattern. *)
Fixpoint plain (s : string) : bool :=
  match s with
  | EmptyString => true
  | String c t => negb (Re.is_special c) && plain t
  end.

(** The pattern that takes the characters of [s] literally. *)
Fixpoint literal (s : string) : list Re.item :=
  match s with
  | EmptyString => []
  | String c t => Re.Chr c :: literal t
  end.

(** The rows of the award table a compiled title selects. *)
Definition title_hit (re : list Re.item) (row : OscarRow) : bool :=
  match film row with
  | Some f => Re.search re f
  | None => false
  end.

(** The literal, case-insensitive containment test on a film title. *)
Definition title_contains (title : string) (row : OscarRow) : bool :=
  match film row with
  | Some f => Py.str_in (Py.lower title) (Py.lower f)
  | None => false
  end.

Definition award (f c : string) (w : bool) : OscarRow :=
  {| film := Some f; category := Py.CStr c; winner := Py.CBool w |}.

(** [a] may stand before [b] and, when the two are tied, [a] carries the
    smaller label: the order a stable sort leaves between two rows. *)
Definition stands_before {A : Type} (le : A -> A -> bool) (label : A -> nat)
    (a b : A) : Prop :=
  le a b = true /\ (le b a = true -> label a < label b).

(** One optional condition on a row: no condition when the preference is
    not set. *)
Definition allows {P : Type} (pref : option P) (test : P -> Movie -> bool)
    (row : Movie) : bool :=
  match pref with
  | Some p => test p row
  | None => true
  end.

(** The conjunction of the conditions [prefs] puts on a row. *)
Definition keeps (prefs : Prefs) (row : Movie) : bool :=
  true
  && (if truthy (genre prefs)
      then allows (genre prefs)
             (fun g row => existsb (String.eqb g) (Genre row)) row
      else true)
  && allows (min_rating prefs) (fun r row => Qle_bool r (Rating row)) row
  && allows (min_year prefs) (fun y row => (y <=? Year row)%Z) row
  && allows (max_year prefs) (fun y row => (Year row <=? y)%Z) row
  && allows (max_runtime prefs) (fun t row => (Runtime row <=? t)%Z) row.

(** The rows [filter_movies] keeps, with their labels. *)
Definition kept (df : list Movie) (prefs : Prefs) : DataFrame :=
  List.filter (fun p => keeps prefs (snd p)) (labelled df).

(** The entry of [actor_mask] for a row, under a compiled pattern. *)
Definition actor_hit (re : list Re.item) (row : Movie) : bool :=
  match Actors row with
  | Some s => Re.search re s
  | None => false
  end.

(** The actor-match status [filter_movies] gives a row: its [actor_mask]
    entry when a favourite actor is set, [false] otherwise. *)
Definition actor_match (prefs : Prefs) (row : Movie) : bool :=
  if truthy (fav_actor prefs) then
    match Re.compile (default EmptyString (fav_actor prefs)) with
    | Some re => actor_hit re row
    | None => false
    end
  else false.

(** The literal test: the row's actors contain the favourite actor,
    letter case ignored. *)
Definition actor_contains (actor : string) (row : Movie) : bool :=
  match Actors row with
  | Some s => features actor s
  | None => false
  end.

(** The sort key order of [filter_movies] on labelled rows. *)
Definition rank_le (prefs : Prefs) (a b : nat * Movie) : bool :=
  actor_rating_votes_desc (actor_match prefs (snd a), snd a)
                          (actor_match prefs (snd b), snd b).

Definition ranks_before (prefs : Prefs) : nat * Movie -> nat * Movie -> Prop :=
  stands_before (rank_le prefs) fst.

(** Preferences with nothing set, and with one field set. *)
Definition no_prefs : Prefs :=
  {| genre := None; min_rating := None; min_year := None; max_year := None;
     max_runtime := None; fav_actor := Some EmptyString |}.

Definition with_min_rating (r : Q) (actor : option string) : Prefs :=
  {| genre := None; min_rating := Some r; min_year := None; max_year := None;
     max_runtime := None; fav_actor := actor |}.

Definition with_fav_actor (actor : string) : Prefs :=
  {| genre := None; min_rating := None; min_year := None; max_year := None;
     max_runtime := None; fav_actor := Some actor |}.

(** A drama of 2014, 107 minutes long. *)
Definition drama (title : string) (rating : Q) (votes : Z) (actors : string)
  : Movie :=
  {| Title := title; Genre := ["Drama"]; Year := 2014; Rating := rating;
     Runtime := 107; Votes := votes; Actors := Some actors |}.

(** A table in which every occupied slot holds its own number, a number
    below the first table size: no two values ever met in a slot. *)
Definition direct (t : PySet.table) : Prop :=
  PySet.min_size <= length t
  /\ forall i w, t !! i = Some (Some w) -> w = Z.of_nat i /\ i < PySet.min_size.

Definition small (v : Z) : Prop := (0 <= v < Z.of_nat PySet.min_size)%Z.

(** The number a piece of the answer stands for. *)
Definition shown_number (num : string) : Z := Py.int (Py.strip num).

(** The piece names one of the [len] movies on screen: digits only, and a
    position from 1 to [len]. *)
Definition names_shown (len : nat) (num : string) : bool :=
  Py.isdigit (Py.strip num)
  && (1 <=? shown_number num)%Z && (shown_number num <=? Z.of_nat len)%Z.

(** The message for a piece that names no movie on screen. *)
Definition rejection (len : nat) (num : string) : option event :=
  if negb (Py.isdigit (Py.strip num)) then Some (NotANumber (Py.strip num))
  else if names_shown len num then None
  else Some (NotInList (shown_number num)).

(** The window invariant for [top_matches] of length [n]: at most five
    slots, holding distinct indices of [top_matches], all of them handed
    out by the cursor before, and the cursor between the number of slots
    and [n]. *)
Definition window_inv (n : nat) (w : Window) : Prop :=
  length (display_indices w) = Nat.min 5 n
  /\ NoDup (display_indices w)
  /\ Forall (fun v => v < n) (display_indices w)
  /\ Forall (fun v => v < next_index w) (display_indices w)
  /\ length (display_indices w) <= next_index w <= n.

(** [w'] is a later window than [w]: the same slots, a cursor that did not
    move back, and in every slot the old index or one the cursor handed out
    since. *)
Definition follows (w w' : Window) : Prop :=
  length (display_indices w') = length (display_indices w)
  /\ next_index w <= next_index w'
  /\ forall k v, display_indices w' !! k = Some v ->
                 display_indices w !! k = Some v \/ next_index w <= v.

Definition no_more (e : event) : Prop :=
  exists number, e = NoMoreReplacements number.

(** Six dramas, not in rating order, and the preference for dramas. *)
Definition six_dramas : list Movie :=
  [drama "Selma" (75 # 10) 70 "David Oyelowo";
   drama "Whiplash" (85 # 10) 500 "Miles Teller, J.K. Simmons";
   drama "Boyhood" (79 # 10) 300 "Ellar Coltrane";
   drama "Room" (82 # 10) 250 "Brie Larson";
   drama "Wild" (71 # 10) 90 "Reese Witherspoon";
   drama "Fences" (72 # 10) 60 "Denzel Washington"].

Definition drama_prefs : Prefs :=
  {| genre := Some "Drama"; min_rating := None; min_year := None;
     max_year := None; max_runtime := None; fav_actor := Some EmptyString |}.

(** A chain of windows from [w] on: each satisfies the invariant and each
    later one follows each earlier one. *)
Definition chain (n : nat) (w : Window) (ws : list Window) : Prop :=
  ws !! 0 = Some w
  /\ forall i j wi wj,
       i <= j -> ws !! i = Some wi -> ws !! j = Some wj ->
       window_inv n wi /\ window_inv n wj /\ follows wi wj.

(** The displayed indices of the listings in an output, in order: the
    snapshots a user sees in a session. *)
Fixpoint shown_windows (out : list event) : list (list nat) :=
  match out with
  | [] => []
  | Recommendations indices _ :: rest => indices :: shown_windows rest
  | _ :: rest => shown_windows rest
  end.

(** The listings of an output with their lines. *)
Fixpoint listings (out : list event) : list (list nat * list Line) :=
  match out with
  | [] => []
  | Recommendations indices lines :: rest => (indices, lines) :: listings rest
  | _ :: rest => listings rest
  end.

(** The listing [l] shows the window [w]: its indices are the displayed
    ones and its lines are those printed for them. *)
Definition shows (top_matches : list Movie) (oscar_df : option (list OscarRow))
    (fav_actor : option string) (w : Window) (l : list nat * list Line)
  : Prop :=
  fst l = display_indices w
  /\ lines_from top_matches oscar_df fav_actor 0 (display_indices w)
     = Done (snd l).

(** A row the listing can print: a title free of special characters and,
    when a favourite actor is set, an [Actors] cell that is not missing. *)
Definition listable (fav_actor : option string) (movie : Movie) : Prop :=
  plain (Title movie) = true
  /\ (truthy fav_actor = true -> Actors movie <> None).

(** The rows on screen: [top_matches.iloc[idx]] for each displayed index. *)
Definition current_view {A : Type} (top_matches : list A) (w : Window)
  : list (option A) :=
  map (fun idx => top_matches !! idx) (display_indices w).

(* ===================================================================== *)
(** * Vocabulary of the further properties *)
(* ===================================================================== *)

(** The conditions the set preferences put on a row, one by one. *)
Definition satisfies (prefs : Prefs) (row : Movie) : Prop :=
  (forall g, genre prefs = Some g -> g <> EmptyString -> In g (Genre row))
  /\ (forall r, min_rating prefs = Some r -> (r <= Rating row)%Q)
  /\ (forall y, min_year prefs = Some y -> (y <= Year row)%Z)
  /\ (forall y, max_year prefs = Some y -> (Year row <= y)%Z)
  /\ (forall t, max_runtime prefs = Some t -> (Runtime row <= t)%Z).

(** [prefs] without a favourite actor. *)
Definition without_actor (prefs : Prefs) : Prefs :=
  {| genre := genre prefs; min_rating := min_rating prefs;
     min_year := min_year prefs; max_year := max_year prefs;
     max_runtime := max_runtime prefs; fav_actor := None |}.

(** The award row has a film title. *)
Definition has_film (row : OscarRow) : bool :=
  match film row with
  | Some _ => true
  | None => false
  end.

(** A pattern item with its character in lower case. *)
Definition lower_item (it : Re.item) : Re.item :=
  match it with
  | Re.Any => Re.Any
  | Re.Chr c => Re.Chr (Py.lower_char c)
  end.

(** The characters of a text. *)
Definition chars (s : string) : list ascii := list_ascii_of_string s.

(** A text that does not start with a blank. *)
Definition trimmed_left (s : string) : Prop :=
  match s with
  | EmptyString => True
  | String c _ => Py.is_space c = false
  end.

(** The loaded row [m] comes from the file row [raw]. *)
Definition cleaned_from (raw : RawMovie) (m : Movie) : Prop :=
  raw_rating raw = Some (Rating m) /\ raw_year raw = Some (Year m)
  /\ raw_runtime raw = Some (Runtime m) /\ raw_votes raw = Some (Votes m)
  /\ Title m = raw_title raw /\ Genre m = genre_list (raw_genre raw)
  /\ Actors m = raw_actors raw.

(** The row lacks none of rating, year, runtime and votes. *)
Definition is_complete (raw : RawMovie) : Prop :=
  raw_rating raw <> None /\ raw_year raw <> None
  /\ raw_runtime raw <> None /\ raw_votes raw <> None.

(** A text that does not end with a blank. *)
Fixpoint trimmed_right (s : string) : Prop :=
  match s with
  | EmptyString => True
  | String c t =>
      match t with
      | EmptyString => Py.is_space c = false
      | String _ _ => trimmed_right t
      end
  end.

(** The order of [sorted] on texts. *)
Definition text_lt (a b : string) : Prop := String.compare a b = Lt.

(** The genres of a catalog: those of its rows. *)
Definition genre_of (df : list Movie) (g : string) : Prop :=
  exists row, In row df /\ In g (Genre row).

(** The answers collected when the survey is at a question.  The
    favourite actor is asked last: until then it is the empty text. *)
Definition answers (q : question) : Prefs :=
  match q with
  | AskGenre | AskSeeGenres =>
      {| genre := None; min_rating := None; min_year := None;
         max_year := None; max_runtime := None;
         fav_actor := Some EmptyString |}
  | AskMinRating g =>
      {| genre := g; min_rating := None; min_year := None;
         max_year := None; max_runtime := None;
         fav_actor := Some EmptyString |}
  | AskMinYear g r =>
      {| genre := g; min_rating := r; min_year := None;
         max_year := None; max_runtime := None;
         fav_actor := Some EmptyString |}
  | AskMaxYear g r lo =>
      {| genre := g; min_rating := r; min_year := lo;
         max_year := None; max_runtime := None;
         fav_actor := Some EmptyString |}
  | AskMaxRuntime g r lo hi =>
      {| genre := g; min_rating := r; min_year := lo;
         max_year := hi; max_runtime := None;
         fav_actor := Some EmptyString |}
  | AskFavActor g r lo hi t =>
      {| genre := g; min_rating := r; min_year := lo;
         max_year := hi; max_runtime := t;
         fav_actor := Some EmptyString |}
  end.

(** The least number of lines the survey still reads from a question
    on. *)
Definition questions_left (q : question) : nat :=
  match q with
  | AskGenre => 6
  | AskSeeGenres => 7
  | AskMinRating _ => 5
  | AskMinYear _ _ => 4
  | AskMaxYear _ _ _ => 3
  | AskMaxRuntime _ _ _ _ => 2
  | AskFavActor _ _ _ _ _ => 1
  end.

(** Preferences a survey over the genres [all_genres] can return: a
    genre is a non-empty one of [all_genres] in title case, the numbers
    are within the bounds asked for, the years are in order, and the
    favourite actor is a text in title case without blanks at its
    ends. *)
Definition well_formed (all_genres : list string) (prefs : Prefs) : Prop :=
  (forall g, genre prefs = Some g ->
             g <> EmptyString /\ In g all_genres /\ PyText.title g = g)
  /\ (forall r, min_rating prefs = Some r -> (0 <= r <= 10)%Q)
  /\ (forall y, min_year prefs = Some y -> (2006 <= y <= 2016)%Z)
  /\ (forall y, max_year prefs = Some y -> (2006 <= y <= 2016)%Z)
  /\ (forall lo hi, min_year prefs = Some lo -> max_year prefs = Some hi ->
                    (lo <= hi)%Z)
  /\ (forall t, max_runtime prefs = Some t -> (50 <= t)%Z)
  /\ (exists a, fav_actor prefs = Some a
                /\ PyText.title a = a /\ Py.strip a = a).

(** A message of the survey that shows no genre list but [all_genres]
    and is not the end of the input. *)
Definition survey_note (all_genres : list string) (n : notice) : Prop :=
  n <> InputEnded /\ forall l, n = AvailableGenres l -> l = all_genres.

(** What holds of the result of the survey run from question [q] on the
    lines [inputs]. *)
Definition survey_post (all_genres : list string) (q : question)
    (inputs : list string) (result : list notice * option (Prefs * list string))
  : Prop :=
  match snd result with
  | Some (prefs, rest) =>
      Forall (survey_note all_genres) (fst result)
      /\ well_formed all_genres prefs
      /\ exists consumed line,
           inputs = consumed ++ line :: rest
           /\ questions_left q <= S (length consumed)
           /\ fav_actor prefs = Some (PyText.title (Py.strip line))
  | None =>
      exists notes,
        fst result = notes ++ [InputEnded]
        /\ Forall (survey_note all_genres) notes
  end.

(** The survey has left the genre question behind. *)
Definition past_genre (q : question) : bool :=
  match q with
  | AskGenre | AskSeeGenres => false
  | _ => true
  end.


(** A [float] that reads the one text "7.5", for examples. *)
Definition float_of_7_5 (s : string) : option pyfloat :=
  if String.eqb s "7.5" then Some (Finite (75 # 10)) else None.

(** A movie file of three complete rows and an award table, for
    examples. *)
Definition example_file : list RawMovie :=
  [{| raw_title := "Room"; raw_genre := Some "Drama, Thriller";
      raw_year := Some 2015%Z; raw_rating := Some (82 # 10);
      raw_runtime := Some 118%Z; raw_votes := Some 250%Z;
      raw_actors := Some "Brie Larson, Jacob Tremblay" |};
   {| raw_title := "Selma"; raw_genre := Some "Biography,Drama";
      raw_year := Some 2014%Z; raw_rating := Some (75 # 10);
      raw_runtime := Some 128%Z; raw_votes := Some 70%Z;
      raw_actors := Some "David Oyelowo" |};
   {| raw_title := "Paddington"; raw_genre := Some "Comedy";
      raw_year := Some 2014%Z; raw_rating := Some (72 # 10);
      raw_runtime := Some 95%Z; raw_votes := Some 80%Z;
      raw_actors := Some "Hugh Bonneville" |}].

Definition example_awards : list OscarRow :=
  [award " Room" "ACTRESS IN A LEADING ROLE" true;
   award "Selma" "BEST PICTURE" false].

Definition example_answers : list string :=
  ["drama"; "7.5"; EmptyString; EmptyString; EmptyString; "brie larson"; "n"].

(** The second line of the listing the example gives. *)
Definition example_line : Line :=
  {| number := 2;
     shown := {| Title := "Selma"; Genre := ["Biography"; "Drama"];
                 Year := 2014; Rating := 75 # 10; Runtime := 128;
                 Votes := 70; Actors := Some "David Oyelowo" |};
     oscar_note := Some ["Nominated for BEST PICTURE"];
     actor_note := false |}.



(** The line printed for the row at index [idx] of [top_matches]: it
    shows that row, with the award lines found for its title, and it
    announces the favourite actor when one is set and the row's actors
    contain it, letter case ignored. *)
Definition line_of (top_matches : list Movie)
    (oscar_df : option (list OscarRow)) (fav_actor : option string)
    (idx : nat) (line : Line) : Prop :=
  top_matches !! idx = Some (shown line)
  /\ check_oscar_status (Title (shown line)) oscar_df = Done (oscar_note line)
  /\ actor_note line
     = (truthy fav_actor
        && actor_contains (default EmptyString fav_actor) (shown line)).

(** The same row as the first line of a listing. *)
Definition example_first : Line :=
  {| number := 1; shown := shown example_line;
     oscar_note := oscar_note example_line; actor_note := false |}.

(* ===================================================================== *)
(** * Facts about patterns and masks *)
(* ===================================================================== *)

Lemma compile_plain (s : string) :
  plain s = true -> Re.compile s = Some (literal s).
Proof.
  induction s as [|c t IH]; simpl; [reflexivity|].
  intros H. apply andb_prop in H as [Hc Ht].
  destruct (Ascii.eqb_spec c Re.dot) as [->|_]; [discriminate Hc|].
  apply negb_true_iff in Hc. rewrite Hc, (IH Ht). reflexivity.
Qed.

Lemma match_here_literal (p s : string) :
  Re.match_here (literal p) s = String.prefix (Py.lower p) (Py.lower s).
Proof.
  revert s. induction p as [|c p IH]; intros s.
  - destruct s; reflexivity.
  - destruct s as [|d s]; simpl; [reflexivity|].
    rewrite IH.
    destruct (ascii_dec (Py.lower_char c) (Py.lower_char d)) as [E|E].
    + rewrite E, Ascii.eqb_refl. reflexivity.
    + apply Ascii.eqb_neq in E. rewrite E. reflexivity.
Qed.

Lemma search_literal (p s : string) :
  Re.search (literal p) s = Py.str_in (Py.lower p) (Py.lower s).
Proof.
  induction s as [|d s IH].
  - simpl. rewrite (match_here_literal p EmptyString). reflexivity.
  - change (Re.search (literal p) (String d s))
      with (Re.match_here (literal p) (String d s) || Re.search (literal p) s).
    rewrite match_here_literal, IH. reflexivity.
Qed.

Lemma search_empty (s : string) : Re.search [] s = true.
Proof. destruct s; reflexivity. Qed.

Lemma boolean_index_map {A : Type} (f : A -> bool) (l : list A) :
  boolean_index l (map f l) = List.filter f l.
Proof.
  unfold boolean_index. induction l as [|x l IH]; simpl; [reflexivity|].
  destruct (f x); simpl; rewrite IH; reflexivity.
Qed.

Lemma boolean_index_labels {A : Type} (f : A -> bool) (l : list A) :
  forall labels : list nat,
    boolean_index (combine labels l) (map f l)
    = List.filter (fun p => f (snd p)) (combine labels l).
Proof.
  unfold boolean_index. induction l as [|x l IH]; intros [|k labels]; simpl;
    try reflexivity.
  destruct (f x); simpl; rewrite IH; reflexivity.
Qed.

(* ===================================================================== *)
(** * check_oscar_status: results *)
(* ===================================================================== *)

(** [check_oscar_status] in one equation, for a title that compiles. *)
Lemma check_oscar_status_compiled (title : string) (re : list Re.item)
    (df : list OscarRow) :
  Re.compile title = Some re ->
  check_oscar_status title (Some df)
  = Done (match List.filter (title_hit re) df with
          | [] => None
          | rows => Some (map oscar_line rows)
          end).
Proof.
  intros Hre. unfold check_oscar_status, str_contains. rewrite Hre.
  rewrite map_map.
  change (map (fun x => match film x with
                        | Some s => Re.search re s
                        | None => false
                        end) df) with (map (title_hit re) df).
  rewrite boolean_index_map.
  destruct (List.filter (title_hit re) df); reflexivity.
Qed.

(** For a title without special characters the selected rows are those
    whose film title contains it, letter case ignored. *)
Lemma check_oscar_status_plain (title : string) (df : list OscarRow) :
  plain title = true ->
  check_oscar_status title (Some df)
  = Done (match List.filter (title_contains title) df with
          | [] => None
          | rows => Some (map oscar_line rows)
          end).
Proof.
  intros Hp. rewrite (check_oscar_status_compiled title (literal title) df)
    by (apply compile_plain; exact Hp).
  replace (List.filter (title_hit (literal title)) df)
    with (List.filter (title_contains title) df); [reflexivity|].
  apply filter_ext. intros row. unfold title_hit, title_contains.
  destruct (film row); [|reflexivity]. symmetry. apply search_literal.
Qed.

(** The status line follows the winner cell: a boolean cell or a text that
    reads "true" up to case and surrounding blanks gives "Winner". *)
Lemma oscar_status_cases :
  oscar_status (Py.CBool true) = "Winner"
  /\ oscar_status (Py.CBool false) = "Nominated"
  /\ oscar_status (Py.CStr " TRUE ") = "Winner"
  /\ oscar_status (Py.CStr "False") = "Nominated"
  /\ oscar_status Py.CNaN = "Nominated".
Proof. repeat split; reflexivity. Qed.

Lemma dark_knight_found :
  check_oscar_status "dark knight"
    (Some [award "Avatar" "CINEMATOGRAPHY" true;
           award "The Dark Knight" "SOUND EDITING" true;
           award "The Dark Knight" "FILM EDITING" false])
  = Done (Some ["Winner for SOUND EDITING"; "Nominated for FILM EDITING"]).
Proof. reflexivity. Qed.

(** C8: the lookup is meant to select the award rows whose film title
    contains the queried title, letter case ignored.  The title is handed
    to [str.contains] as a regular expression: for the title "Mr. Turner"
    the row of the film "Mrs Turner" is selected although that film title
    does not contain "Mr. Turner". *)
Theorem check_oscar_status_title_is_pattern :
  let row := award "Mrs Turner" "ACTRESS IN A LEADING ROLE" false in
  title_contains "Mr. Turner" row = false
  /\ check_oscar_status "Mr. Turner" (Some [row])
     = Done (Some ["Nominated for ACTRESS IN A LEADING ROLE"]).
Proof. split; reflexivity. Qed.

(** C9, as stated, fails: without an award table, and with a table in
    which nothing matches, the result is [None], not an empty list. *)
Lemma check_oscar_status_not_empty_list :
  check_oscar_status "Up" None <> Done (Some [])
  /\ check_oscar_status "Up" (Some [award "Gravity" "DIRECTING" true])
     <> Done (Some []).
Proof. split; discriminate. Qed.

(** C9, amended: the lookup returns [None] when there is no award table
    and when no row of the table matches the title; it never returns an
    empty list. *)
Theorem check_oscar_status_absent (title : string) :
  check_oscar_status title None = Done None
  /\ (forall re df,
        Re.compile title = Some re ->
        List.filter (title_hit re) df = [] ->
        check_oscar_status title (Some df) = Done None)
  /\ (forall oscar_df, check_oscar_status title oscar_df <> Done (Some [])).
Proof.
  split; [reflexivity|]. split.
  - intros re df Hre Hnone.
    rewrite (check_oscar_status_compiled title re df Hre), Hnone. reflexivity.
  - intros [df|]; [|discriminate].
    unfold check_oscar_status.
    destruct (str_contains title (map film df)) as [mask|]; [|discriminate].
    destruct (boolean_index df mask); discriminate.
Qed.

Lemma check_oscar_status_absent_witness :
  check_oscar_status "Up" (Some [award "Gravity" "DIRECTING" true]) = Done None.
Proof.
  apply (proj1 (proj2 (check_oscar_status_absent "Up")) (literal "Up"));
    reflexivity.
Defined.

(** C10: the empty title matches every row with a film title, so for a
    table without missing titles the mask is all [True] and, when the
    table has a row, the result holds one line per row, in order. *)
Theorem check_oscar_status_empty_title (df : list OscarRow) :
  Forall (fun row => film row <> None) df ->
  str_contains "" (map film df) = Done (replicate (length df) true)
  /\ (df <> [] ->
      check_oscar_status "" (Some df) = Done (Some (map oscar_line df))).
Proof.
  intros Hfilm.
  assert (Hall : List.filter (title_hit []) df = df).
  { induction Hfilm as [|row df Hrow _ IH]; simpl; [reflexivity|].
    unfold title_hit at 1. destruct (film row) as [f|]; [|contradiction].
    rewrite search_empty, IH. reflexivity. }
  split.
  - clear Hall. unfold str_contains. simpl. f_equal.
    induction Hfilm as [|row df Hrow _ IH]; simpl; [reflexivity|].
    destruct (film row) as [f|]; [|contradiction].
    rewrite search_empty, IH. reflexivity.
  - intros Hne.
    rewrite (check_oscar_status_compiled "" [] df eq_refl), Hall.
    destruct df; [contradiction|reflexivity].
Qed.

Lemma check_oscar_status_empty_title_witness :
  check_oscar_status ""
    (Some [award "Gravity" "DIRECTING" true; award "Her" "BEST PICTURE" false])
  = Done (Some ["Winner for DIRECTING"; "Nominated for BEST PICTURE"]).
Proof.
  assert (H : Forall (fun row => film row <> None)
                [award "Gravity" "DIRECTING" true;
                 award "Her" "BEST PICTURE" false])
    by (repeat constructor; discriminate).
  apply (proj2 (check_oscar_status_empty_title _ H)). discriminate.
Defined.

(* ===================================================================== *)
(** * Stable sorting *)
(* ===================================================================== *)

Lemma insert_row_perm {A : Type} (le : A -> A -> bool) (x : A) (l : list A) :
  Permutation (insert_row le x l) (x :: l).
Proof.
  induction l as [|y t IH]; simpl; [reflexivity|].
  destruct (le x y); [reflexivity|].
  rewrite IH. apply perm_swap.
Qed.

Lemma sort_values_perm {A : Type} (le : A -> A -> bool) (l : list A) :
  Permutation (sort_values le l) l.
Proof.
  induction l as [|x l IH]; simpl; [reflexivity|].
  rewrite insert_row_perm, IH. reflexivity.
Qed.

Lemma StronglySorted_pairs {A : Type} (R : A -> A -> Prop) (l : list A) :
  StronglySorted R l ->
  forall i j a b, i < j -> l !! i = Some a -> l !! j = Some b -> R a b.
Proof.
  intros Hs. induction Hs as [|x l Hs IH Hall]; intros i j a b Hij Hi Hj.
  - discriminate.
  - destruct j as [|j]; [lia|]. simpl in Hj.
    destruct i as [|i]; simpl in Hi.
    + injection Hi as <-. rewrite Forall_forall in Hall.
      apply Hall. eapply list_elem_of_lookup_2. exact Hj.
    + apply (IH i j); [lia|assumption..].
Qed.

Lemma StronglySorted_filter_list {A : Type} (R : A -> A -> Prop)
    (f : A -> bool) (l : list A) :
  StronglySorted R l -> StronglySorted R (List.filter f l).
Proof.
  intros Hs. induction Hs as [|x l Hs IH Hall]; simpl; [constructor|].
  destruct (f x); [|exact IH].
  constructor; [exact IH|].
  rewrite List.Forall_forall in *. intros y Hy. apply Hall.
  apply filter_In in Hy as [Hy _]. exact Hy.
Qed.

Section StableSort.

Context {A : Type} (le : A -> A -> bool) (label : A -> nat).
Hypothesis le_total : forall a b, le a b = true \/ le b a = true.
Hypothesis le_trans :
  forall a b c, le a b = true -> le b c = true -> le a c = true.

Lemma insert_row_stable (x : A) (l : list A) :
  StronglySorted (stands_before le label) l ->
  Forall (fun y => label x < label y) l ->
  StronglySorted (stands_before le label) (insert_row le x l).
Proof.
  intros Hs. induction Hs as [|y t Hs IH Hy]; intros Hx; simpl.
  - repeat constructor.
  - apply Forall_cons in Hx as [Hxy Hxt].
    destruct (le x y) eqn:E.
    + constructor; [constructor; assumption|].
      constructor; [split; [exact E|intros _; exact Hxy]|].
      rewrite Forall_forall in *. intros z Hz. split.
      * apply (le_trans x y z E). apply (Hy z Hz).
      * intros _. apply (Hxt z Hz).
    + constructor; [apply IH; exact Hxt|].
      apply (Permutation_Forall (Permutation_sym (insert_row_perm le x t))).
      constructor; [|exact Hy].
      split; [|congruence].
      destruct (le_total x y) as [H|H]; [congruence|exact H].
Qed.

Lemma sort_values_stable (l : list A) :
  StronglySorted (fun a b => label a < label b) l ->
  StronglySorted (stands_before le label) (sort_values le l).
Proof.
  intros Hs. induction Hs as [|x l Hs IH Hx]; simpl; [constructor|].
  apply insert_row_stable; [exact IH|].
  apply (Permutation_Forall (Permutation_sym (sort_values_perm le l))).
  exact Hx.
Qed.

End StableSort.

Lemma insert_row_ext {A : Type} (le le' : A -> A -> bool) (x : A) (l : list A) :
  (forall a b, le a b = le' a b) -> insert_row le x l = insert_row le' x l.
Proof.
  intros H. induction l as [|y t IH]; simpl; [reflexivity|].
  rewrite H, IH. reflexivity.
Qed.

Lemma sort_values_ext {A : Type} (le le' : A -> A -> bool) (l : list A) :
  (forall a b, le a b = le' a b) -> sort_values le l = sort_values le' l.
Proof.
  intros H. induction l as [|x l IH]; simpl; [reflexivity|].
  rewrite IH. apply insert_row_ext. exact H.
Qed.

(** Sorting decorated rows is decorating the sorted rows. *)
Lemma insert_row_map {A B : Type} (h : A -> B) (le : B -> B -> bool)
    (x : A) (l : list A) :
  insert_row le (h x) (map h l)
  = map h (insert_row (fun a b => le (h a) (h b)) x l).
Proof.
  induction l as [|y t IH]; simpl; [reflexivity|].
  destruct (le (h x) (h y)); simpl; [reflexivity|].
  rewrite IH. reflexivity.
Qed.

Lemma sort_values_map {A B : Type} (h : A -> B) (le : B -> B -> bool)
    (l : list A) :
  sort_values le (map h l)
  = map h (sort_values (fun a b => le (h a) (h b)) l).
Proof.
  induction l as [|x l IH]; simpl; [reflexivity|].
  rewrite IH. apply insert_row_map.
Qed.

(* ===================================================================== *)
(** * The sort keys of filter_movies *)
(* ===================================================================== *)

Lemma rating_votes_desc_spec (a b : Movie) :
  rating_votes_desc a b = true <->
  (Rating b < Rating a)%Q \/ (Rating a == Rating b /\ (Votes b <= Votes a)%Z).
Proof.
  unfold rating_votes_desc.
  destruct (Rating a ?= Rating b)%Q eqn:E.
  - apply Qeq_alt in E. rewrite Z.leb_le. split.
    + intros H. right. split; assumption.
    + intros [H|[_ H]]; [lra|exact H].
  - apply Qlt_alt in E. split; [discriminate|].
    intros [H|[H _]]; lra.
  - apply Qgt_alt in E. split; [intros _; left; exact E|reflexivity].
Qed.

Lemma rating_votes_desc_total (a b : Movie) :
  rating_votes_desc a b = true \/ rating_votes_desc b a = true.
Proof.
  rewrite !rating_votes_desc_spec.
  destruct (Qlt_le_dec (Rating b) (Rating a)) as [H|H]; [left; left; exact H|].
  destruct (Qlt_le_dec (Rating a) (Rating b)) as [H'|H']; [right; left; exact H'|].
  assert (Rating a == Rating b) by lra.
  destruct (Z.le_ge_cases (Votes b) (Votes a)).
  - left. right. split; assumption.
  - right. right. split; [lra|assumption].
Qed.

Lemma rating_votes_desc_trans (a b c : Movie) :
  rating_votes_desc a b = true -> rating_votes_desc b c = true ->
  rating_votes_desc a c = true.
Proof.
  rewrite !rating_votes_desc_spec.
  intros [H1|[H1 V1]] [H2|[H2 V2]].
  - left. lra.
  - left. lra.
  - left. lra.
  - right. split; [lra|lia].
Qed.

Lemma actor_rating_votes_desc_total (a b : bool * Movie) :
  actor_rating_votes_desc a b = true \/ actor_rating_votes_desc b a = true.
Proof.
  destruct a as [[] a], b as [[] b]; unfold actor_rating_votes_desc; simpl;
    auto using rating_votes_desc_total.
Qed.

Lemma actor_rating_votes_desc_trans (a b c : bool * Movie) :
  actor_rating_votes_desc a b = true -> actor_rating_votes_desc b c = true ->
  actor_rating_votes_desc a c = true.
Proof.
  destruct a as [[] a], b as [[] b], c as [[] c];
    unfold actor_rating_votes_desc; simpl;
    try discriminate; try reflexivity; apply rating_votes_desc_trans.
Qed.

Lemma rank_le_total (prefs : Prefs) (a b : nat * Movie) :
  rank_le prefs a b = true \/ rank_le prefs b a = true.
Proof. apply actor_rating_votes_desc_total. Qed.

Lemma rank_le_trans (prefs : Prefs) (a b c : nat * Movie) :
  rank_le prefs a b = true -> rank_le prefs b c = true ->
  rank_le prefs a c = true.
Proof. apply actor_rating_votes_desc_trans. Qed.

(** A row with actor-match status [True] never stands after one with
    status [False]. *)
Lemma rank_le_actor_first (prefs : Prefs) (a b : nat * Movie) :
  rank_le prefs a b = true ->
  actor_match prefs (snd b) = true -> actor_match prefs (snd a) = true.
Proof.
  unfold rank_le, actor_rating_votes_desc. simpl.
  destruct (actor_match prefs (snd a)), (actor_match prefs (snd b));
    intros; congruence.
Qed.

(** Tied rows: same status, equal rating, equal votes. *)
Lemma rank_le_tie (prefs : Prefs) (a b : nat * Movie) :
  actor_match prefs (snd a) = actor_match prefs (snd b) ->
  Rating (snd a) == Rating (snd b) ->
  Votes (snd a) = Votes (snd b) ->
  rank_le prefs a b = true.
Proof.
  intros Hm Hr Hv. unfold rank_le, actor_rating_votes_desc. simpl.
  rewrite Hm.
  assert (rating_votes_desc (snd a) (snd b) = true) as ->.
  { apply rating_votes_desc_spec. right. split; [exact Hr|lia]. }
  destruct (actor_match prefs (snd b)); reflexivity.
Qed.

(* ===================================================================== *)
(** * filter_movies: the mask and the ranked frame *)
(* ===================================================================== *)

Lemma mask_and_map {A : Type} (f g : A -> bool) (l : list A) :
  mask_and (map f l) (map g l) = map (fun x => f x && g x) l.
Proof.
  unfold mask_and. induction l as [|x l IH]; simpl; [reflexivity|].
  rewrite IH. reflexivity.
Qed.

Lemma narrow_map {P : Type} (pref : option P) (test : P -> Movie -> bool)
    (f : Movie -> bool) (df : list Movie) :
  narrow pref test df (map f df)
  = map (fun row => f row && allows pref test row) df.
Proof.
  destruct pref as [p|]; simpl.
  - apply mask_and_map.
  - apply map_ext. intros row. rewrite andb_true_r. reflexivity.
Qed.

Lemma replicate_map_const {A B : Type} (b : B) (l : list A) :
  replicate (length l) b = map (fun _ => b) l.
Proof. induction l as [|x l IH]; simpl; [reflexivity|]. rewrite IH. reflexivity. Qed.

Lemma filter_mask_keeps (df : list Movie) (prefs : Prefs) :
  filter_mask df prefs = map (keeps prefs) df.
Proof.
  unfold filter_mask. rewrite replicate_map_const.
  destruct (truthy (genre prefs)) eqn:E.
  - rewrite !narrow_map. apply map_ext. intros row.
    unfold keeps. rewrite E. reflexivity.
  - rewrite !narrow_map. apply map_ext. intros row.
    unfold keeps. rewrite E. reflexivity.
Qed.

Lemma combine_map_self {A B : Type} (g : A -> B) (l : list A) :
  combine (map g l) l = map (fun x => (g x, x)) l.
Proof. induction l as [|x l IH]; simpl; [reflexivity|]. rewrite IH. reflexivity. Qed.

Lemma filtered_df_kept (df : list Movie) (prefs : Prefs) :
  boolean_index (labelled df) (filter_mask df prefs) = kept df prefs.
Proof. rewrite filter_mask_keeps. apply boolean_index_labels. Qed.

(** [filter_movies] in one equation: the kept rows, sorted on the key
    (actor-match status, rating, votes), all three descending. *)
Lemma filter_movies_unfold (df : list Movie) (prefs : Prefs) :
  filter_movies df prefs
  = if truthy (fav_actor prefs) then
      let actor := default EmptyString (fav_actor prefs) in
      if negb (has_str (map Actors df)) then Unsupported
      else
        match Re.compile actor with
        | Some re =>
            Done (if existsb id (map (fun p => actor_hit re (snd p)) (kept df prefs))
                  then [] else [NoActorMatch actor],
                  sort_values (rank_le prefs) (kept df prefs))
        | None => Unsupported
        end
    else Done ([], sort_values (rank_le prefs) (kept df prefs)).
Proof.
  unfold filter_movies. rewrite filtered_df_kept.
  destruct (truthy (fav_actor prefs)) eqn:E.
  - unfold str_contains. cbv zeta.
    destruct (negb (has_str (map Actors df))); [reflexivity|].
    destruct (Re.compile (default EmptyString (fav_actor prefs))) as [re|] eqn:C;
      [|reflexivity].
    rewrite map_map.
    change (map (fun x : nat * Movie =>
                   match Actors (snd x) with
                   | Some s => Re.search re s
                   | None => false
                   end) (kept df prefs))
      with (map (fun p : nat * Movie => actor_hit re (snd p)) (kept df prefs)).
    rewrite combine_map_self.
    rewrite (sort_values_map (fun p : nat * Movie => (actor_hit re (snd p), p))).
    rewrite map_map. simpl. rewrite map_id.
    do 2 f_equal. apply sort_values_ext. intros a b.
    unfold rank_le, actor_match. rewrite E, C. reflexivity.
  - f_equal. f_equal. apply sort_values_ext. intros a b.
    unfold rank_le, actor_match, on_row. rewrite E. reflexivity.
Qed.

Lemma labels_increasing {A : Type} (l : list A) (k : nat) :
  StronglySorted (fun a b : nat * A => fst a < fst b)
    (combine (seq k (length l)) l).
Proof.
  revert k. induction l as [|x l IH]; intros k; simpl; constructor.
  - apply IH.
  - rewrite List.Forall_forall. intros [i y] Hin. simpl.
    apply in_combine_l in Hin. apply in_seq in Hin. lia.
Qed.

Lemma labelled_lookup (df : list Movie) (i : nat) (row : Movie) :
  In (i, row) (labelled df) <-> df !! i = Some row.
Proof.
  unfold labelled.
  assert (G : forall k, In (i, row) (combine (seq k (length df)) df)
                        <-> k <= i /\ df !! (i - k) = Some row).
  { induction df as [|x df IH]; intros k; simpl.
    - split; [contradiction|]. intros [_ H]. discriminate.
    - rewrite IH. split.
      + intros [H|[H1 H2]].
        * injection H as -> ->. split; [lia|]. rewrite Nat.sub_diag. reflexivity.
        * split; [lia|]. replace (i - k) with (S (i - S k)) by lia. exact H2.
      + intros [H1 H2]. destruct (i - k) as [|m] eqn:E.
        * left. simpl in H2. injection H2 as ->. f_equal. lia.
        * right. split; [lia|]. simpl in H2.
          replace (i - S k) with m by lia. exact H2. }
  rewrite G. rewrite Nat.sub_0_r. split; [intros [_ H]; exact H|].
  intros H. split; [lia|exact H].
Qed.

Lemma labelled_rows {A : Type} (f : A -> bool) (l : list A) (labels : list nat) :
  length labels = length l ->
  map snd (List.filter (fun p => f (snd p)) (combine labels l))
  = List.filter f l.
Proof.
  revert labels. induction l as [|x l IH]; intros [|k labels] Hlen;
    simpl in *; try reflexivity; try discriminate.
  destruct (f x); simpl; rewrite IH by lia; reflexivity.
Qed.

Lemma kept_rows (df : list Movie) (prefs : Prefs) :
  map snd (kept df prefs) = List.filter (keeps prefs) df.
Proof. apply labelled_rows. apply length_seq. Qed.

(** What every successful call returns: a permutation of the kept rows,
    in the stable order of the sort key. *)
Lemma filter_movies_ranked (df : list Movie) (prefs : Prefs)
    (out : list event) (ranked : DataFrame) :
  filter_movies df prefs = Done (out, ranked) ->
  Permutation ranked (kept df prefs)
  /\ StronglySorted (ranks_before prefs) ranked.
Proof.
  intros H.
  assert (E : ranked = sort_values (rank_le prefs) (kept df prefs)).
  { rewrite filter_movies_unfold in H.
    destruct (truthy (fav_actor prefs)).
    - cbv zeta in H.
      destruct (negb (has_str (map Actors df))); [discriminate|].
      destruct (Re.compile (default EmptyString (fav_actor prefs)));
        [|discriminate].
      injection H as _ <-. reflexivity.
    - injection H as _ <-. reflexivity. }
  subst ranked. split; [apply sort_values_perm|].
  apply sort_values_stable.
  - apply rank_le_total.
  - apply rank_le_trans.
  - apply StronglySorted_filter_list. apply labels_increasing.
Qed.

(** The call succeeds whenever the favourite actor, if any, is free of
    special characters and the [Actors] column holds text. *)
Lemma filter_movies_returns (df : list Movie) (prefs : Prefs) :
  (truthy (fav_actor prefs) = true ->
   plain (default EmptyString (fav_actor prefs)) = true
   /\ has_str (map Actors df) = true) ->
  exists out, filter_movies df prefs
              = Done (out, sort_values (rank_le prefs) (kept df prefs)).
Proof.
  intros Hp. rewrite filter_movies_unfold.
  destruct (truthy (fav_actor prefs)); [|eexists; reflexivity].
  destruct (Hp eq_refl) as [Hplain Hstr].
  cbv zeta. rewrite Hstr, (compile_plain _ Hplain). eexists; reflexivity.
Qed.

Lemma ranked_row_in_catalog (df : list Movie) (prefs : Prefs) (a : nat * Movie) :
  In a (kept df prefs) -> df !! fst a = Some (snd a) /\ keeps prefs (snd a) = true.
Proof.
  unfold kept. intros H. apply filter_In in H as [H K]. split; [|exact K].
  destruct a as [i row]. apply labelled_lookup. exact H.
Qed.

(** With a favourite actor free of special characters the actor-match
    status is the literal containment test. *)
Lemma actor_match_plain (actor : string) (prefs : Prefs) (row : Movie) :
  fav_actor prefs = Some actor -> truthy (Some actor) = true ->
  plain actor = true ->
  actor_match prefs row = actor_contains actor row.
Proof.
  intros E T P. unfold actor_match, actor_contains, actor_hit, features.
  rewrite E, T. simpl. rewrite (compile_plain actor P).
  destruct (Actors row); [apply search_literal|reflexivity].
Qed.

(** Rows with actor-match status [True] come before all others. *)
Lemma filter_movies_actor_first (df : list Movie) (prefs : Prefs)
    (out : list event) (ranked : DataFrame) :
  filter_movies df prefs = Done (out, ranked) ->
  forall i j a b,
    i < j -> ranked !! i = Some a -> ranked !! j = Some b ->
    actor_match prefs (snd b) = true -> actor_match prefs (snd a) = true.
Proof.
  intros H i j a b Hij Ha Hb Hm.
  apply filter_movies_ranked in H as [_ Hs].
  destruct (StronglySorted_pairs _ _ Hs i j a b Hij Ha Hb) as [Hle _].
  exact (rank_le_actor_first prefs a b Hle Hm).
Qed.

(* ===================================================================== *)
(** * filter_movies: results *)
(* ===================================================================== *)

(** C5: rows whose actors contain the favourite actor are meant to come
    before all other rows.  [filter_movies] reads the favourite actor as a
    regular expression, while [show_recommendations] tests literal
    containment: for "J.K. Simmons" a row with "Jake Simmons" counts as a
    match in the ranking and, with the higher rating, is ranked above the
    row that does contain "J.K. Simmons". *)
Theorem filter_movies_actor_is_pattern :
  let jk := drama "Whiplash" (85 # 10) 500 "Miles Teller, J.K. Simmons" in
  let jake := drama "Overdrive" (9 # 1) 20 "Jake Simmons, Ana Reyes" in
  actor_contains "J.K. Simmons" jk = true
  /\ actor_contains "J.K. Simmons" jake = false
  /\ filter_movies [jk; jake] (with_fav_actor "J.K. Simmons")
     = Done ([], [(1, jake); (0, jk)]).
Proof. repeat split; reflexivity. Qed.

(** C6: the ranking is stable on full ties.  The call returns whenever the
    favourite actor is unset, or is free of special characters with an
    [Actors] column that holds text; and two rows of a returned ranking
    with equal rating, equal votes and the same actor-match status stand
    in the order of their catalog positions, the labels being those
    positions.  The status is the row's entry in [actor_mask] ([False]
    for all rows without a favourite actor); for a favourite actor free of
    special characters it is the literal containment test. *)
Theorem filter_movies_stable (df : list Movie) (prefs : Prefs) :
  ((truthy (fav_actor prefs) = true ->
    plain (default EmptyString (fav_actor prefs)) = true
    /\ has_str (map Actors df) = true) ->
   exists out ranked, filter_movies df prefs = Done (out, ranked))
  /\ (forall out ranked,
        filter_movies df prefs = Done (out, ranked) ->
        forall i j a b,
          i < j -> ranked !! i = Some a -> ranked !! j = Some b ->
          Rating (snd a) == Rating (snd b) ->
          Votes (snd a) = Votes (snd b) ->
          actor_match prefs (snd a) = actor_match prefs (snd b) ->
          fst a < fst b
          /\ df !! fst a = Some (snd a) /\ df !! fst b = Some (snd b))
  /\ (forall actor row,
        fav_actor prefs = Some actor -> truthy (Some actor) = true ->
        plain actor = true ->
        actor_match prefs row = actor_contains actor row).
Proof.
  split; [|split].
  - intros Hp. destruct (filter_movies_returns df prefs Hp) as [out H].
    eauto.
  - intros out ranked H i j a b Hij Ha Hb Hr Hv Hm.
    apply filter_movies_ranked in H as [Hperm Hs].
    destruct (StronglySorted_pairs _ _ Hs i j a b Hij Ha Hb) as [_ Htie].
    split.
    + apply Htie. apply rank_le_tie; [congruence|symmetry; exact Hr|congruence].
    + split; eapply ranked_row_in_catalog;
        apply (Permutation_in _ Hperm); apply list_elem_of_In;
        eapply list_elem_of_lookup_2; eassumption.
  - intros actor row E T P. apply actor_match_plain; assumption.
Qed.

Lemma filter_movies_stable_witness :
  let a := drama "Boyhood" (79 # 10) 300 "Ellar Coltrane" in
  let b := drama "Selma" (79 # 10) 300 "David Oyelowo" in
  let c := drama "Whiplash" (85 # 10) 500 "Miles Teller" in
  filter_movies [a; b; c] no_prefs = Done ([], [(2, c); (0, a); (1, b)])
  /\ 0 < 1.
Proof.
  intros a b c.
  assert (H : filter_movies [a; b; c] no_prefs
              = Done ([], [(2, c); (0, a); (1, b)])) by reflexivity.
  split; [exact H|].
  apply (proj1 (proj2 (filter_movies_stable [a; b; c] no_prefs)) _ _ H
           1 2 (0, a) (1, b)); try reflexivity. lia.
Defined.

(** C7: with only a minimum rating [r] set, the call returns, prints
    nothing, and the ranking holds exactly the catalog rows rated at least
    [r]: the same rows with the same multiplicity, each under its catalog
    position. *)
Theorem filter_movies_min_rating (df : list Movie) (r : Q)
    (actor : option string) :
  truthy actor = false ->
  exists ranked,
    filter_movies df (with_min_rating r actor) = Done ([], ranked)
    /\ Permutation (map snd ranked)
         (List.filter (fun row => Qle_bool r (Rating row)) df)
    /\ (forall row, In row (map snd ranked)
                    <-> In row df /\ (r <= Rating row)%Q)
    /\ (forall i row, In (i, row) ranked
                      <-> df !! i = Some row /\ (r <= Rating row)%Q).
Proof.
  intros Hactor. set (prefs := with_min_rating r actor).
  assert (K : forall row, keeps prefs row = Qle_bool r (Rating row)).
  { intros row. unfold keeps. simpl. rewrite !andb_true_r. reflexivity. }
  assert (H : filter_movies df prefs
              = Done ([], sort_values (rank_le prefs) (kept df prefs))).
  { rewrite filter_movies_unfold. simpl. rewrite Hactor. reflexivity. }
  exists (sort_values (rank_le prefs) (kept df prefs)).
  split; [exact H|].
  pose proof (sort_values_perm (rank_le prefs) (kept df prefs)) as Hperm.
  assert (Hrows : Permutation
            (map snd (sort_values (rank_le prefs) (kept df prefs)))
            (List.filter (fun row => Qle_bool r (Rating row)) df)).
  { rewrite (Permutation_map snd Hperm), kept_rows.
    rewrite (filter_ext _ _ K). reflexivity. }
  split; [exact Hrows|]. split.
  - intros row. split.
    + intros Hin. apply (Permutation_in _ Hrows) in Hin.
      apply filter_In in Hin as [Hin Hr]. split; [exact Hin|].
      apply Qle_bool_iff. exact Hr.
    + intros [Hin Hr]. apply (Permutation_in _ (Permutation_sym Hrows)).
      apply filter_In. split; [exact Hin|]. apply Qle_bool_iff. exact Hr.
  - intros i row. split.
    + intros Hin. apply (Permutation_in _ Hperm) in Hin.
      apply ranked_row_in_catalog in Hin as [Hl Hk]. simpl in Hl.
      split; [exact Hl|]. apply Qle_bool_iff. rewrite <- K. exact Hk.
    + intros [Hl Hr]. apply (Permutation_in _ (Permutation_sym Hperm)).
      unfold kept. apply filter_In. split.
      * apply labelled_lookup. exact Hl.
      * simpl. rewrite K. apply Qle_bool_iff. exact Hr.
Qed.

Lemma filter_movies_min_rating_witness :
  exists ranked,
    filter_movies [drama "Boyhood" (79 # 10) 300 "Ellar Coltrane";
                   drama "Whiplash" (85 # 10) 500 "Miles Teller"]
                  (with_min_rating (8 # 1) (Some EmptyString))
    = Done ([], ranked).
Proof.
  destruct (filter_movies_min_rating
              [drama "Boyhood" (79 # 10) 300 "Ellar Coltrane";
               drama "Whiplash" (85 # 10) 500 "Miles Teller"]
              (8 # 1) (Some EmptyString) eq_refl) as [ranked [H _]].
  exists ranked. exact H.
Defined.

(* ===================================================================== *)
(** * The set of seen indices *)
(* ===================================================================== *)

Lemma iter_lookup (t : PySet.table) (w : Z) :
  w ∈ PySet.iter t <-> exists i, t !! i = Some (Some w).
Proof.
  unfold PySet.iter. rewrite list_elem_of_omap. split.
  - intros [x [Hx Hw]]. simpl in Hw. subst x.
    apply list_elem_of_lookup in Hx. exact Hx.
  - intros [i Hi]. exists (Some w). split; [|reflexivity].
    eapply list_elem_of_lookup_2. exact Hi.
Qed.

Lemma slot_small (t : PySet.table) (v : Z) :
  PySet.min_size <= length t -> small v -> PySet.slot t v = Z.to_nat v.
Proof.
  unfold small, PySet.slot, PySet.min_size. intros Hlen Hv.
  rewrite Z.mod_small by lia. reflexivity.
Qed.

Lemma direct_replicate (n : nat) :
  PySet.min_size <= n -> direct (replicate n None).
Proof.
  intros Hn. split; [rewrite length_replicate; exact Hn|].
  intros i w H. apply lookup_replicate in H as [H _]. discriminate.
Qed.

Lemma direct_small (t : PySet.table) (w : Z) :
  direct t -> w ∈ PySet.iter t -> small w.
Proof.
  intros [_ Hd] Hw. apply iter_lookup in Hw as [i Hi].
  destruct (Hd i w Hi) as [-> Hlt]. unfold small. lia.
Qed.

(** Storing a small value in a direct table: its slot is free or holds the
    value already. *)
Lemma direct_slot (t : PySet.table) (v : Z) :
  direct t -> small v ->
  t !! PySet.slot t v = Some None \/ t !! PySet.slot t v = Some (Some v).
Proof.
  intros [Hlen Hd] Hv. rewrite (slot_small t v Hlen Hv).
  assert (Hlt : Z.to_nat v < length t).
  { unfold small, PySet.min_size in *. lia. }
  apply lookup_lt_is_Some in Hlt as [x Hx].
  destruct x as [w|]; [|left; exact Hx].
  right. destruct (Hd _ _ Hx) as [-> _]. rewrite Hx.
  unfold small in Hv. do 2 f_equal. lia.
Qed.

Lemma direct_insert (t : PySet.table) (v : Z) :
  direct t -> small v ->
  direct (<[PySet.slot t v := Some v]> t)
  /\ forall w, w ∈ PySet.iter (<[PySet.slot t v := Some v]> t)
               <-> w = v \/ w ∈ PySet.iter t.
Proof.
  intros Hdir Hv. destruct (direct_slot t v Hdir Hv) as [Hfree|Hown].
  - destruct Hdir as [Hlen Hd]. rewrite (slot_small t v Hlen Hv) in *.
    assert (Hlt : Z.to_nat v < length t) by (eapply lookup_lt_Some; eauto).
    split; [split|].
    + rewrite length_insert. exact Hlen.
    + intros i w Hi. apply list_lookup_insert_Some in Hi as [[<- [E _]]|[_ Hi]].
      * injection E as <-. unfold small in Hv. lia.
      * apply Hd. exact Hi.
    + intros w. rewrite !iter_lookup. split.
      * intros [i Hi].
        apply list_lookup_insert_Some in Hi as [[_ [E _]]|[_ Hi]].
        -- left. congruence.
        -- right. exists i. exact Hi.
      * intros [->|[i Hi]].
        -- exists (Z.to_nat v). apply list_lookup_insert_eq. exact Hlt.
        -- exists i. apply list_lookup_insert_Some. right. split; [|exact Hi].
           intros <-. congruence.
  - rewrite list_insert_id by exact Hown. split; [exact Hdir|].
    intros w. split; [auto|]. intros [->|H]; [|exact H].
    apply iter_lookup. eauto.
Qed.

Lemma put_direct (t : PySet.table) (v : Z) :
  direct t -> small v ->
  exists t', PySet.put t v = Some t' /\ direct t'
             /\ forall w, w ∈ PySet.iter t' <-> w = v \/ w ∈ PySet.iter t.
Proof.
  intros Hdir Hv. unfold PySet.put.
  assert ((v <? 0)%Z = false) as -> by (unfold small in Hv; lia).
  destruct (direct_slot t v Hdir Hv) as [Hfree|Hown].
  - rewrite Hfree. eexists. split; [reflexivity|].
    apply direct_insert; assumption.
  - rewrite Hown, Z.eqb_refl. eexists. split; [reflexivity|].
    split; [exact Hdir|]. intros w. split; [auto|]. intros [->|H]; [|exact H].
    apply iter_lookup. eauto.
Qed.

Lemma put_all_direct (vs : list Z) :
  forall t, direct t -> Forall small vs ->
  exists t', PySet.put_all t vs = Some t' /\ direct t'
             /\ forall w, w ∈ PySet.iter t' <-> w ∈ vs \/ w ∈ PySet.iter t.
Proof.
  induction vs as [|v vs IH]; intros t Hdir Hvs; simpl.
  - exists t. split; [reflexivity|]. split; [exact Hdir|].
    intros w. rewrite elem_of_nil. tauto.
  - apply Forall_cons in Hvs as [Hv Hvs].
    destruct (put_direct t v Hdir Hv) as [t1 [-> [Hd1 Hm1]]].
    destruct (IH t1 Hd1 Hvs) as [t2 [-> [Hd2 Hm2]]].
    exists t2. split; [reflexivity|]. split; [exact Hd2|].
    intros w. rewrite Hm2, Hm1, elem_of_cons. tauto.
Qed.

Lemma new_size_ge (fuel size minused : nat) :
  size <= PySet.new_size fuel size minused.
Proof.
  revert size. induction fuel as [|fuel IH]; intros size; simpl; [lia|].
  destruct (size <=? minused); [|lia].
  specialize (IH (size + (size + 0))). lia.
Qed.

Lemma resize_direct (t : PySet.table) :
  direct t ->
  exists t', PySet.resize t = Some t' /\ direct t'
             /\ forall w, w ∈ PySet.iter t' <-> w ∈ PySet.iter t.
Proof.
  intros Hdir. unfold PySet.resize.
  set (n := PySet.new_size _ _ _).
  assert (Hn : PySet.min_size <= n) by apply new_size_ge.
  destruct (put_all_direct (omap id t) (replicate n None))
    as [t' [Hput [Hd Hm]]].
  - apply direct_replicate. exact Hn.
  - apply Forall_forall. intros w Hw. apply (direct_small t w Hdir Hw).
  - exists t'. split; [exact Hput|]. split; [exact Hd|].
    intros w. rewrite Hm. split; [|auto]. intros [H|H]; [exact H|].
    apply iter_lookup in H as [i Hi].
    apply lookup_replicate in Hi as [Hi _]. discriminate.
Qed.

(** [add] on a direct table succeeds, keeps the table direct and adds the
    value to the elements. *)
Lemma add_direct (t : PySet.table) (v : Z) :
  direct t -> small v ->
  exists t', PySet.add t v = Some t' /\ direct t'
             /\ forall w, w ∈ PySet.iter t' <-> w = v \/ w ∈ PySet.iter t.
Proof.
  intros Hdir Hv. unfold PySet.add.
  assert ((v <? 0)%Z = false) as -> by (unfold small in Hv; lia).
  destruct (direct_slot t v Hdir Hv) as [Hfree|Hown].
  - rewrite Hfree. cbv zeta.
    destruct (direct_insert t v Hdir Hv) as [Hd Hm].
    destruct (_ <? _).
    + eexists. split; [reflexivity|]. split; assumption.
    + destruct (resize_direct _ Hd) as [t' [Hr [Hd' Hm']]].
      exists t'. split; [exact Hr|]. split; [exact Hd'|].
      intros w. rewrite Hm', Hm. reflexivity.
  - rewrite Hown, Z.eqb_refl. eexists. split; [reflexivity|].
    split; [exact Hdir|]. intros w. split; [auto|]. intros [->|H]; [|exact H].
    apply iter_lookup. eauto.
Qed.

Lemma omap_increasing (t : PySet.table) :
  forall k,
    (forall i w, t !! i = Some (Some w) -> w = Z.of_nat (k + i)) ->
    StronglySorted Z.lt (omap id t)
    /\ Forall (fun w => (Z.of_nat k <= w)%Z) (omap id t).
Proof.
  induction t as [|x t IH]; intros k Hd; simpl.
  - split; constructor.
  - destruct (IH (S k)) as [Hs Hall].
    { intros i w Hi. rewrite (Hd (S i) w Hi). f_equal. lia. }
    destruct x as [w|]; simpl.
    + pose proof (Hd 0 w eq_refl) as Hw. rewrite Nat.add_0_r in Hw. subst w.
      split; constructor; try assumption; try lia.
      * eapply Forall_impl; [exact Hall|]. simpl. intros; lia.
      * eapply Forall_impl; [exact Hall|]. simpl. intros; lia.
    + split; [exact Hs|].
      eapply Forall_impl; [exact Hall|]. simpl. intros; lia.
Qed.

(** Iterating a direct table yields its elements in increasing order. *)
Lemma iter_increasing (t : PySet.table) :
  direct t -> StronglySorted Z.lt (PySet.iter t).
Proof.
  intros [_ Hd]. apply (omap_increasing t 0).
  intros i w Hi. apply Hd. exact Hi.
Qed.

Lemma direct_empty : direct PySet.empty.
Proof. apply direct_replicate. reflexivity. Qed.

Lemma increasing_unique (l1 l2 : list Z) :
  StronglySorted Z.lt l1 -> StronglySorted Z.lt l2 ->
  (forall z, z ∈ l1 <-> z ∈ l2) -> l1 = l2.
Proof.
  intros H1. revert l2. induction H1 as [|x l1 H1 IH Hx]; intros l2 H2 Hm.
  - destruct l2 as [|y l2]; [reflexivity|].
    exfalso. apply (not_elem_of_nil y). apply Hm. left.
  - destruct H2 as [|y l2 H2 Hy].
    { exfalso. apply (not_elem_of_nil x). apply Hm. left. }
    rewrite Forall_forall in Hx, Hy.
    assert (x = y).
    { assert (Hxy : x ∈ y :: l2) by (apply Hm; left).
      assert (Hyx : y ∈ x :: l1) by (apply Hm; left).
      apply elem_of_cons in Hxy as [?|Hxy]; [assumption|].
      apply elem_of_cons in Hyx as [?|Hyx]; [congruence|].
      specialize (Hx _ Hyx). specialize (Hy _ Hxy). lia. }
    subst y. f_equal. apply IH; [exact H2|].
    intros z. split; intros Hz.
    + assert (Hz' : z ∈ x :: l2) by (apply Hm; right; exact Hz).
      apply elem_of_cons in Hz' as [->|?]; [|assumption].
      specialize (Hx _ Hz). lia.
    + assert (Hz' : z ∈ x :: l1) by (apply Hm; right; exact Hz).
      apply elem_of_cons in Hz' as [->|?]; [|assumption].
      specialize (Hy _ Hz). lia.
Qed.

(* ===================================================================== *)
(** * One round of replacements *)
(* ===================================================================== *)

Lemma read_numbers_spec (len : nat) (nums : list string) :
  len <= PySet.min_size ->
  forall seen, direct seen ->
  exists seen',
    read_numbers len nums seen = Done (seen', omap (rejection len) nums)
    /\ direct seen'
    /\ forall z, z ∈ PySet.iter seen' <->
                 z ∈ PySet.iter seen
                 \/ exists num, num ∈ nums /\ names_shown len num = true
                                /\ z = (shown_number num - 1)%Z.
Proof.
  intros Hlen. induction nums as [|num rest IH]; intros seen Hdir.
  - exists seen. split; [reflexivity|]. split; [exact Hdir|].
    intros z. split; [auto|]. intros [H|[num [H _]]]; [exact H|].
    inversion H.
  - simpl. unfold rejection, names_shown, shown_number.
    destruct (Py.isdigit (Py.strip num)) eqn:Hd; simpl.
    + destruct ((Py.int (Py.strip num) - 1 <? 0)%Z
                || (Py.int (Py.strip num) - 1 >=? Z.of_nat len)%Z) eqn:Hr.
      * assert (((1 <=? Py.int (Py.strip num))%Z
                 && (Py.int (Py.strip num) <=? Z.of_nat len)%Z) = false) as ->
          by lia.
        destruct (IH seen Hdir) as [seen' [-> [Hd' Hm]]].
        exists seen'. split.
        { simpl. do 4 f_equal. lia. }
        split; [exact Hd'|].
        intros z. rewrite Hm. split.
        -- intros [H|[x [Hx Hn]]]; [left; exact H|].
           right. exists x. split; [right; exact Hx|exact Hn].
        -- intros [H|[x [Hx [Hn Hz]]]]; [left; exact H|].
           apply elem_of_cons in Hx as [->|Hx].
           ++ unfold names_shown, shown_number in Hn. rewrite Hd in Hn. lia.
           ++ right. exists x. auto.
      * assert (((1 <=? Py.int (Py.strip num))%Z
                 && (Py.int (Py.strip num) <=? Z.of_nat len)%Z) = true) as ->
          by lia.
        assert (Hsmall : small (Py.int (Py.strip num) - 1)).
        { unfold small. lia. }
        destruct (add_direct seen _ Hdir Hsmall) as [seen1 [-> [Hd1 Hm1]]].
        destruct (IH seen1 Hd1) as [seen' [-> [Hd' Hm]]].
        exists seen'. split; [reflexivity|]. split; [exact Hd'|].
        intros z. rewrite Hm, Hm1. split.
        -- intros [[->|H]|[x [Hx Hn]]].
           ++ right. exists num. split; [left|].
              unfold names_shown, shown_number. rewrite Hd. split; [lia|reflexivity].
           ++ left. exact H.
           ++ right. exists x. split; [right; exact Hx|exact Hn].
        -- intros [H|[x [Hx [Hn Hz]]]]; [left; right; exact H|].
           apply elem_of_cons in Hx as [->|Hx].
           ++ left. left. exact Hz.
           ++ right. exists x. auto.
    + destruct (IH seen Hdir) as [seen' [-> [Hd' Hm]]].
      exists seen'. split; [reflexivity|]. split; [exact Hd'|].
      intros z. rewrite Hm. split.
      * intros [H|[x [Hx Hn]]]; [left; exact H|].
        right. exists x. split; [right; exact Hx|exact Hn].
      * intros [H|[x [Hx [Hn Hz]]]]; [left; exact H|].
        apply elem_of_cons in Hx as [->|Hx].
        -- unfold names_shown in Hn. rewrite Hd in Hn. discriminate.
        -- right. exists x. auto.
Qed.

Lemma setitem_in_range (l : list nat) (i : Z) (v : nat) :
  (0 <= i < Z.of_nat (length l))%Z ->
  setitem l i v = Some (<[Z.to_nat i := v]> l).
Proof.
  intros H. unfold setitem.
  assert (((0 <=? i)%Z && (i <? Z.of_nat (length l))%Z) = true) as -> by lia.
  reflexivity.
Qed.

Lemma NoDup_insert_fresh (l : list nat) (k v : nat) :
  NoDup l -> v ∉ l -> NoDup (<[k := v]> l).
Proof.
  rewrite !NoDup_alt. intros Hnd Hv i j x Hi Hj.
  apply list_lookup_insert_Some in Hi as [[<- [<- _]]|[Hki Hi]];
    apply list_lookup_insert_Some in Hj as [[Hj [Hx _]]|[Hkj Hj]].
  - exact Hj.
  - exfalso. apply Hv. eapply list_elem_of_lookup_2. exact Hj.
  - subst x. exfalso. apply Hv. eapply list_elem_of_lookup_2. exact Hi.
  - apply (Hnd i j x Hi Hj).
Qed.

Lemma follows_refl (w : Window) : follows w w.
Proof. split; [reflexivity|]. split; [lia|]. intros k v H. left. exact H. Qed.

Lemma follows_trans (w1 w2 w3 : Window) :
  follows w1 w2 -> follows w2 w3 -> follows w1 w3.
Proof.
  intros [L1 [N1 S1]] [L2 [N2 S2]]. split; [congruence|]. split; [lia|].
  intros k v H. destruct (S2 k v H) as [H'|H']; [|right; lia].
  apply S1. exact H'.
Qed.

(** Putting the cursor into a slot and moving it on keeps the invariant. *)
Lemma replace_one (n : nat) (w : Window) (k : nat) :
  window_inv n w -> next_index w < n ->
  let w' := {| display_indices := <[k := next_index w]> (display_indices w);
               next_index := next_index w + 1 |} in
  window_inv n w' /\ follows w w'.
Proof.
  intros [Hlen [Hnd [Hn [Hc Hb]]]] Hlt. simpl. split.
  - unfold window_inv. simpl. rewrite length_insert.
    split; [exact Hlen|]. split.
    + apply NoDup_insert_fresh; [exact Hnd|].
      intros Hin. rewrite Forall_forall in Hc. specialize (Hc _ Hin). lia.
    + split; [|split; [|lia]].
      * apply Forall_insert; [exact Hn|exact Hlt].
      * apply Forall_insert; [|lia].
        eapply Forall_impl; [exact Hc|]. simpl. intros; lia.
  - unfold follows. simpl. rewrite length_insert.
    split; [reflexivity|]. split; [lia|].
    intros j v Hj.
    apply list_lookup_insert_Some in Hj as [[_ [<- _]]|[_ Hj]]; [right; lia|].
    left. exact Hj.
Qed.

Lemma replace_seen_spec (n : nat) (order : list Z) :
  forall w,
    window_inv n w ->
    Forall (fun z => (0 <= z < Z.of_nat (length (display_indices w)))%Z) order ->
    exists w' out,
      replace_seen n w order = (w', out, false)
      /\ window_inv n w' /\ follows w w' /\ Forall no_more out.
Proof.
  induction order as [|z rest IH]; intros w Hinv Hord.
  - exists w, []. split; [reflexivity|]. split; [exact Hinv|].
    split; [apply follows_refl|constructor].
  - apply Forall_cons in Hord as [Hz Hrest]. simpl.
    destruct (next_index w <? n) eqn:Hlt.
    + apply Nat.ltb_lt in Hlt. rewrite (setitem_in_range _ _ _ Hz).
      destruct (replace_one n w (Z.to_nat z) Hinv Hlt) as [Hinv1 Hf1].
      destruct (IH _ Hinv1) as [w' [out [-> [Hinv' [Hf' Hout]]]]].
      { simpl. rewrite length_insert. exact Hrest. }
      exists w', out. split; [reflexivity|]. split; [exact Hinv'|].
      split; [|exact Hout]. eapply follows_trans; eassumption.
    + destruct (IH w Hinv Hrest) as [w' [out [-> [Hinv' [Hf' Hout]]]]].
      exists w', (NoMoreReplacements (z + 1)%Z :: out).
      split; [reflexivity|]. split; [exact Hinv'|]. split; [exact Hf'|].
      constructor; [eexists; reflexivity|exact Hout].
Qed.

(** With the cursor at the end nothing is replaced and every visited slot
    gets its message. *)
Lemma replace_seen_exhausted (n : nat) (w : Window) (order : list Z) :
  n <= next_index w ->
  replace_seen n w order
  = (w, map (fun z => NoMoreReplacements (z + 1)%Z) order, false).
Proof.
  intros Hn. induction order as [|z rest IH]; simpl; [reflexivity|].
  assert ((next_index w <? n) = false) as -> by (apply Nat.ltb_ge; exact Hn).
  rewrite IH. reflexivity.
Qed.

Lemma window_slots_small (n : nat) (w : Window) :
  window_inv n w -> length (display_indices w) <= PySet.min_size.
Proof. intros [H _]. rewrite H. unfold PySet.min_size. lia. Qed.

(** One round, step by step: the pieces are read into a set, the set is
    walked in increasing order, and the assignment never raises. *)
Lemma mark_seen_pieces_spec (n : nat) (w : Window) (nums : list string) :
  window_inv n w ->
  let len := length (display_indices w) in
  exists seen w' out2,
    read_numbers len nums PySet.empty = Done (seen, omap (rejection len) nums)
    /\ StronglySorted Z.lt (PySet.iter seen)
    /\ (forall z, z ∈ PySet.iter seen <->
                  exists num, num ∈ nums /\ names_shown len num = true
                              /\ z = (shown_number num - 1)%Z)
    /\ replace_seen n w (PySet.iter seen) = (w', out2, false)
    /\ window_inv n w' /\ follows w w' /\ Forall no_more out2
    /\ mark_seen_pieces n w nums
       = Done (w', omap (rejection len) nums ++ out2 ++
                   match PySet.iter seen with
                   | [] => [NoValidSelections]
                   | _ :: _ => []
                   end).
Proof.
  intros Hinv len.
  destruct (read_numbers_spec len nums (window_slots_small n w Hinv)
              PySet.empty direct_empty) as [seen [Hread [Hdir Hm]]].
  assert (Hm' : forall z, z ∈ PySet.iter seen <->
                  exists num, num ∈ nums /\ names_shown len num = true
                              /\ z = (shown_number num - 1)%Z).
  { intros z. rewrite Hm. split; [|auto]. intros [H|H]; [|exact H].
    apply iter_lookup in H as [i Hi]. unfold PySet.empty in Hi.
    apply lookup_replicate in Hi as [Hi _]. discriminate. }
  destruct (replace_seen_spec n (PySet.iter seen) w Hinv)
    as [w' [out2 [Hrep [Hinv' [Hf Hout]]]]].
  { apply Forall_forall. intros z Hz. apply Hm' in Hz as [num [_ [Hn ->]]].
    unfold names_shown in Hn. fold len. lia. }
  exists seen, w', out2.
  split; [exact Hread|]. split; [apply iter_increasing; exact Hdir|].
  split; [exact Hm'|]. split; [exact Hrep|]. split; [exact Hinv'|].
  split; [exact Hf|]. split; [exact Hout|].
  unfold mark_seen_pieces. fold len. rewrite Hread, Hrep.
  destruct (PySet.iter seen); [reflexivity|].
  rewrite app_nil_r. reflexivity.
Qed.

(* ===================================================================== *)
(** * The window across a session *)
(* ===================================================================== *)

Lemma start_positive (n : nat) :
  0 < n ->
  start n = ([], Some {| display_indices := seq 0 (Nat.min 5 n);
                         next_index := length (seq 0 (Nat.min 5 n)) |}).
Proof.
  intros Hn. destruct n as [|n]; [lia|]. unfold start.
  rewrite length_seq. reflexivity.
Qed.

Lemma start_inv (n : nat) (out : list event) (w : Window) :
  start n = (out, Some w) -> window_inv n w.
Proof.
  intros H. destruct (Nat.eq_dec n 0) as [->|Hn]; [discriminate|].
  rewrite (start_positive n) in H by lia.
  assert (E : w = {| display_indices := seq 0 (Nat.min 5 n);
                     next_index := length (seq 0 (Nat.min 5 n)) |})
    by congruence.
  subst w. unfold window_inv.
  cbn [display_indices next_index]. rewrite length_seq.
  split; [reflexivity|]. split; [apply NoDup_seq|].
  split; [|split; [|lia]]; apply Forall_seq; intros; lia.
Qed.

Lemma window_inv_lookup (n : nat) (w : Window) (k v : nat) :
  window_inv n w -> display_indices w !! k = Some v ->
  v < next_index w /\ v < n.
Proof.
  intros [_ [_ [Hn [Hc _]]]] Hk. rewrite Forall_forall in Hn, Hc.
  apply list_elem_of_lookup_2 in Hk. auto.
Qed.

(** An index found in a window and in a later one sits in the same slot
    of both. *)
Lemma same_slot (n : nat) (wi wj : Window) (k k' v : nat) :
  window_inv n wi -> follows wi wj ->
  display_indices wi !! k = Some v -> display_indices wj !! k' = Some v ->
  k = k' /\ display_indices wi !! k' = Some v.
Proof.
  intros Hinv [_ [_ Hslots]] Hk Hk'.
  destruct (window_inv_lookup n wi k v Hinv Hk) as [Hlt _].
  destruct (Hslots k' v Hk') as [H|H]; [|lia].
  split; [|exact H].
  destruct Hinv as [_ [Hnd _]]. rewrite NoDup_alt in Hnd.
  apply (Hnd k k' v Hk H).
Qed.

Lemma rejection_kind (len : nat) (num : string) (e : event) :
  rejection len num = Some e ->
  (exists s, e = NotANumber s) \/ (exists z, e = NotInList z).
Proof.
  unfold rejection. destruct (negb _).
  - intros H. injection H as <-. left. eauto.
  - destruct (names_shown len num); [discriminate|].
    intros H. injection H as <-. right. eauto.
Qed.

Lemma increasing_nil (l : list Z) :
  (forall z, ~ z ∈ l) -> l = [].
Proof.
  destruct l as [|z l]; [reflexivity|]. intros H.
  exfalso. apply (H z). left.
Qed.

Lemma listings_app (out1 out2 : list event) :
  listings (out1 ++ out2) = listings out1 ++ listings out2.
Proof.
  induction out1 as [|e out1 IH]; simpl; [reflexivity|].
  destruct e; simpl; rewrite ?IH; reflexivity.
Qed.

Lemma shown_windows_listings (out : list event) :
  shown_windows out = map fst (listings out).
Proof.
  induction out as [|e out IH]; simpl; [reflexivity|].
  destruct e; simpl; rewrite ?IH; reflexivity.
Qed.

Lemma listings_none (out : list event) :
  Forall (fun e => forall indices lines, e <> Recommendations indices lines) out ->
  listings out = [].
Proof.
  induction 1 as [|e out He _ IH]; simpl; [reflexivity|].
  destruct e; try exact IH. exfalso. eapply He. reflexivity.
Qed.

(** A round always completes, keeps the invariant and prints no listing. *)
Lemma mark_seen_round (n : nat) (w : Window) (seen_nums : string) :
  window_inv n w ->
  exists w' out,
    mark_seen n w seen_nums = Done (w', out)
    /\ window_inv n w' /\ follows w w' /\ listings out = [].
Proof.
  intros Hinv. unfold mark_seen.
  destruct (mark_seen_pieces_spec n w (Py.split comma seen_nums) Hinv)
    as [seen [w' [out2 [_ [_ [_ [_ [Hinv' [Hf [Hout ->]]]]]]]]]].
  eexists _, _. split; [reflexivity|]. split; [exact Hinv'|].
  split; [exact Hf|].
  rewrite !listings_app. rewrite (listings_none (omap _ _)), (listings_none out2).
  - destruct (PySet.iter seen); reflexivity.
  - eapply Forall_impl; [exact Hout|]. intros e [z ->]. discriminate.
  - apply Forall_forall. intros e He.
    apply list_elem_of_omap in He as [num [_ Hr]].
    apply rejection_kind in Hr as [[x ->]|[z ->]]; discriminate.
Qed.

Lemma chain_one (n : nat) (w : Window) : window_inv n w -> chain n w [w].
Proof.
  intros Hinv. split; [reflexivity|]. intros i j wi wj Hij Hi Hj.
  destruct j as [|j]; [|discriminate]. destruct i as [|i]; [|lia].
  injection Hi as <-. injection Hj as <-.
  split; [exact Hinv|]. split; [exact Hinv|apply follows_refl].
Qed.

Lemma chain_cons (n : nat) (w w' : Window) (ws : list Window) :
  window_inv n w -> follows w w' -> chain n w' ws -> chain n w (w :: ws).
Proof.
  intros Hinv Hf [Hhead Hpairs]. split; [reflexivity|].
  intros i j wi wj Hij Hi Hj. destruct j as [|j].
  - destruct i as [|i]; [|lia]. injection Hi as <-. injection Hj as <-.
    split; [exact Hinv|]. split; [exact Hinv|apply follows_refl].
  - simpl in Hj. destruct i as [|i].
    + injection Hi as <-.
      destruct (Hpairs 0 j w' wj ltac:(lia) Hhead Hj) as [_ [Hj' Hf']].
      split; [exact Hinv|]. split; [exact Hj'|].
      eapply follows_trans; eassumption.
    + simpl in Hi. apply (Hpairs i j); [lia|assumption..].
Qed.

(** The loop, unfolded once. *)
Lemma show_loop_eq (top_matches : list Movie)
    (oscar_df : option (list OscarRow)) (fav_actor : option string)
    (w : Window) (inputs : list string) :
  show_loop top_matches oscar_df fav_actor w inputs
  = bind (lines_from top_matches oscar_df fav_actor 0 (display_indices w))
      (fun lines =>
         let listing := Recommendations (display_indices w) lines in
         match inputs with
         | [] => Done [listing; EndOfInput]
         | answer :: rest =>
             if String.eqb (Py.lower (Py.strip answer)) "n"
             then Done [listing; Enjoy]
             else if String.eqb (Py.lower (Py.strip answer)) "y" then
               match rest with
               | [] => Done [listing; EndOfInput]
               | seen_nums :: rest' =>
                   bind (mark_seen (length top_matches) w seen_nums)
                     (fun round =>
                        bind (show_loop top_matches oscar_df fav_actor
                                (fst round) rest')
                          (fun later => Done (listing :: snd round ++ later)))
               end
             else
               bind (show_loop top_matches oscar_df fav_actor w rest)
                 (fun later => Done (listing :: PleaseAnswer :: later))
         end).
Proof. destruct inputs; reflexivity. Qed.

(** The listings of any completed run show a chain of windows. *)
Lemma show_loop_chain (top_matches : list Movie)
    (oscar_df : option (list OscarRow)) (fav_actor : option string)
    (inputs : list string) :
  forall w out,
    window_inv (length top_matches) w ->
    show_loop top_matches oscar_df fav_actor w inputs = Done out ->
    exists ws,
      Forall2 (shows top_matches oscar_df fav_actor) ws (listings out)
      /\ chain (length top_matches) w ws.
Proof.
  remember (length inputs) as size eqn:Hsize. revert inputs Hsize.
  induction size as [size IH] using lt_wf_ind.
  intros inputs Hsize w out Hinv H. rewrite show_loop_eq in H.
  destruct (lines_from _ _ _ _ _) as [lines|] eqn:Hlines; [|discriminate].
  unfold bind at 1 in H. cbv zeta in H.
  assert (Hshows : shows top_matches oscar_df fav_actor w
                     (display_indices w, lines)) by (split; [reflexivity|exact Hlines]).
  assert (Hone : forall e, e = EndOfInput \/ e = Enjoy -> exists ws,
             Forall2 (shows top_matches oscar_df fav_actor) ws
               (listings [Recommendations (display_indices w) lines; e])
             /\ chain (length top_matches) w ws).
  { intros e He. exists [w]. split; [|apply chain_one; exact Hinv].
    destruct He as [->| ->]; simpl; repeat constructor; assumption. }
  destruct inputs as [|answer rest]; [injection H as <-; apply Hone; auto|].
  destruct (String.eqb _ "n"); [injection H as <-; apply Hone; auto|].
  destruct (String.eqb _ "y").
  - destruct rest as [|seen_nums rest'];
      [injection H as <-; apply Hone; auto|].
    destruct (mark_seen_round _ w seen_nums Hinv)
      as [w' [out1 [Hround [Hinv' [Hf Hquiet]]]]].
    rewrite Hround in H. unfold bind at 1 in H. simpl fst in H. simpl snd in H.
    destruct (show_loop _ _ _ w' rest') as [later|] eqn:Hlater; [|discriminate].
    injection H as <-.
    destruct (IH (length rest') ltac:(simpl in Hsize; lia) rest' eq_refl
                w' later Hinv' Hlater) as [ws [Hws Hchain]].
    exists (w :: ws). split; [|eapply chain_cons; eassumption].
    simpl. rewrite listings_app, Hquiet. simpl.
    constructor; assumption.
  - destruct (show_loop _ _ _ w rest) as [later|] eqn:Hlater; [|discriminate].
    injection H as <-.
    destruct (IH (length rest) ltac:(simpl in Hsize; lia) rest eq_refl
                w later Hinv Hlater) as [ws [Hws Hchain]].
    exists (w :: ws). split; [simpl; constructor; assumption|].
    eapply chain_cons; [exact Hinv|apply follows_refl|exact Hchain].
Qed.

Lemma shows_windows (top_matches : list Movie)
    (oscar_df : option (list OscarRow)) (fav_actor : option string)
    (ws : list Window) (ls : list (list nat * list Line)) :
  Forall2 (shows top_matches oscar_df fav_actor) ws ls ->
  map fst ls = map display_indices ws.
Proof.
  induction 1 as [|w l ws ls [Hw _] _ IH]; simpl; [reflexivity|].
  rewrite Hw, IH. reflexivity.
Qed.

Lemma lines_from_returns (top_matches : list Movie)
    (oscar_df : option (list OscarRow)) (fav_actor : option string)
    (indices : list nat) :
  Forall (listable fav_actor) top_matches ->
  Forall (fun idx => idx < length top_matches) indices ->
  forall i, exists lines,
    lines_from top_matches oscar_df fav_actor i indices = Done lines.
Proof.
  intros Hrows. induction 1 as [|idx rest Hidx _ IH]; intros i; simpl.
  - eexists; reflexivity.
  - unfold line_for. apply lookup_lt_is_Some in Hidx as [movie Hmovie].
    rewrite Hmovie. rewrite Forall_forall in Hrows.
    destruct (Hrows movie (list_elem_of_lookup_2 _ _ _ Hmovie))
      as [Hplain Hactors].
    assert (Hosc : exists info,
               check_oscar_status (Title movie) oscar_df = Done info).
    { destruct oscar_df as [df|]; [|eexists; reflexivity].
      rewrite (check_oscar_status_plain _ df Hplain). eexists; reflexivity. }
    destruct Hosc as [info ->]. unfold bind at 1.
    assert (Hnote : exists b,
               (if truthy fav_actor
                then match Actors movie with
                     | Some actors =>
                         Done (features (default EmptyString fav_actor) actors)
                     | None => Unsupported
                     end
                else Done false) = Done b).
    { destruct (truthy fav_actor); [|eexists; reflexivity].
      destruct (Actors movie); [eexists; reflexivity|].
      exfalso. apply Hactors; reflexivity. }
    destruct Hnote as [b ->]. unfold bind at 1. unfold bind at 1.
    destruct (IH (S i)) as [lines ->]. eexists; reflexivity.
Qed.

Lemma lines_from_length (top_matches : list Movie)
    (oscar_df : option (list OscarRow)) (fav_actor : option string)
    (indices : list nat) :
  forall i lines,
    lines_from top_matches oscar_df fav_actor i indices = Done lines ->
    length lines = length indices
    /\ Forall (fun line => In (shown line) top_matches) lines.
Proof.
  induction indices as [|idx rest IH]; intros i lines H; simpl in H.
  - injection H as <-. split; [reflexivity|constructor].
  - unfold line_for in H.
    destruct (top_matches !! idx) as [movie|] eqn:Hmovie; [|discriminate].
    destruct (check_oscar_status _ _) as [info|]; [|discriminate].
    unfold bind at 2 in H.
    destruct (if truthy fav_actor then _ else _) as [b|]; [|discriminate].
    unfold bind at 2 in H. unfold bind at 1 in H.
    destruct (lines_from _ _ _ (S i) rest) as [lines'|] eqn:Hrest;
      [|discriminate].
    injection H as <-. destruct (IH _ _ Hrest) as [Hlen Hall].
    split; [simpl; rewrite Hlen; reflexivity|].
    constructor; [|exact Hall]. simpl.
    apply list_elem_of_In. eapply list_elem_of_lookup_2. exact Hmovie.
Qed.

(** The loop completes on every input when every row can be listed. *)
Lemma show_loop_returns (top_matches : list Movie)
    (oscar_df : option (list OscarRow)) (fav_actor : option string)
    (inputs : list string) :
  Forall (listable fav_actor) top_matches ->
  forall w,
    window_inv (length top_matches) w ->
    exists out, show_loop top_matches oscar_df fav_actor w inputs = Done out.
Proof.
  intros Hrows.
  remember (length inputs) as size eqn:Hsize. revert inputs Hsize.
  induction size as [size IH] using lt_wf_ind.
  intros inputs Hsize w Hinv. rewrite show_loop_eq.
  destruct (lines_from_returns top_matches oscar_df fav_actor
              (display_indices w) Hrows) with (i := 0) as [lines ->].
  { destruct Hinv as [_ [_ [Hn _]]]. exact Hn. }
  unfold bind at 1. cbv zeta.
  destruct inputs as [|answer rest]; [eexists; reflexivity|].
  destruct (String.eqb _ "n"); [eexists; reflexivity|].
  destruct (String.eqb _ "y").
  - destruct rest as [|seen_nums rest']; [eexists; reflexivity|].
    destruct (mark_seen_round _ w seen_nums Hinv)
      as [w' [out1 [-> [Hinv' _]]]].
    unfold bind at 1. simpl fst.
    destruct (IH (length rest') ltac:(simpl in Hsize; lia) rest' eq_refl
                w' Hinv') as [later ->].
    eexists; reflexivity.
  - destruct (IH (length rest) ltac:(simpl in Hsize; lia) rest eq_refl
                w Hinv) as [later ->].
    eexists; reflexivity.
Qed.

(* ===================================================================== *)
(** * show_recommendations: results *)
(* ===================================================================== *)

(** C1: the window invariant holds after the start and every round keeps
    it: the displayed values are distinct indices of [top_matches], each
    below the cursor that handed it out, and the cursor lies between the
    number of slots and the number of rows.  Across the listings of a
    session no index enters the display twice: an index shown in two
    listings sits in the same slot of both and of every listing in
    between.  Rounds always complete, and so does the loop when every row
    can be listed. *)
Theorem window_invariant (n : nat) :
  (forall out w, start n = (out, Some w) -> window_inv n w)
  /\ (forall w seen_nums,
        window_inv n w ->
        exists w' out,
          mark_seen n w seen_nums = Done (w', out)
          /\ window_inv n w' /\ follows w w')
  /\ (forall top_matches oscar_df fav_actor w inputs,
        length top_matches = n ->
        window_inv n w ->
        (Forall (listable fav_actor) top_matches ->
         exists out,
           show_loop top_matches oscar_df fav_actor w inputs = Done out)
        /\ forall out,
             show_loop top_matches oscar_df fav_actor w inputs = Done out ->
             forall i m j di dm dj k k' v,
               i <= m <= j ->
               shown_windows out !! i = Some di ->
               shown_windows out !! m = Some dm ->
               shown_windows out !! j = Some dj ->
               di !! k = Some v -> dj !! k' = Some v ->
               k = k' /\ dm !! k = Some v
               /\ NoDup dm /\ Forall (fun x => x < n) dm).
Proof.
  split; [apply start_inv|]. split.
  { intros w seen_nums Hinv.
    destruct (mark_seen_round n w seen_nums Hinv) as [w' [out [H [H1 [H2 _]]]]].
    eauto. }
  intros top_matches oscar_df fav_actor w inputs <- Hinv.
  split; [intros Hrows; apply show_loop_returns; assumption|].
  intros out Hout i m j di dm dj k k' v [Him Hmj] Hi Hm Hj Hk Hk'.
  destruct (show_loop_chain _ _ _ _ w out Hinv Hout) as [ws [Hws [_ Hpairs]]].
  apply shows_windows in Hws. rewrite shown_windows_listings, Hws in Hi, Hm, Hj.
  rewrite list_lookup_fmap in Hi, Hm, Hj.
  destruct (ws !! i) as [wi|] eqn:Ei; [|discriminate].
  destruct (ws !! m) as [wm|] eqn:Em; [|discriminate].
  destruct (ws !! j) as [wj|] eqn:Ej; [|discriminate].
  injection Hi as <-. injection Hm as <-. injection Hj as <-.
  destruct (Hpairs i m wi wm Him Ei Em) as [Hinvi [Hinvm Hfim]].
  destruct (Hpairs m j wm wj Hmj Em Ej) as [_ [_ Hfmj]].
  destruct (same_slot _ wi wj k k' v Hinvi
              (follows_trans _ _ _ Hfim Hfmj) Hk Hk') as [<- _].
  split; [reflexivity|].
  destruct (window_inv_lookup _ wi k v Hinvi Hk) as [Hlt _].
  split.
  - destruct Hfim as [_ [Hnext _]]. destruct Hfmj as [_ [_ Hslots]].
    destruct (Hslots k v Hk') as [H|H]; [exact H|lia].
  - destruct Hinvm as [_ [Hnd [Hn _]]]. split; assumption.
Qed.

Lemma window_invariant_witness :
  window_inv 6 {| display_indices := [0; 1; 2; 3; 4]; next_index := 5 |}
  /\ exists w' out,
       mark_seen 6 {| display_indices := [0; 1; 2; 3; 4]; next_index := 5 |}
         "2, 4" = Done (w', out)
       /\ window_inv 6 w'.
Proof.
  assert (H : window_inv 6 {| display_indices := [0; 1; 2; 3; 4];
                              next_index := 5 |})
    by (apply (proj1 (window_invariant 6) []); reflexivity).
  split; [exact H|].
  destruct (proj1 (proj2 (window_invariant 6)) _ "2, 4" H)
    as [w' [out [Hm [Hinv _]]]].
  exists w', out. split; assumption.
Defined.

(** Two answers naming the same displayed positions give the same window. *)
Lemma mark_seen_pieces_positions (n : nat) (w : Window)
    (nums1 nums2 : list string) (w1 w2 : Window) (out1 out2 : list event) :
  window_inv n w ->
  (forall p,
     (exists num, In num nums1
                  /\ names_shown (length (display_indices w)) num = true
                  /\ shown_number num = p)
     <-> (exists num, In num nums2
                      /\ names_shown (length (display_indices w)) num = true
                      /\ shown_number num = p)) ->
  mark_seen_pieces n w nums1 = Done (w1, out1) ->
  mark_seen_pieces n w nums2 = Done (w2, out2) ->
  w1 = w2.
Proof.
  intros Hinv Hsame H1 H2.
  destruct (mark_seen_pieces_spec n w nums1 Hinv)
    as [seen1 [w1' [o1 [_ [Hs1 [Hm1 [Hrep1 [_ [_ [_ Hmark1]]]]]]]]]].
  destruct (mark_seen_pieces_spec n w nums2 Hinv)
    as [seen2 [w2' [o2 [_ [Hs2 [Hm2 [Hrep2 [_ [_ [_ Hmark2]]]]]]]]]].
  rewrite Hmark1 in H1. rewrite Hmark2 in H2.
  injection H1 as <- _. injection H2 as <- _.
  assert (E : PySet.iter seen1 = PySet.iter seen2).
  { apply increasing_unique; [exact Hs1|exact Hs2|].
    intros z. rewrite Hm1, Hm2.
    split; intros [num [Hin [Hn ->]]].
    - destruct (proj1 (Hsame (shown_number num))) as [num' [Hin' [Hn' Hp]]].
      { exists num. split; [apply list_elem_of_In; exact Hin|]. auto. }
      exists num'. split; [apply list_elem_of_In; exact Hin'|].
      split; [exact Hn'|]. rewrite Hp. reflexivity.
    - destruct (proj2 (Hsame (shown_number num))) as [num' [Hin' [Hn' Hp]]].
      { exists num. split; [apply list_elem_of_In; exact Hin|]. auto. }
      exists num'. split; [apply list_elem_of_In; exact Hin'|].
      split; [exact Hn'|]. rewrite Hp. reflexivity. }
  rewrite E in Hrep1. congruence.
Qed.

(** C2: in every round the set of seen slots is walked in increasing
    order, so the replacements are a function of the positions named:
    two answers naming the same displayed positions give the same window.
    With six rows, slots 0..4 on screen and the cursor at 5, the answer
    "2, 4" (or "4, 2") puts index 5 into the second slot and leaves the
    fourth slot as it is, with the message that nothing is left for #4. *)
Theorem mark_seen_increasing_order :
  (forall n w nums,
     window_inv n w ->
     let len := length (display_indices w) in
     exists seen w' out2,
       read_numbers len nums PySet.empty
       = Done (seen, omap (rejection len) nums)
       /\ StronglySorted Z.lt (PySet.iter seen)
       /\ (forall z, In z (PySet.iter seen) <->
                     exists num, In num nums /\ names_shown len num = true
                                 /\ z = (shown_number num - 1)%Z)
       /\ replace_seen n w (PySet.iter seen) = (w', out2, false)
       /\ mark_seen_pieces n w nums
          = Done (w', omap (rejection len) nums ++ out2 ++
                      match PySet.iter seen with
                      | [] => [NoValidSelections]
                      | _ :: _ => []
                      end))
  /\ (forall n w nums1 nums2 w1 w2 out1 out2,
        window_inv n w ->
        (forall p,
           (exists num, In num nums1
                        /\ names_shown (length (display_indices w)) num = true
                        /\ shown_number num = p)
           <-> (exists num, In num nums2
                            /\ names_shown (length (display_indices w)) num = true
                            /\ shown_number num = p)) ->
        mark_seen_pieces n w nums1 = Done (w1, out1) ->
        mark_seen_pieces n w nums2 = Done (w2, out2) ->
        w1 = w2)
  /\ (let w := {| display_indices := [0; 1; 2; 3; 4]; next_index := 5 |} in
      let w' := {| display_indices := [0; 5; 2; 3; 4]; next_index := 6 |} in
      start 6 = ([], Some w)
      /\ mark_seen 6 w "2, 4" = Done (w', [NoMoreReplacements 4])
      /\ mark_seen 6 w "4, 2" = Done (w', [NoMoreReplacements 4])).
Proof.
  split; [|split; [apply mark_seen_pieces_positions|repeat split; reflexivity]].
  intros n w nums Hinv len.
  destruct (mark_seen_pieces_spec n w nums Hinv)
    as [seen [w' [out2 [Hread [Hs [Hm [Hrep [_ [_ [_ Hmark]]]]]]]]]].
  exists seen, w', out2.
  split; [exact Hread|]. split; [exact Hs|]. split; [|split; assumption].
  intros z. rewrite <- list_elem_of_In, Hm.
  split; intros [num [H1 H2]]; exists num; split; try exact H2;
    apply list_elem_of_In; exact H1.
Qed.

Lemma mark_seen_increasing_order_witness :
  exists seen w' out2,
    read_numbers 5 ["4"; " 2"] PySet.empty = Done (seen, [])
    /\ StronglySorted Z.lt (PySet.iter seen)
    /\ replace_seen 6 {| display_indices := [0; 1; 2; 3; 4]; next_index := 5 |}
         (PySet.iter seen) = (w', out2, false).
Proof.
  assert (H : window_inv 6 {| display_indices := [0; 1; 2; 3; 4];
                              next_index := 5 |})
    by (apply (start_inv 6 []); reflexivity).
  destruct (proj1 mark_seen_increasing_order 6 _ ["4"; " 2"] H)
    as [seen [w' [out2 [Hread [Hs [_ [Hrep _]]]]]]].
  exists seen, w', out2. split; [exact Hread|]. split; assumption.
Defined.

(** C3: a round always completes and never takes the error branch.  A
    piece that is a number outside 1..len gets the not-in-the-list
    message, a piece that is not a number the not-a-number message, and
    both are skipped: the window is the one the pieces naming a displayed
    movie give on their own.  With the cursor at the end the window stays
    as it is and every named position gets the no-replacement message.
    When no piece names a displayed movie the window stays as it is and
    the round ends with the no-valid-selections message. *)
Theorem mark_seen_outcomes (n : nat) (w : Window) (nums : list string) :
  window_inv n w ->
  let len := length (display_indices w) in
  exists w' out,
    mark_seen_pieces n w nums = Done (w', out)
    /\ ~ In ProcessingError out
    /\ (forall num,
          In num nums -> Py.isdigit (Py.strip num) = true ->
          (shown_number num < 1 \/ Z.of_nat len < shown_number num)%Z ->
          In (NotInList (shown_number num)) out)
    /\ (forall num,
          In num nums -> Py.isdigit (Py.strip num) = false ->
          In (NotANumber (Py.strip num)) out)
    /\ (exists out',
          mark_seen_pieces n w (List.filter (names_shown len) nums)
          = Done (w', out'))
    /\ (next_index w = n ->
        w' = w
        /\ forall num,
             In num nums -> names_shown len num = true ->
             In (NoMoreReplacements (shown_number num)) out)
    /\ ((forall num, In num nums -> names_shown len num = false) ->
        w' = w /\ out = omap (rejection len) nums ++ [NoValidSelections]).
Proof.
  intros Hinv len.
  destruct (mark_seen_pieces_spec n w nums Hinv)
    as [seen [w' [out2 [Hread [Hs [Hm [Hrep [_ [_ [Hout Hmark]]]]]]]]]].
  fold len in Hread, Hm, Hmark.
  eexists w', _. split; [exact Hmark|].
  split; [|split; [|split; [|split; [|split]]]].
  - intros Hin. apply in_app_or in Hin as [Hin|Hin].
    + apply list_elem_of_In, list_elem_of_omap in Hin as [num [_ Hr]].
      apply rejection_kind in Hr as [[s Hr]|[z Hr]]; discriminate.
    + apply in_app_or in Hin as [Hin|Hin].
      * rewrite List.Forall_forall in Hout.
        destruct (Hout _ Hin) as [z Hz]. discriminate.
      * destruct (PySet.iter seen); [|contradiction].
        destruct Hin as [Hin|[]]. discriminate.
  - intros num Hin Hd Hr. apply in_or_app. left.
    apply list_elem_of_In, list_elem_of_omap. exists num.
    split; [apply list_elem_of_In; exact Hin|].
    unfold rejection, names_shown. rewrite Hd. simpl.
    assert (((1 <=? shown_number num)%Z
             && (shown_number num <=? Z.of_nat len)%Z) = false) as -> by lia.
    reflexivity.
  - intros num Hin Hd. apply in_or_app. left.
    apply list_elem_of_In, list_elem_of_omap. exists num.
    split; [apply list_elem_of_In; exact Hin|].
    unfold rejection. rewrite Hd. reflexivity.
  - destruct (mark_seen_pieces_spec n w (List.filter (names_shown len) nums)
                Hinv)
      as [seen2 [w2 [out3 [_ [Hs2 [Hm2 [Hrep2 [_ [_ [_ Hmark2]]]]]]]]]].
    fold len in Hm2, Hmark2.
    assert (E : PySet.iter seen2 = PySet.iter seen).
    { apply increasing_unique; [exact Hs2|exact Hs|].
      intros z. rewrite Hm, Hm2.
      split; intros [num [Hin [Hn Hz]]]; exists num.
      - apply list_elem_of_In, filter_In in Hin as [Hin _].
        split; [apply list_elem_of_In; exact Hin|]. split; assumption.
      - split; [|split; assumption].
        apply list_elem_of_In, filter_In. split; [|exact Hn].
        apply list_elem_of_In. exact Hin. }
    rewrite E, Hrep in Hrep2. injection Hrep2 as <- _.
    eexists. exact Hmark2.
  - intros Hend.
    rewrite replace_seen_exhausted in Hrep by lia.
    injection Hrep as <- <-. split; [reflexivity|].
    intros num Hin Hn. apply in_or_app. right. apply in_or_app. left.
    apply in_map_iff. exists (shown_number num - 1)%Z. split.
    + f_equal. lia.
    + apply list_elem_of_In, Hm. exists num.
      split; [apply list_elem_of_In; exact Hin|]. split; [exact Hn|reflexivity].
  - intros Hnone.
    assert (E : PySet.iter seen = []).
    { apply increasing_nil. intros z Hz. apply Hm in Hz as [num [Hin [Hn _]]].
      apply list_elem_of_In in Hin. rewrite (Hnone num Hin) in Hn.
      discriminate. }
    rewrite E in Hrep |- *. simpl in Hrep. injection Hrep as <- <-.
    split; reflexivity.
Qed.

Lemma mark_seen_outcomes_witness :
  exists out,
    mark_seen_pieces 5 {| display_indices := [0; 1; 2; 3; 4]; next_index := 5 |}
      ["0"; "9"; " 3 "; "x"]
    = Done ({| display_indices := [0; 1; 2; 3; 4]; next_index := 5 |}, out)
    /\ In (NotInList 9) out /\ In (NoMoreReplacements 3) out.
Proof.
  assert (H : window_inv 5 {| display_indices := [0; 1; 2; 3; 4];
                              next_index := 5 |})
    by (apply (start_inv 5 []); reflexivity).
  destruct (mark_seen_outcomes 5 _ ["0"; "9"; " 3 "; "x"] H)
    as [w' [out [Hmark [_ [Hbad [_ [_ [Hend _]]]]]]]].
  destruct (Hend eq_refl) as [-> Hmsg].
  exists out. split; [exact Hmark|]. split.
  - apply (Hbad "9"); [simpl; tauto|reflexivity|right; reflexivity].
  - apply (Hmsg " 3 "); [simpl; tauto|reflexivity].
Defined.

Lemma show_recommendations_eq (recommendations : DataFrame)
    (oscar_df : option (list OscarRow)) (fav_actor : option string)
    (inputs : list string) (w : Window) :
  start (length recommendations) = ([], Some w) ->
  show_recommendations recommendations oscar_df fav_actor inputs
  = show_loop (map snd recommendations) oscar_df fav_actor w inputs.
Proof.
  intros H. unfold show_recommendations. rewrite length_map, H.
  destruct (show_loop _ _ _ _ _); reflexivity.
Qed.

(** C4: without rows the function prints the no-matches message and sets
    up no window; with [n] rows the window shows the indices 0 to
    min(5, n) - 1 and the cursor stands at their number.  In a session
    every listing has min(5, n) lines, so at most five and at most [n],
    each of them for a row of the recommendations; the session completes
    when every row can be listed. *)
Theorem start_window (n : nat) :
  start 0 = ([NoMatches], None)
  /\ (forall oscar_df fav_actor inputs,
        show_recommendations [] oscar_df fav_actor inputs = Done [NoMatches])
  /\ (0 < n ->
      start n = ([], Some {| display_indices := seq 0 (Nat.min 5 n);
                             next_index := length (seq 0 (Nat.min 5 n)) |}))
  /\ (forall recommendations oscar_df fav_actor inputs,
        length recommendations = n ->
        0 < n ->
        (Forall (listable fav_actor) (map snd recommendations) ->
         exists out,
           show_recommendations recommendations oscar_df fav_actor inputs
           = Done out)
        /\ forall out,
             show_recommendations recommendations oscar_df fav_actor inputs
             = Done out ->
             Forall (fun listing =>
                       length (snd listing) = Nat.min 5 n
                       /\ length (snd listing) <= 5
                       /\ length (snd listing) <= n
                       /\ Forall (fun line =>
                                    In (shown line) (map snd recommendations))
                            (snd listing))
                    (listings out)).
Proof.
  split; [reflexivity|]. split; [reflexivity|]. split; [apply start_positive|].
  intros recommendations oscar_df fav_actor inputs <- Hpos.
  pose proof (start_positive _ Hpos) as Hstart.
  set (w := {| display_indices := _; next_index := _ |}) in Hstart.
  assert (Hinv : window_inv (length (map snd recommendations)) w).
  { rewrite length_map. apply (start_inv _ _ _ Hstart). }
  rewrite (show_recommendations_eq _ oscar_df fav_actor inputs _ Hstart).
  split; [intros Hrows; apply show_loop_returns; assumption|].
  intros out Hout.
  destruct (show_loop_chain _ _ _ _ _ out Hinv Hout) as [ws [Hws [_ Hpairs]]].
  rewrite length_map in Hpairs.
  apply Forall_forall. intros listing Hin.
  apply list_elem_of_lookup in Hin as [i Hi].
  destruct (Forall2_lookup_r _ _ _ _ _ Hws Hi) as [wi [Hwi [_ Hlines]]].
  destruct (Hpairs i i wi wi (le_n i) Hwi Hwi) as [[Hl _] _].
  destruct (lines_from_length _ _ _ _ _ _ Hlines) as [Hlen Hrows].
  rewrite Hlen, Hl. split; [reflexivity|]. split; [lia|]. split; [lia|].
  exact Hrows.
Qed.

Lemma start_window_witness :
  start 3 = ([], Some {| display_indices := [0; 1; 2]; next_index := 3 |})
  /\ exists out,
       show_recommendations
         [(2, drama "Whiplash" (85 # 10) 500 "Miles Teller");
          (0, drama "Boyhood" (79 # 10) 300 "Ellar Coltrane");
          (1, drama "Selma" (75 # 10) 70 "David Oyelowo")]
         None None ["y"; "1"; "n"]
       = Done out.
Proof.
  split; [apply (proj1 (proj2 (proj2 (start_window 3)))); lia|].
  apply (proj2 (proj2 (proj2 (start_window 3)))); [reflexivity|lia|].
  repeat constructor; discriminate.
Defined.

(** With a favourite actor free of special characters, the rows whose
    actors contain it come before all others. *)
Lemma filter_movies_actor_first_plain (df : list Movie) (prefs : Prefs)
    (actor : string) (out : list event) (ranked : DataFrame) :
  fav_actor prefs = Some actor -> truthy (Some actor) = true ->
  plain actor = true ->
  filter_movies df prefs = Done (out, ranked) ->
  forall i j a b,
    i < j -> ranked !! i = Some a -> ranked !! j = Some b ->
    actor_contains actor (snd b) = true -> actor_contains actor (snd a) = true.
Proof.
  intros E T P H i j a b Hij Ha Hb.
  rewrite <- !(actor_match_plain actor prefs _ E T P).
  apply (filter_movies_actor_first df prefs out ranked H i j a b Hij Ha Hb).
Qed.

(* ===================================================================== *)
(** * From the catalog to the window *)
(* ===================================================================== *)

(** Six dramas pass the genre filter and are ranked by rating; the first
    five are shown; after the answer "2, 4" the second slot shows the
    sixth-ranked row and the fourth slot still shows the fourth.  The
    whole program on the inputs "y", "2, 4", "n" prints these two
    listings, the no-replacement message for #4 and the farewell. *)
Lemma six_dramas_session :
  exists ranked w w',
    filter_movies six_dramas drama_prefs = Done ([], ranked)
    /\ map (fun p => Title (snd p)) ranked
       = ["Whiplash"; "Room"; "Boyhood"; "Selma"; "Fences"; "Wild"]
    /\ start (length ranked) = ([], Some w)
    /\ map (option_map Title) (current_view (map snd ranked) w)
       = [Some "Whiplash"; Some "Room"; Some "Boyhood"; Some "Selma";
          Some "Fences"]
    /\ mark_seen (length ranked) w "2, 4" = Done (w', [NoMoreReplacements 4])
    /\ map (option_map Title) (current_view (map snd ranked) w')
       = [Some "Whiplash"; Some "Wild"; Some "Boyhood"; Some "Selma";
          Some "Fences"]
    /\ exists out,
         show_recommendations ranked None (fav_actor drama_prefs)
           ["y"; "2, 4"; "n"] = Done out
         /\ shown_windows out = [[0; 1; 2; 3; 4]; [0; 5; 2; 3; 4]]
         /\ List.filter (fun e => match e with
                                  | Recommendations _ _ => false
                                  | _ => true
                                  end) out
            = [NoMoreReplacements 4; Enjoy].
Proof.
  do 3 eexists. split; [reflexivity|]. split; [reflexivity|].
  split; [reflexivity|]. split; [reflexivity|]. split; [reflexivity|].
  split; [reflexivity|]. eexists. split; [reflexivity|].
  split; reflexivity.
Qed.

(* ===================================================================== *)
(** * filter_movies: further results *)
(* ===================================================================== *)

Lemma truthy_spec (s : option string) :
  truthy s = true <-> exists g, s = Some g /\ g <> EmptyString.
Proof.
  destruct s as [[|c t]|]; simpl; split; try discriminate.
  - intros [g [H Hg]]. injection H as <-. contradiction.
  - intros _. eexists. split; [reflexivity|discriminate].
  - reflexivity.
  - intros [g [H _]]. discriminate.
Qed.

Lemma allows_spec {P : Type} (pref : option P) (test : P -> Movie -> bool)
    (row : Movie) :
  allows pref test row = true <-> forall p, pref = Some p -> test p row = true.
Proof.
  destruct pref as [p|]; simpl; split.
  - intros H q E. injection E as <-. exact H.
  - intros H. apply H. reflexivity.
  - discriminate.
  - reflexivity.
Qed.

Lemma keeps_satisfies (prefs : Prefs) (row : Movie) :
  keeps prefs row = true <-> satisfies prefs row.
Proof.
  unfold keeps, satisfies. rewrite !andb_true_iff, !allows_spec.
  split.
  - intros [[[[[_ Hg] Hr] Hy1] Hy2] Ht].
    split; [|split; [|split; [|split]]].
    + intros g Eg Hne. destruct (truthy (genre prefs)) eqn:T.
      * apply allows_spec with (p := g) in Hg; [|exact Eg].
        apply existsb_exists in Hg as [x [Hin Hx]].
        apply String.eqb_eq in Hx. subst x. exact Hin.
      * assert (truthy (genre prefs) = true) by (apply truthy_spec; eauto).
        congruence.
    + intros r E. apply Qle_bool_iff. apply Hr. exact E.
    + intros y E. apply Z.leb_le. apply Hy1. exact E.
    + intros y E. apply Z.leb_le. apply Hy2. exact E.
    + intros t E. apply Z.leb_le. apply Ht. exact E.
  - intros [Hg [Hr [Hy1 [Hy2 Ht]]]].
    repeat split.
    + destruct (truthy (genre prefs)) eqn:T; [|reflexivity].
      apply truthy_spec in T as [g [Eg Hne]].
      apply allows_spec. intros p Ep. rewrite Eg in Ep. injection Ep as <-.
      apply existsb_exists. exists g. split; [apply Hg; assumption|].
      apply String.eqb_refl.
    + intros r E. apply Qle_bool_iff. apply Hr. exact E.
    + intros y E. apply Z.leb_le. apply Hy1. exact E.
    + intros y E. apply Z.leb_le. apply Hy2. exact E.
    + intros t E. apply Z.leb_le. apply Ht. exact E.
Qed.

Lemma increasing_labels_NoDup {A : Type} (l : list (nat * A)) :
  StronglySorted (fun a b => fst a < fst b) l -> NoDup (map fst l).
Proof.
  induction 1 as [|a l _ IH Ha]; simpl; constructor; [|exact IH].
  intros Hin. apply list_elem_of_In, in_map_iff in Hin as [b [E Hb]].
  rewrite List.Forall_forall in Ha. specialize (Ha b Hb). lia.
Qed.

Lemma kept_labels_NoDup (df : list Movie) (prefs : Prefs) :
  NoDup (map fst (kept df prefs)).
Proof.
  apply increasing_labels_NoDup, StronglySorted_filter_list, labels_increasing.
Qed.

(** X1: a returned ranking holds exactly the catalog rows that satisfy
    every set preference, each once under its catalog position; a
    preference that is not set (or an empty genre) puts no condition. *)
Theorem filter_movies_retains (df : list Movie) (prefs : Prefs)
    (out : list event) (ranked : DataFrame) :
  filter_movies df prefs = Done (out, ranked) ->
  NoDup (map fst ranked)
  /\ length ranked <= length df
  /\ forall i row,
       In (i, row) ranked <-> df !! i = Some row /\ satisfies prefs row.
Proof.
  intros H. apply filter_movies_ranked in H as [Hperm _].
  split; [|split].
  - rewrite (Permutation_map fst Hperm). apply kept_labels_NoDup.
  - rewrite (Permutation_length Hperm). unfold kept, labelled.
    etransitivity; [apply filter_length_le|].
    rewrite length_combine, length_seq. lia.
  - intros i row. rewrite <- keeps_satisfies. split.
    + intros Hin. apply (Permutation_in _ Hperm) in Hin.
      apply (ranked_row_in_catalog df prefs (i, row) Hin).
    + intros [Hl Hk]. apply (Permutation_in _ (Permutation_sym Hperm)).
      unfold kept. apply filter_In. split; [|exact Hk].
      apply labelled_lookup. exact Hl.
Qed.

Lemma filter_movies_retains_witness :
  In (1, drama "Whiplash" (85 # 10) 500 "Miles Teller")
     [(1, drama "Whiplash" (85 # 10) 500 "Miles Teller")].
Proof.
  apply (proj2 (proj2 (filter_movies_retains
           [drama "Boyhood" (79 # 10) 300 "Ellar Coltrane";
            drama "Whiplash" (85 # 10) 500 "Miles Teller"]
           (with_min_rating (8 # 1) None) [] _ eq_refl))).
  split; [reflexivity|]. unfold satisfies. simpl.
  repeat split; try discriminate.
  intros r E. injection E as <-. apply Qle_bool_iff. reflexivity.
Defined.

(** X2: a returned ranking is in the order of its sort keys: a row with
    actor-match status [True] never stands after one with status [False],
    and among rows of the same status the rating never increases and, at
    equal rating, the votes never increase. *)
Theorem filter_movies_descending (df : list Movie) (prefs : Prefs)
    (out : list event) (ranked : DataFrame) :
  filter_movies df prefs = Done (out, ranked) ->
  forall i j a b,
    i < j -> ranked !! i = Some a -> ranked !! j = Some b ->
    (actor_match prefs (snd b) = true -> actor_match prefs (snd a) = true)
    /\ (actor_match prefs (snd a) = actor_match prefs (snd b) ->
        (Rating (snd b) <= Rating (snd a))%Q
        /\ (Rating (snd a) == Rating (snd b) ->
            (Votes (snd b) <= Votes (snd a))%Z)).
Proof.
  intros H i j a b Hij Ha Hb.
  apply filter_movies_ranked in H as [_ Hs].
  destruct (StronglySorted_pairs _ _ Hs i j a b Hij Ha Hb) as [Hle _].
  split; [apply (rank_le_actor_first prefs a b Hle)|].
  intros Hm. unfold rank_le, actor_rating_votes_desc in Hle. simpl in Hle.
  rewrite Hm in Hle.
  assert (Hrv : rating_votes_desc (snd a) (snd b) = true)
    by (destruct (actor_match prefs (snd b)); exact Hle).
  apply rating_votes_desc_spec in Hrv as [Hlt|[Heq Hv]].
  - split; [lra|]. intros Heq. lra.
  - split; [lra|]. intros _. exact Hv.
Qed.

Lemma filter_movies_descending_witness :
  (Rating (drama "Boyhood" (79 # 10) 300 "Ellar Coltrane")
   <= Rating (drama "Whiplash" (85 # 10) 500 "Miles Teller"))%Q.
Proof.
  destruct (filter_movies_descending
              [drama "Boyhood" (79 # 10) 300 "Ellar Coltrane";
               drama "Whiplash" (85 # 10) 500 "Miles Teller"]
              no_prefs [] _ eq_refl 0 1
              (1, drama "Whiplash" (85 # 10) 500 "Miles Teller")
              (0, drama "Boyhood" (79 # 10) 300 "Ellar Coltrane")
              (le_n 1) eq_refl eq_refl) as [_ H].
  exact (proj1 (H eq_refl)).
Defined.

Lemma insert_row_ext_in {A : Type} (le le' : A -> A -> bool) (x : A)
    (l : list A) :
  (forall b, In b l -> le x b = le' x b) ->
  insert_row le x l = insert_row le' x l.
Proof.
  induction l as [|y t IH]; intros H; simpl; [reflexivity|].
  rewrite (H y) by (left; reflexivity).
  rewrite IH by (intros b Hb; apply H; right; exact Hb). reflexivity.
Qed.

Lemma sort_values_ext_in {A : Type} (le le' : A -> A -> bool) (l : list A) :
  (forall a b, In a l -> In b l -> le a b = le' a b) ->
  sort_values le l = sort_values le' l.
Proof.
  induction l as [|x l IH]; intros H; simpl; [reflexivity|].
  rewrite IH by (intros a b Ha Hb; apply H; right; assumption).
  apply insert_row_ext_in. intros b Hb. apply H; [left; reflexivity|].
  right. apply (Permutation_in _ (sort_values_perm le' l)). exact Hb.
Qed.

Lemma existsb_id_map {A : Type} (f : A -> bool) (l : list A) :
  existsb id (map f l) = false <-> forall x, In x l -> f x = false.
Proof.
  induction l as [|x l IH]; simpl.
  - split; [contradiction|reflexivity].
  - unfold id at 1. rewrite orb_false_iff, IH. split.
    + intros [Hx Hl] y [<-|Hy]; [exact Hx|apply Hl; exact Hy].
    + intros H. split; [apply H; left; reflexivity|].
      intros y Hy. apply H. right. exact Hy.
Qed.

(** X3: with a favourite actor set, the no-match message is printed
    exactly when no ranked row has actor-match status [True]; the ranking
    is then the one the same preferences give without a favourite
    actor. *)
Theorem filter_movies_no_actor_match (df : list Movie) (prefs : Prefs)
    (out : list event) (ranked : DataFrame) :
  truthy (fav_actor prefs) = true ->
  filter_movies df prefs = Done (out, ranked) ->
  let message := NoActorMatch (default EmptyString (fav_actor prefs)) in
  (out = [] \/ out = [message])
  /\ (out = [message] <->
      forall i row, In (i, row) ranked -> actor_match prefs row = false)
  /\ (out = [message] ->
      filter_movies df (without_actor prefs) = Done ([], ranked)).
Proof.
  intros T H message. rewrite filter_movies_unfold, T in H. cbv zeta in H.
  destruct (negb (has_str (map Actors df))); [discriminate|].
  destruct (Re.compile (default EmptyString (fav_actor prefs))) as [re|] eqn:C;
    [|discriminate].
  assert (Hhit : forall row, actor_match prefs row = actor_hit re row).
  { intros row. unfold actor_match. rewrite T, C. reflexivity. }
  pose proof (existsb_id_map (fun p : nat * Movie => actor_hit re (snd p))
                (kept df prefs)) as Hnone.
  destruct (existsb id _) eqn:E; injection H as <- <-.
  - split; [left; reflexivity|]. split; [|discriminate].
    split; [discriminate|]. intros Hall. exfalso.
    assert (true = false); [|discriminate].
    apply Hnone. intros [i row] Hin. simpl. rewrite <- Hhit.
    apply (Hall i). apply (Permutation_in _ (Permutation_sym
      (sort_values_perm (rank_le prefs) (kept df prefs)))). exact Hin.
  - assert (Hall : forall x, In x (kept df prefs) ->
                             actor_match prefs (snd x) = false).
    { intros x Hx. rewrite Hhit. apply (proj1 Hnone eq_refl x Hx). }
    split; [right; reflexivity|]. split.
    + split; [|reflexivity]. intros _ i row Hin.
      apply (Hall (i, row)).
      apply (Permutation_in _ (sort_values_perm (rank_le prefs) _)).
      exact Hin.
    + intros _. rewrite filter_movies_unfold. simpl.
      change (kept df (without_actor prefs)) with (kept df prefs).
      do 2 f_equal. apply sort_values_ext_in. intros a b Ha Hb.
      unfold rank_le. rewrite (Hall a Ha), (Hall b Hb). reflexivity.
Qed.

Lemma filter_movies_no_actor_match_witness :
  filter_movies [drama "Boyhood" (79 # 10) 300 "Ellar Coltrane"]
    (without_actor (with_fav_actor "Zed"))
  = Done ([], [(0, drama "Boyhood" (79 # 10) 300 "Ellar Coltrane")]).
Proof.
  apply (proj2 (proj2 (filter_movies_no_actor_match
           [drama "Boyhood" (79 # 10) 300 "Ellar Coltrane"]
           (with_fav_actor "Zed") [NoActorMatch "Zed"] _ eq_refl eq_refl))).
  reflexivity.
Defined.

(** X4: year bounds that exclude each other give an empty ranking, not an
    error, and [show_recommendations] then prints the no-matches message
    and asks nothing. *)
Theorem filter_movies_inverted_years (df : list Movie) (prefs : Prefs)
    (lo hi : Z) (out : list event) (ranked : DataFrame) :
  min_year prefs = Some lo -> max_year prefs = Some hi -> (hi < lo)%Z ->
  filter_movies df prefs = Done (out, ranked) ->
  ranked = []
  /\ forall oscar_df fav inputs,
       show_recommendations ranked oscar_df fav inputs = Done [NoMatches].
Proof.
  intros Hlo Hhi Hlt H. apply filter_movies_ranked in H as [Hperm _].
  assert (E : ranked = []).
  { destruct ranked as [|a ranked]; [reflexivity|]. exfalso.
    assert (Hin : In a (kept df prefs))
      by (apply (Permutation_in _ Hperm); left; reflexivity).
    apply ranked_row_in_catalog in Hin as [_ Hk].
    apply keeps_satisfies in Hk as [_ [_ [H1 [H2 _]]]].
    specialize (H1 lo Hlo). specialize (H2 hi Hhi). lia. }
  subst ranked. split; reflexivity.
Qed.

Lemma filter_movies_inverted_years_witness :
  show_recommendations [] None None ["y"] = Done [NoMatches].
Proof.
  apply (proj2 (filter_movies_inverted_years
           [drama "Boyhood" (79 # 10) 300 "Ellar Coltrane"]
           {| genre := None; min_rating := None; min_year := Some 2016%Z;
              max_year := Some 2006%Z; max_runtime := None;
              fav_actor := None |}
           2016 2006 [] [] eq_refl eq_refl eq_refl eq_refl)).
Defined.

(* ===================================================================== *)
(** * check_oscar_status: further results *)
(* ===================================================================== *)

(** X5: for a title without special characters the result is [None]
    exactly when no film title contains it, letter case ignored;
    otherwise it is one line per row whose film title contains it, in
    table order, never an empty list. *)
Theorem check_oscar_status_literal (title : string) (df : list OscarRow) :
  plain title = true ->
  (check_oscar_status title (Some df) = Done None <->
   forall row, In row df -> title_contains title row = false)
  /\ (forall lines,
        check_oscar_status title (Some df) = Done (Some lines) ->
        lines = map oscar_line (List.filter (title_contains title) df)
        /\ lines <> []).
Proof.
  intros Hp. rewrite (check_oscar_status_plain title df Hp).
  destruct (List.filter (title_contains title) df) as [|r rows] eqn:E.
  - split; [|discriminate]. split; [|reflexivity].
    intros _ row Hin. destruct (title_contains title row) eqn:Hc; [|reflexivity].
    assert (Hf : In row (List.filter (title_contains title) df))
      by (apply filter_In; split; assumption).
    rewrite E in Hf. contradiction.
  - split.
    + split; [discriminate|]. intros Hall. exfalso.
      assert (Hf : In r (List.filter (title_contains title) df))
        by (rewrite E; left; reflexivity).
      apply filter_In in Hf as [Hin Hc]. rewrite (Hall r Hin) in Hc.
      discriminate.
    + intros lines H. injection H as <-. split; [reflexivity|discriminate].
Qed.

Lemma check_oscar_status_literal_witness :
  check_oscar_status "gravity" (Some [award "Her" "BEST PICTURE" false])
  = Done None.
Proof.
  apply (proj1 (check_oscar_status_literal "gravity"
                  [award "Her" "BEST PICTURE" false] eq_refl)).
  intros row [<-|[]]. reflexivity.
Defined.

Lemma lower_char_idem (c : ascii) :
  Py.lower_char (Py.lower_char c) = Py.lower_char c.
Proof. destruct c as [[] [] [] [] [] [] [] []]; reflexivity. Qed.

Lemma lower_char_special (c : ascii) :
  Ascii.eqb (Py.lower_char c) Re.dot = Ascii.eqb c Re.dot
  /\ Re.is_special (Py.lower_char c) = Re.is_special c.
Proof. destruct c as [[] [] [] [] [] [] [] []]; split; reflexivity. Qed.

Lemma compile_lower (title : string) :
  Re.compile (Py.lower title) = option_map (map lower_item) (Re.compile title).
Proof.
  induction title as [|c t IH]; simpl; [reflexivity|].
  destruct (lower_char_special c) as [-> ->]. rewrite IH.
  destruct (Ascii.eqb c Re.dot); [destruct (Re.compile t); reflexivity|].
  destruct (Re.is_special c); [reflexivity|].
  destruct (Re.compile t); reflexivity.
Qed.

Lemma match_here_lower (re : list Re.item) (s : string) :
  Re.match_here (map lower_item re) s = Re.match_here re s.
Proof.
  revert s. induction re as [|it re IH]; intros s; simpl; [reflexivity|].
  destruct s as [|c s]; [reflexivity|]. rewrite IH. f_equal.
  destruct it as [|p]; simpl; [reflexivity|].
  rewrite lower_char_idem. reflexivity.
Qed.

Lemma search_lower (re : list Re.item) (s : string) :
  Re.search (map lower_item re) s = Re.search re s.
Proof.
  induction s as [|c s IH].
  - simpl. rewrite match_here_lower. reflexivity.
  - change (Re.search ?r (String c s))
      with (Re.match_here r (String c s) || Re.search r s).
    rewrite match_here_lower, IH. reflexivity.
Qed.

Lemma check_oscar_status_lower (title : string)
    (oscar_df : option (list OscarRow)) :
  check_oscar_status (Py.lower title) oscar_df
  = check_oscar_status title oscar_df.
Proof.
  destruct oscar_df as [df|]; [|reflexivity].
  unfold check_oscar_status, str_contains. rewrite compile_lower.
  destruct (Re.compile title) as [re|]; [|reflexivity]. simpl.
  replace (map (fun x => match x with
                         | Some s => Re.search (map lower_item re) s
                         | None => false
                         end) (map film df))
    with (map (fun x => match x with
                        | Some s => Re.search re s
                        | None => false
                        end) (map film df)); [reflexivity|].
  apply map_ext. intros [s|]; [|reflexivity]. symmetry. apply search_lower.
Qed.

(** X6: the lookup ignores the letter case of the queried title: two
    titles that differ only in the case of their letters get the same
    result, for every award table. *)
Theorem check_oscar_status_ignores_case (title1 title2 : string)
    (oscar_df : option (list OscarRow)) :
  Py.lower title1 = Py.lower title2 ->
  check_oscar_status title1 oscar_df = check_oscar_status title2 oscar_df.
Proof.
  intros H. rewrite <- (check_oscar_status_lower title1),
    <- (check_oscar_status_lower title2), H. reflexivity.
Qed.

Lemma check_oscar_status_ignores_case_witness :
  check_oscar_status "THE DARK KNIGHT"
    (Some [award "The Dark Knight" "SOUND EDITING" true])
  = check_oscar_status "the dark Knight"
      (Some [award "The Dark Knight" "SOUND EDITING" true]).
Proof. apply check_oscar_status_ignores_case. reflexivity. Defined.

Lemma title_hit_has_film (re : list Re.item) (df : list OscarRow) :
  List.filter (title_hit re) (List.filter has_film df)
  = List.filter (title_hit re) df.
Proof.
  induction df as [|row df IH]; [reflexivity|]. cbn [List.filter].
  assert (Hcase : has_film row = true
                  \/ (has_film row = false /\ title_hit re row = false)).
  { unfold has_film, title_hit. destruct (film row); auto. }
  destruct Hcase as [-> | [-> ->]]; cbn [List.filter]; [|exact IH].
  destruct (title_hit re row); rewrite IH; reflexivity.
Qed.

(** X7: an award row without a film title never contributes: dropping
    such rows from the table changes no result, whatever the title. *)
Theorem check_oscar_status_skips_missing (title : string)
    (df : list OscarRow) :
  check_oscar_status title (Some df)
  = check_oscar_status title (Some (List.filter has_film df)).
Proof.
  destruct (Re.compile title) as [re|] eqn:C.
  - rewrite !(check_oscar_status_compiled title re _ C).
    rewrite title_hit_has_film. reflexivity.
  - unfold check_oscar_status, str_contains. rewrite C. reflexivity.
Qed.

(* ===================================================================== *)
(** * show_recommendations: further results *)
(* ===================================================================== *)

(** The replacement loop in closed form: with [k] the smaller of the
    number of visited slots and the number of rows left, the first [k]
    slots get the next [k] indices in order, the cursor moves by [k], the
    other slots keep their index and the other visited slots get the
    message. *)
Lemma replace_seen_count (n : nat) (order : list Z) :
  forall w w' out raised,
    StronglySorted Z.lt order ->
    Forall (fun z => (0 <= z < Z.of_nat (length (display_indices w)))%Z) order ->
    replace_seen n w order = (w', out, raised) ->
    let k := Nat.min (length order) (n - next_index w) in
    next_index w' = next_index w + k
    /\ (forall i z, i < k -> order !! i = Some z ->
                    display_indices w' !! Z.to_nat z = Some (next_index w + i))
    /\ (forall slot,
          (forall i z, i < k -> order !! i = Some z -> Z.to_nat z <> slot) ->
          display_indices w' !! slot = display_indices w !! slot)
    /\ out = map (fun z => NoMoreReplacements (z + 1)%Z) (drop k order).
Proof.
  induction order as [|z rest IH]; intros w w' out raised Hs Hr H.
  - simpl in H. injection H as <- <- _. simpl.
    split; [lia|]. split; [intros i z' Hi; lia|]. split; reflexivity.
  - apply StronglySorted_inv in Hs as [Hs Hz].
    apply Forall_cons in Hr as [Hzr Hr]. simpl in H.
    destruct (next_index w <? n) eqn:Hlt.
    + apply Nat.ltb_lt in Hlt.
      rewrite (setitem_in_range _ _ _ Hzr) in H.
      set (w1 := {| display_indices := <[Z.to_nat z := next_index w]>
                                         (display_indices w);
                    next_index := next_index w + 1 |}) in H.
      destruct (IH w1 w' out raised Hs) as [Hn [Hset [Hkeep Hout]]];
        [simpl; rewrite length_insert; exact Hr|exact H|].
      simpl next_index in Hn, Hset, Hkeep. cbv zeta.
      replace (Nat.min (length (z :: rest)) (n - next_index w))
        with (S (Nat.min (length rest) (n - (next_index w + 1))))
        by (simpl length; lia).
      split; [lia|]. split; [|split].
      * intros i z' Hi Hz'. destruct i as [|i].
        -- injection Hz' as <-. rewrite Hkeep.
           ++ simpl. rewrite Nat.add_0_r. apply list_lookup_insert_eq. lia.
           ++ intros j y Hj Hy E. rewrite List.Forall_forall in Hz, Hr.
              assert (Hin : In y rest)
                by (apply list_elem_of_In; eapply list_elem_of_lookup_2; eauto).
              specialize (Hz y Hin). specialize (Hr y Hin). lia.
        -- simpl in Hz'. rewrite (Hset i z') by (assumption || lia).
           f_equal. lia.
      * intros slot Hslot. rewrite Hkeep.
        -- simpl. apply list_lookup_insert_ne.
           apply (Hslot 0 z); [lia|reflexivity].
        -- intros j y Hj Hy. apply (Hslot (S j) y); [lia|exact Hy].
      * exact Hout.
    + apply Nat.ltb_ge in Hlt.
      rewrite replace_seen_exhausted in H by exact Hlt.
      injection H as <- <- _. cbv zeta.
      replace (Nat.min (length (z :: rest)) (n - next_index w)) with 0 by lia.
      split; [lia|]. split; [intros i z' Hi; lia|]. split; reflexivity.
Qed.

(** X8: one round in closed form.  Let [order] be the valid positions of
    the answer (as slot indices) in increasing order, without repeats,
    and [k] the smaller of their number and the number of rows the cursor
    has not reached.  The round gives the [i]-th of the first [k] slots
    the index cursor + i, moves the cursor by [k], leaves every other
    slot as it was and prints the no-replacement message for exactly the
    remaining positions. *)
Theorem mark_seen_replacements (n : nat) (w : Window) (nums : list string) :
  window_inv n w ->
  exists order w' out,
    mark_seen_pieces n w nums = Done (w', out)
    /\ StronglySorted Z.lt order
    /\ (forall z, In z order <->
                  exists num, In num nums
                              /\ names_shown (length (display_indices w)) num
                                 = true
                              /\ z = (shown_number num - 1)%Z)
    /\ let k := Nat.min (length order) (n - next_index w) in
       next_index w' = next_index w + k
       /\ (forall i z, i < k -> order !! i = Some z ->
                       display_indices w' !! Z.to_nat z
                       = Some (next_index w + i))
       /\ (forall slot,
             (forall i z, i < k -> order !! i = Some z -> Z.to_nat z <> slot) ->
             display_indices w' !! slot = display_indices w !! slot)
       /\ (forall z, In (NoMoreReplacements (z + 1)) out
                     <-> In z (drop k order)).
Proof.
  intros Hinv.
  destruct (mark_seen_pieces_spec n w nums Hinv)
    as [seen [w' [out2 [_ [Hs [Hm [Hrep [_ [_ [_ Hmark]]]]]]]]]].
  exists (PySet.iter seen), w'. eexists. split; [exact Hmark|].
  split; [exact Hs|]. split.
  { intros z. rewrite <- list_elem_of_In, Hm.
    split; intros [num [H1 H2]]; exists num; split; try exact H2;
      apply list_elem_of_In; exact H1. }
  destruct (replace_seen_count n (PySet.iter seen) w w' out2 false Hs)
    as [Hn [Hset [Hkeep Hout]]]; [|exact Hrep|].
  { apply Forall_forall. intros z Hz. apply Hm in Hz as [num [_ [Hv ->]]].
    unfold names_shown in Hv. lia. }
  cbv zeta. split; [exact Hn|]. split; [exact Hset|]. split; [exact Hkeep|].
  intros z. rewrite Hout. split.
  - intros Hin. apply in_app_or in Hin as [Hin|Hin].
    + apply list_elem_of_In, list_elem_of_omap in Hin as [num [_ Hr]].
      apply rejection_kind in Hr as [[s Hr]|[y Hr]]; discriminate.
    + apply in_app_or in Hin as [Hin|Hin].
      * apply in_map_iff in Hin as [y [Hy Hin]]. injection Hy as Hy.
        replace z with y by lia. exact Hin.
      * destruct (PySet.iter seen); [|contradiction].
        destruct Hin as [Hin|[]]. discriminate.
  - intros Hin. apply in_or_app. right. apply in_or_app. left.
    apply in_map_iff. exists z. split; [reflexivity|exact Hin].
Qed.

Lemma mark_seen_replacements_witness :
  exists order w' out,
    mark_seen_pieces 7 {| display_indices := [0; 1; 2; 3; 4]; next_index := 5 |}
      ["5"; "1"; "3"] = Done (w', out)
    /\ StronglySorted Z.lt order
    /\ next_index w' = 5 + Nat.min (length order) (7 - 5).
Proof.
  assert (H : window_inv 7 {| display_indices := [0; 1; 2; 3; 4];
                              next_index := 5 |})
    by (apply (start_inv 7 []); reflexivity).
  destruct (mark_seen_replacements 7 _ ["5"; "1"; "3"] H)
    as [order [w' [out [Hm [Hs [_ [Hn _]]]]]]].
  exists order, w', out. split; [exact Hm|]. split; [exact Hs|exact Hn].
Defined.

(** Every index the cursor hands out in a round is on screen after it. *)
Lemma mark_seen_hands_over (n : nat) (w w' : Window) (seen_nums : string)
    (out : list event) :
  window_inv n w ->
  mark_seen n w seen_nums = Done (w', out) ->
  forall u, next_index w <= u < next_index w' -> In u (display_indices w').
Proof.
  intros Hinv H u Hu. unfold mark_seen in H.
  destruct (mark_seen_pieces_spec n w (Py.split comma seen_nums) Hinv)
    as [seen [w1 [out2 [_ [Hs [Hm [Hrep [_ [_ [_ Hmark]]]]]]]]]].
  rewrite Hmark in H. injection H as -> _.
  destruct (replace_seen_count n (PySet.iter seen) w w' out2 false Hs)
    as [Hn [Hset _]]; [|exact Hrep|].
  { apply Forall_forall. intros z Hz. apply Hm in Hz as [num [_ [Hv ->]]].
    unfold names_shown in Hv. lia. }
  cbv zeta in Hn, Hset.
  assert (Hi : u - next_index w < length (PySet.iter seen)) by lia.
  apply lookup_lt_is_Some in Hi as [z Hz].
  apply list_elem_of_In. eapply list_elem_of_lookup_2.
  rewrite (Hset (u - next_index w) z) by (assumption || lia).
  f_equal. lia.
Qed.

Lemma show_loop_first (top_matches : list Movie)
    (oscar_df : option (list OscarRow)) (fav_actor : option string)
    (inputs : list string) (w : Window) (out : list event) :
  window_inv (length top_matches) w ->
  show_loop top_matches oscar_df fav_actor w inputs = Done out ->
  shown_windows out !! 0 = Some (display_indices w).
Proof.
  intros Hinv H.
  destruct (show_loop_chain _ _ _ _ w out Hinv H) as [ws [Hws [Hhead _]]].
  apply shows_windows in Hws. rewrite shown_windows_listings, Hws.
  rewrite list_lookup_fmap, Hhead. reflexivity.
Qed.

(** From a window on, whatever comes on screen later leaves no index
    between the window's cursor and itself unseen. *)
Lemma show_loop_covered (top_matches : list Movie)
    (oscar_df : option (list OscarRow)) (fav_actor : option string)
    (inputs : list string) :
  forall w out,
    window_inv (length top_matches) w ->
    show_loop top_matches oscar_df fav_actor w inputs = Done out ->
    forall j dj v u,
      shown_windows out !! j = Some dj -> In v dj ->
      next_index w <= u -> u < v ->
      exists i di, i <= j /\ shown_windows out !! i = Some di /\ In u di.
Proof.
  remember (length inputs) as size eqn:Hsize. revert inputs Hsize.
  induction size as [size IH] using lt_wf_ind.
  intros inputs Hsize w out Hinv H.
  pose proof H as Hfirst. apply show_loop_first in Hfirst; [|exact Hinv].
  rewrite show_loop_eq in H.
  destruct (lines_from _ _ _ _ _) as [lines|]; [|discriminate].
  unfold bind at 1 in H. cbv zeta in H.
  assert (Hhere : forall v u, In v (display_indices w) ->
                              next_index w <= u -> u < v -> False).
  { intros v u Hv Hu Huv. apply list_elem_of_In, list_elem_of_lookup in Hv as [k Hk].
    destruct (window_inv_lookup _ w k v Hinv Hk). lia. }
  assert (Hone : forall e j dj v u,
             e = EndOfInput \/ e = Enjoy ->
             shown_windows [Recommendations (display_indices w) lines; e] !! j
             = Some dj ->
             In v dj -> next_index w <= u -> u < v -> False).
  { intros e j dj v u He Hj Hv Hu Huv.
    assert (E : shown_windows [Recommendations (display_indices w) lines; e]
                = [display_indices w]) by (destruct He as [->| ->]; reflexivity).
    rewrite E in Hj. destruct j as [|j]; [|discriminate].
    injection Hj as <-. eapply Hhere; eassumption. }
  assert (Hstep : forall w' later,
             window_inv (length top_matches) w' ->
             next_index w <= next_index w' ->
             (forall u, next_index w <= u < next_index w' ->
                        In u (display_indices w')) ->
             shown_windows later !! 0 = Some (display_indices w') ->
             (forall j dj v u,
                shown_windows later !! j = Some dj -> In v dj ->
                next_index w' <= u -> u < v ->
                exists i di, i <= j /\ shown_windows later !! i = Some di
                             /\ In u di) ->
             forall j dj v u,
               (display_indices w :: shown_windows later) !! j = Some dj ->
               In v dj -> next_index w <= u -> u < v ->
               exists i di, i <= j
                            /\ (display_indices w :: shown_windows later) !! i
                               = Some di
                            /\ In u di).
  { intros w' later Hinv' Hnext Hover Hhead Hlater j dj v u Hj Hv Hu Huv.
    destruct j as [|j].
    - injection Hj as <-. exfalso. eapply Hhere; eassumption.
    - simpl in Hj. destruct (Nat.lt_ge_cases u (next_index w')) as [Hlt|Hge].
      + exists 1, (display_indices w'). split; [lia|]. split; [exact Hhead|].
        apply Hover. lia.
      + destruct (Hlater j dj v u Hj Hv Hge Huv) as [i [di [Hi [Hdi Hin]]]].
        exists (S i), di. split; [lia|]. split; assumption. }
  destruct inputs as [|answer rest].
  { injection H as <-. intros j dj v u Hj Hv Hu Huv. exfalso.
    eapply (Hone EndOfInput); eauto. }
  destruct (String.eqb _ "n").
  { injection H as <-. intros j dj v u Hj Hv Hu Huv. exfalso.
    eapply (Hone Enjoy); eauto. }
  destruct (String.eqb _ "y").
  - destruct rest as [|seen_nums rest'].
    { injection H as <-. intros j dj v u Hj Hv Hu Huv. exfalso.
      eapply (Hone EndOfInput); eauto. }
    destruct (mark_seen_round _ w seen_nums Hinv)
      as [w' [out1 [Hround [Hinv' [Hf Hquiet]]]]].
    pose proof (mark_seen_hands_over _ w w' seen_nums out1 Hinv Hround) as Hover.
    rewrite Hround in H. unfold bind at 1 in H. simpl fst in H. simpl snd in H.
    destruct (show_loop _ _ _ w' rest') as [later|] eqn:Hlater; [|discriminate].
    injection H as <-.
    assert (E : shown_windows (Recommendations (display_indices w) lines
                                 :: out1 ++ later)
                = display_indices w :: shown_windows later).
    { simpl. rewrite !shown_windows_listings, listings_app, Hquiet.
      reflexivity. }
    rewrite E. apply (Hstep w' later Hinv').
    + destruct Hf as [_ [Hn _]]. exact Hn.
    + exact Hover.
    + eapply show_loop_first; eassumption.
    + apply (IH (length rest') ltac:(simpl in Hsize; lia) rest' eq_refl
               w' later Hinv' Hlater).
  - destruct (show_loop _ _ _ w rest) as [later|] eqn:Hlater; [|discriminate].
    injection H as <-.
    change (shown_windows (Recommendations (display_indices w) lines
                             :: PleaseAnswer :: later))
      with (display_indices w :: shown_windows later).
    apply (Hstep w later Hinv).
    + lia.
    + intros u Hu. lia.
    + eapply show_loop_first; eassumption.
    + apply (IH (length rest) ltac:(simpl in Hsize; lia) rest eq_refl
               w later Hinv Hlater).
Qed.

(** X9: no ranked row is skipped.  Whenever an index is on screen in a
    listing of a session, every smaller index is on screen in that
    listing or was in an earlier one: replacements come in ranking
    order. *)
Theorem show_recommendations_in_rank_order (recommendations : DataFrame)
    (oscar_df : option (list OscarRow)) (fav_actor : option string)
    (inputs : list string) (out : list event) :
  show_recommendations recommendations oscar_df fav_actor inputs = Done out ->
  forall j dj v u,
    shown_windows out !! j = Some dj -> In v dj -> u < v ->
    exists i di, i <= j /\ shown_windows out !! i = Some di /\ In u di.
Proof.
  intros H j dj v u Hj Hv Huv.
  destruct (Nat.eq_dec (length recommendations) 0) as [E|E].
  { destruct recommendations; [|discriminate]. injection H as <-.
    destruct j; discriminate. }
  pose proof (start_positive (length recommendations) ltac:(lia)) as Hstart.
  set (w := {| display_indices := _; next_index := _ |}) in Hstart.
  assert (Hinv : window_inv (length (map snd recommendations)) w).
  { rewrite length_map. apply (start_inv _ _ _ Hstart). }
  rewrite (show_recommendations_eq _ oscar_df fav_actor inputs _ Hstart) in H.
  destruct (Nat.lt_ge_cases u (next_index w)) as [Hlt|Hge].
  - exists 0, (display_indices w). split; [lia|].
    split; [eapply show_loop_first; eassumption|].
    unfold w in *. simpl in *. rewrite length_seq in Hlt.
    apply in_seq. lia.
  - eapply show_loop_covered; eassumption.
Qed.

Lemma show_recommendations_in_rank_order_witness :
  exists out i di,
    show_recommendations (labelled six_dramas) None None ["y"; "2"; "n"]
    = Done out
    /\ i <= 1 /\ shown_windows out !! i = Some di /\ In 1 di.
Proof.
  destruct (show_recommendations (labelled six_dramas) None None
              ["y"; "2"; "n"]) as [out|] eqn:S;
    [|vm_compute in S; discriminate S].
  destruct (show_recommendations_in_rank_order _ _ _ _ out S
              1 [0; 5; 2; 3; 4] 5 1) as [i [di [Hi [Hd Hin]]]].
  - vm_compute in S. injection S as <-. reflexivity.
  - simpl. tauto.
  - lia.
  - exists out, i, di. auto.
Defined.

(** X10: with five rows or fewer every listing of a session shows all the
    rows, in ranking order: nothing is ever replaced. *)
Theorem show_recommendations_few_rows (recommendations : DataFrame)
    (oscar_df : option (list OscarRow)) (fav_actor : option string)
    (inputs : list string) (out : list event) :
  length recommendations <= 5 ->
  show_recommendations recommendations oscar_df fav_actor inputs = Done out ->
  forall d, In d (shown_windows out) -> d = seq 0 (length recommendations).
Proof.
  intros Hfew H d Hd.
  destruct (Nat.eq_dec (length recommendations) 0) as [E|E].
  { destruct recommendations; [|discriminate]. injection H as <-.
    contradiction. }
  pose proof (start_positive (length recommendations) ltac:(lia)) as Hstart.
  rewrite Nat.min_r in Hstart by exact Hfew.
  set (w := {| display_indices := _; next_index := _ |}) in Hstart.
  assert (Hinv : window_inv (length (map snd recommendations)) w).
  { rewrite length_map. apply (start_inv _ _ _ Hstart). }
  rewrite (show_recommendations_eq _ oscar_df fav_actor inputs _ Hstart) in H.
  destruct (show_loop_chain _ _ _ _ w out Hinv H) as [ws [Hws [Hhead Hpairs]]].
  apply shows_windows in Hws. rewrite shown_windows_listings, Hws in Hd.
  apply in_map_iff in Hd as [wj [<- Hwj]].
  apply list_elem_of_In, list_elem_of_lookup in Hwj as [j Hj].
  destruct (Hpairs 0 j w wj ltac:(lia) Hhead Hj) as [_ [Hinvj [_ [_ Hslots]]]].
  rewrite length_map in Hinvj.
  apply list_eq. intros k.
  destruct (display_indices wj !! k) as [v|] eqn:Hk.
  - destruct (window_inv_lookup _ wj k v Hinvj Hk) as [_ Hv].
    destruct (Hslots k v Hk) as [H0|H0]; [symmetry; exact H0|].
    unfold w in H0. simpl in H0. rewrite length_seq in H0. lia.
  - symmetry. apply lookup_ge_None. rewrite length_seq.
    apply lookup_ge_None in Hk. destruct Hinvj as [Hl _]. lia.
Qed.

Lemma show_recommendations_few_rows_witness :
  [0] = seq 0 (length [(0, drama "Room" (82 # 10) 250 "Brie Larson")]).
Proof.
  destruct (show_recommendations [(0, drama "Room" (82 # 10) 250 "Brie Larson")]
              None None ["y"; "1"; "n"]) as [out|] eqn:S;
    [|vm_compute in S; discriminate S].
  apply (show_recommendations_few_rows
           [(0, drama "Room" (82 # 10) 250 "Brie Larson")] None None
           ["y"; "1"; "n"] out); [simpl; lia|exact S|].
  vm_compute in S. injection S as <-. left. reflexivity.
Defined.

(* ===================================================================== *)
(** * Facts about strip and split *)
(* ===================================================================== *)

Lemma lstrip_trimmed (s : string) : trimmed_left (Py.lstrip s).
Proof.
  induction s as [|c t IH]; simpl; [exact I|].
  destruct (Py.is_space c) eqn:E; [exact IH|exact E].
Qed.

Lemma lstrip_fixed (s : string) : trimmed_left s -> Py.lstrip s = s.
Proof. destruct s as [|c t]; simpl; [reflexivity|]. intros ->. reflexivity. Qed.

Lemma rstrip_idem (s : string) : Py.rstrip (Py.rstrip s) = Py.rstrip s.
Proof.
  induction s as [|c t IH]; [reflexivity|]. simpl.
  destruct (Py.rstrip t) as [|d r] eqn:E.
  - destruct (Py.is_space c) eqn:Hc; [reflexivity|]. simpl. rewrite Hc.
    reflexivity.
  - change (Py.rstrip (String c (String d r)))
      with (match Py.rstrip (String d r) with
            | EmptyString => if Py.is_space c then EmptyString
                             else String c EmptyString
            | t' => String c t'
            end).
    rewrite IH. reflexivity.
Qed.

Lemma rstrip_trimmed (s : string) :
  trimmed_left s -> trimmed_left (Py.rstrip s).
Proof.
  destruct s as [|c t]; simpl; [trivial|]. intros Hc.
  destruct (Py.rstrip t); [rewrite Hc|]; exact Hc.
Qed.

Lemma strip_idem (s : string) : Py.strip (Py.strip s) = Py.strip s.
Proof.
  unfold Py.strip.
  rewrite (lstrip_fixed (Py.rstrip (Py.lstrip s)))
    by (apply rstrip_trimmed, lstrip_trimmed).
  apply rstrip_idem.
Qed.

Lemma lstrip_chars (s : string) (c : ascii) :
  In c (chars (Py.lstrip s)) -> In c (chars s).
Proof.
  induction s as [|d t IH]; simpl; [trivial|].
  destruct (Py.is_space d); [|trivial]. intros H. right. apply IH. exact H.
Qed.

Lemma rstrip_chars (s : string) (c : ascii) :
  In c (chars (Py.rstrip s)) -> In c (chars s).
Proof.
  induction s as [|d t IH]; simpl; [trivial|].
  destruct (Py.rstrip t) as [|e r].
  - destruct (Py.is_space d); simpl; [contradiction|].
    intros [H|[]]. left. exact H.
  - intros [H|H]; [left; exact H|right; apply IH; exact H].
Qed.

Lemma strip_chars (s : string) (c : ascii) :
  In c (chars (Py.strip s)) -> In c (chars s).
Proof. intros H. apply lstrip_chars, rstrip_chars. exact H. Qed.

Lemma split_pieces (sep : ascii) (s : string) :
  Py.split sep s <> []
  /\ length (Py.split sep s) = S (count_occ ascii_dec (chars s) sep)
  /\ Forall (fun piece => ~ In sep (chars piece)) (Py.split sep s).
Proof.
  induction s as [|c t [Hne [Hlen Hall]]]; simpl.
  - split; [discriminate|]. split; [reflexivity|].
    repeat constructor. simpl. tauto.
  - destruct (Ascii.eqb_spec c sep) as [->|Hc].
    + split; [discriminate|]. split.
      * simpl. rewrite Hlen. destruct (ascii_dec sep sep); [reflexivity|].
        contradiction.
      * constructor; [simpl; tauto|exact Hall].
    + destruct (Py.split sep t) as [|h r]; [contradiction|].
      split; [discriminate|]. split.
      * simpl in *. rewrite Hlen. destruct (ascii_dec c sep); [contradiction|].
        reflexivity.
      * apply Forall_cons in Hall as [Hh Hr]. constructor; [|exact Hr].
        simpl. intros [E|Hin]; [congruence|contradiction].
Qed.

(* ===================================================================== *)
(** * load_movie_data, load_oscar_data: results *)
(* ===================================================================== *)

(** X11: the genre list of a row is never empty: a missing genre cell
    gives the one genre [""], a text with [k] commas gives [k + 1]
    genres, and every genre is free of commas and of blanks at its
    ends. *)
Theorem genre_list_shape (g : option string) :
  genre_list g <> []
  /\ genre_list None = [EmptyString]
  /\ length (genre_list g)
     = S (count_occ ascii_dec (chars (default EmptyString g)) comma)
  /\ Forall (fun name => Py.strip name = name /\ ~ In comma (chars name))
       (genre_list g).
Proof.
  unfold genre_list.
  destruct (split_pieces comma (default EmptyString g)) as [Hne [Hlen Hall]].
  split; [|split; [reflexivity|split]].
  - destruct (Py.split comma (default EmptyString g)); [contradiction|].
    discriminate.
  - rewrite length_map. exact Hlen.
  - apply Forall_map. eapply Forall_impl; [exact Hall|].
    simpl. intros piece Hp. split; [apply strip_idem|].
    intros Hin. apply Hp. apply strip_chars. exact Hin.
Qed.

Lemma cleaned_spec (raw : RawMovie) (m : Movie) :
  cleaned raw = Some m <-> cleaned_from raw m.
Proof.
  unfold cleaned, cleaned_from. split.
  - destruct (raw_rating raw), (raw_year raw), (raw_runtime raw),
      (raw_votes raw); try discriminate.
    intros H. injection H as <-. simpl. repeat split; reflexivity.
  - intros [-> [-> [-> [-> [Ht [Hg Ha]]]]]]. destruct m. simpl in *.
    subst. reflexivity.
Qed.

Lemma cleaned_complete (raw : RawMovie) :
  is_complete raw <-> cleaned raw <> None.
Proof.
  unfold is_complete, cleaned.
  destruct (raw_rating raw), (raw_year raw), (raw_runtime raw),
    (raw_votes raw); split; intros H; try discriminate;
    try (destruct H as [H1 [H2 [H3 H4]]]; congruence);
    try (exfalso; apply H; reflexivity).
  repeat split; discriminate.
Qed.

Lemma load_rows_spec (rows : list RawMovie) (k : nat) :
  let df := omap (fun p : nat * RawMovie =>
                    option_map (pair (fst p)) (cleaned (snd p)))
                 (combine (seq k (length rows)) rows) in
  StronglySorted (fun a b : nat * Movie => fst a < fst b) df
  /\ Forall (fun a => k <= fst a) df
  /\ (forall i m, In (i, m) df <->
                  exists raw, k <= i /\ rows !! (i - k) = Some raw
                              /\ cleaned raw = Some m)
  /\ (Forall is_complete rows -> map fst df = seq k (length rows)).
Proof.
  revert k. induction rows as [|raw rows IH]; intros k; simpl.
  - split; [constructor|]. split; [constructor|]. split; [|reflexivity].
    intros i m. split; [contradiction|]. intros [r [_ [H _]]]. discriminate.
  - destruct (IH (S k)) as [Hs [Hk [Hin Hall]]]. cbv zeta in *.
    set (df := omap _ _) in *.
    assert (Hlater : forall i m,
               In (i, m) df <->
               exists r, k <= i /\ (raw :: rows) !! (i - k) = Some r
                         /\ i <> k /\ cleaned r = Some m).
    { intros i m. rewrite Hin. split.
      - intros [r [Hi [Hr Hc]]]. exists r. split; [lia|].
        replace (i - k) with (S (i - S k)) by lia.
        split; [exact Hr|]. split; [lia|exact Hc].
      - intros [r [Hi [Hr [Hne Hc]]]]. exists r. split; [lia|].
        replace (i - k) with (S (i - S k)) in Hr by lia.
        split; [exact Hr|exact Hc]. }
    destruct (cleaned raw) as [m0|] eqn:C; simpl;
      change (list_omap _ _ _ (combine (seq (S k) (length rows)) rows))
        with df.
    + split; [|split; [|split]].
      * constructor; [exact Hs|].
        eapply Forall_impl; [exact Hk|]. simpl. intros; lia.
      * constructor; [simpl; lia|].
        eapply Forall_impl; [exact Hk|]. simpl. intros; lia.
      * intros i m. rewrite Hlater. split.
        -- intros [E|[r [Hi [Hr [_ Hc]]]]].
           ++ injection E as <- <-. exists raw. split; [lia|].
              rewrite Nat.sub_diag. split; [reflexivity|exact C].
           ++ exists r. auto.
        -- intros [r [Hi [Hr Hc]]].
           destruct (Nat.eq_dec i k) as [->|Hne].
           ++ rewrite Nat.sub_diag in Hr. injection Hr as <-.
              left. congruence.
           ++ right. exists r. auto.
      * intros Hcomp. apply Forall_cons in Hcomp as [_ Hcomp].
        rewrite (Hall Hcomp). reflexivity.
    + split; [exact Hs|]. split; [|split].
      * eapply Forall_impl; [exact Hk|]. simpl. intros; lia.
      * intros i m. rewrite Hlater. split.
        -- intros [r [Hi [Hr [_ Hc]]]]. exists r. auto.
        -- intros [r [Hi [Hr Hc]]].
           destruct (Nat.eq_dec i k) as [->|Hne].
           ++ rewrite Nat.sub_diag in Hr. injection Hr as <-. congruence.
           ++ exists r. auto.
      * intros Hcomp. apply Forall_cons in Hcomp as [Hraw _].
        apply cleaned_complete in Hraw. contradiction.
Qed.

(** X12: without a file [load_movie_data] prints its message and returns
    [None].  With a file it returns, under their labels in the file and in
    file order, exactly the rows that lack none of rating, year, runtime
    and votes, each with its genre list (never empty); a row with only the
    genre or the actors missing is kept.  When no row is incomplete the
    labels are the default index. *)
Theorem load_movie_data_keeps (rows : list RawMovie) :
  load_movie_data None = ([MovieFileMissing], None)
  /\ exists df,
       load_movie_data (Some rows) = ([], Some df)
       /\ StronglySorted (fun a b : nat * Movie => fst a < fst b) df
       /\ (forall i m,
             In (i, m) df <->
             exists raw, rows !! i = Some raw /\ cleaned_from raw m)
       /\ (forall i raw,
             rows !! i = Some raw -> is_complete raw ->
             exists m, In (i, m) df)
       /\ Forall (fun a => Genre (snd a) <> []) df
       /\ (Forall is_complete rows -> map fst df = seq 0 (length rows)).
Proof.
  split; [reflexivity|]. eexists. split; [reflexivity|].
  destruct (load_rows_spec rows 0) as [Hs [_ [Hin Hall]]]. cbv zeta in *.
  set (df := omap _ _) in *.
  assert (Hin' : forall i m,
             In (i, m) df <->
             exists raw, rows !! i = Some raw /\ cleaned_from raw m).
  { intros i m. rewrite Hin. split.
    - intros [raw [_ [Hr Hc]]]. rewrite Nat.sub_0_r in Hr.
      exists raw. split; [exact Hr|]. apply cleaned_spec. exact Hc.
    - intros [raw [Hr Hc]]. exists raw. split; [lia|].
      rewrite Nat.sub_0_r. split; [exact Hr|]. apply cleaned_spec. exact Hc. }
  split; [exact Hs|]. split; [exact Hin'|]. split; [|split; [|exact Hall]].
  - intros i raw Hr Hc. apply cleaned_complete in Hc.
    destruct (cleaned raw) as [m|] eqn:C; [|contradiction].
    exists m. apply Hin'. exists raw. split; [exact Hr|].
    apply cleaned_spec. exact C.
  - apply List.Forall_forall. intros [i m] Hm. apply Hin' in Hm as [raw [_ Hc]].
    destruct Hc as [_ [_ [_ [_ [_ [Hg _]]]]]]. simpl. rewrite Hg.
    unfold genre_list.
    destruct (split_pieces comma (default EmptyString (raw_genre raw)))
      as [Hne _].
    destruct (Py.split comma (default EmptyString (raw_genre raw)));
      [contradiction|discriminate].
Qed.

Lemma load_movie_data_keeps_witness :
  exists df,
    load_movie_data
      (Some [{| raw_title := "Room"; raw_genre := None;
                raw_year := Some 2015%Z; raw_rating := Some (82 # 10);
                raw_runtime := Some 118%Z; raw_votes := Some 250%Z;
                raw_actors := None |}])
    = ([], Some df)
    /\ exists m, In (0, m) df.
Proof.
  destruct (proj2 (load_movie_data_keeps
              [{| raw_title := "Room"; raw_genre := None;
                  raw_year := Some 2015%Z; raw_rating := Some (82 # 10);
                  raw_runtime := Some 118%Z; raw_votes := Some 250%Z;
                  raw_actors := None |}]))
    as [df [Hload [_ [_ [Hkept _]]]]].
  exists df. split; [exact Hload|].
  apply (Hkept 0 _ eq_refl). repeat split; discriminate.
Defined.

Lemma has_str_strip_film (rows : list OscarRow) :
  has_str (map film (map strip_film rows)) = has_str (map film rows).
Proof.
  assert (H : forall l,
             existsb (fun x : option string =>
                        match x with Some _ => true | None => false end)
               (map film (map strip_film l))
             = existsb (fun x : option string =>
                          match x with Some _ => true | None => false end)
                 (map film l)).
  { induction l as [|r l IH]; [reflexivity|]. simpl. rewrite IH.
    destruct (film r); reflexivity. }
  destruct rows as [|row rows]; [reflexivity|]. apply (H (row :: rows)).
Qed.

(** X13: without a file [load_oscar_data] prints its message and returns
    [None].  With a file whose film column holds text it returns the
    same rows in the same order, categories and winner cells untouched,
    every film title without blanks at its ends; loading what it returned
    changes nothing. *)
Theorem load_oscar_data_strips (rows : list OscarRow) :
  load_oscar_data None = Done ([OscarFileMissing], None)
  /\ (has_str (map film rows) = true ->
      exists df,
        load_oscar_data (Some rows) = Done ([], Some df)
        /\ length df = length rows
        /\ (forall i row,
              rows !! i = Some row ->
              exists row',
                df !! i = Some row'
                /\ film row' = option_map Py.strip (film row)
                /\ category row' = category row /\ winner row' = winner row)
        /\ Forall (fun row => forall f, film row = Some f -> Py.strip f = f) df
        /\ load_oscar_data (Some df) = Done ([], Some df)).
Proof.
  split; [reflexivity|]. intros Hstr. exists (map strip_film rows).
  unfold load_oscar_data. rewrite Hstr, has_str_strip_film, Hstr.
  split; [reflexivity|]. split; [apply length_map|]. split; [|split].
  - intros i row Hi. exists (strip_film row). split; [|repeat split].
    rewrite list_lookup_fmap, Hi. reflexivity.
  - apply Forall_map, List.Forall_forall. intros row _ f Hf. simpl in Hf.
    destruct (film row) as [g|]; [|discriminate]. injection Hf as <-.
    apply strip_idem.
  - do 3 f_equal. rewrite map_map. apply map_ext. intros [f c w].
    unfold strip_film. simpl. f_equal. destruct f as [g|]; [|reflexivity].
    simpl. rewrite strip_idem. reflexivity.
Qed.

Lemma load_oscar_data_strips_witness :
  exists df,
    load_oscar_data (Some [award "  Gravity " "DIRECTING" true])
    = Done ([], Some df)
    /\ length df = 1.
Proof.
  destruct (proj2 (load_oscar_data_strips
                     [award "  Gravity " "DIRECTING" true]) eq_refl)
    as [df [Hload [Hlen _]]].
  exists df. split; [exact Hload|exact Hlen].
Defined.

(* ===================================================================== *)
(** * Facts about title case, blanks and sorted sets of text *)
(* ===================================================================== *)

Lemma upper_char_space (c : ascii) :
  Py.is_space (PyText.upper_char c) = Py.is_space c.
Proof. destruct c as [[] [] [] [] [] [] [] []]; reflexivity. Qed.

Lemma lower_char_space (c : ascii) :
  Py.is_space (Py.lower_char c) = Py.is_space c.
Proof. destruct c as [[] [] [] [] [] [] [] []]; reflexivity. Qed.

Lemma upper_char_idem (c : ascii) :
  PyText.upper_char (PyText.upper_char c) = PyText.upper_char c.
Proof. destruct c as [[] [] [] [] [] [] [] []]; reflexivity. Qed.

Lemma upper_char_cased (c : ascii) :
  PyText.is_cased (PyText.upper_char c) = PyText.is_cased c.
Proof. destruct c as [[] [] [] [] [] [] [] []]; reflexivity. Qed.

Lemma lower_char_cased (c : ascii) :
  PyText.is_cased (Py.lower_char c) = PyText.is_cased c.
Proof. destruct c as [[] [] [] [] [] [] [] []]; reflexivity. Qed.

Lemma upper_char_special (c : ascii) :
  Re.is_special (PyText.upper_char c) = Re.is_special c.
Proof. destruct c as [[] [] [] [] [] [] [] []]; reflexivity. Qed.

(** The character [title] writes for [c]. *)
Lemma title_char_space (b : bool) (c : ascii) :
  Py.is_space (if b then Py.lower_char c else PyText.upper_char c)
  = Py.is_space c.
Proof. destruct b; [apply lower_char_space|apply upper_char_space]. Qed.

Lemma title_from_idem (s : string) :
  forall b, PyText.title_from b (PyText.title_from b s) = PyText.title_from b s.
Proof.
  induction s as [|c t IH]; intros b; [reflexivity|]. simpl.
  assert (Hc : PyText.is_cased (if b then Py.lower_char c
                                else PyText.upper_char c)
               = PyText.is_cased c)
    by (destruct b; [apply lower_char_cased|apply upper_char_cased]).
  rewrite Hc, IH. destruct b.
  - rewrite lower_char_idem. reflexivity.
  - rewrite upper_char_idem. reflexivity.
Qed.

Lemma title_idem (s : string) : PyText.title (PyText.title s) = PyText.title s.
Proof. apply title_from_idem. Qed.

Lemma title_from_plain (s : string) :
  forall b, plain (PyText.title_from b s) = plain s.
Proof.
  induction s as [|c t IH]; intros b; [reflexivity|]. simpl. rewrite IH.
  destruct b; [rewrite (proj2 (lower_char_special c))
              |rewrite upper_char_special]; reflexivity.
Qed.

Lemma title_from_empty (s : string) (b : bool) :
  PyText.title_from b s = EmptyString <-> s = EmptyString.
Proof. destruct s; simpl; split; intros H; try reflexivity; discriminate. Qed.

Lemma lstrip_fixed_iff (s : string) : Py.lstrip s = s <-> trimmed_left s.
Proof.
  split; [|apply lstrip_fixed]. intros H. rewrite <- H. apply lstrip_trimmed.
Qed.

Lemma rstrip_fixed_iff (s : string) : Py.rstrip s = s <-> trimmed_right s.
Proof.
  induction s as [|c t IH]; [simpl; tauto|].
  change (Py.rstrip (String c t))
    with (match Py.rstrip t with
          | EmptyString => if Py.is_space c then EmptyString
                           else String c EmptyString
          | t' => String c t'
          end).
  destruct t as [|d r].
  - simpl. destruct (Py.is_space c); split; intros H;
      try reflexivity; discriminate.
  - change (trimmed_right (String c (String d r)))
      with (trimmed_right (String d r)).
    rewrite <- IH. destruct (Py.rstrip (String d r)) as [|e u].
    + split; [|discriminate]. destruct (Py.is_space c); discriminate.
    + split; intros H; congruence.
Qed.

Lemma strip_fixed_iff (s : string) :
  Py.strip s = s <-> trimmed_left s /\ trimmed_right s.
Proof.
  unfold Py.strip. split.
  - intros H.
    assert (Hl : trimmed_left s)
      by (rewrite <- H; apply rstrip_trimmed, lstrip_trimmed).
    split; [exact Hl|]. apply rstrip_fixed_iff.
    rewrite (lstrip_fixed s Hl) in H. exact H.
  - intros [Hl Hr]. rewrite (lstrip_fixed s Hl). apply rstrip_fixed_iff, Hr.
Qed.

Lemma title_from_trimmed_left (s : string) (b : bool) :
  trimmed_left (PyText.title_from b s) <-> trimmed_left s.
Proof. destruct s; simpl; [tauto|]. rewrite title_char_space. tauto. Qed.

Lemma title_from_trimmed_right (s : string) :
  forall b, trimmed_right (PyText.title_from b s) <-> trimmed_right s.
Proof.
  induction s as [|c t IH]; intros b; [simpl; tauto|].
  destruct t as [|d r].
  - simpl. rewrite title_char_space. tauto.
  - change (trimmed_right (String c (String d r)))
      with (trimmed_right (String d r)).
    rewrite <- (IH (PyText.is_cased c)). simpl. tauto.
Qed.

(** [title] neither adds nor removes a blank at an end. *)
Lemma title_strip_fixed (s : string) :
  Py.strip (PyText.title s) = PyText.title s <-> Py.strip s = s.
Proof.
  rewrite !strip_fixed_iff. unfold PyText.title.
  rewrite title_from_trimmed_left, title_from_trimmed_right. tauto.
Qed.

Lemma strip_plain (s : string) : plain s = true -> plain (Py.strip s) = true.
Proof.
  assert (H : forall u, plain u = true
                        <-> forall c, In c (chars u) -> Re.is_special c = false).
  { induction u as [|c t IH]; simpl.
    - split; [intros _ c []|reflexivity].
    - rewrite andb_true_iff, negb_true_iff, IH. split.
      + intros [Hc Ht] d [<-|Hd]; [exact Hc|apply Ht, Hd].
      + intros Hall. split; [apply Hall; left; reflexivity|].
        intros d Hd. apply Hall. right. exact Hd. }
  rewrite !H. intros Hall c Hc. apply Hall, strip_chars, Hc.
Qed.

Lemma text_lt_trans (a b c : string) : text_lt a b -> text_lt b c -> text_lt a c.
Proof.
  unfold text_lt. intros H1 H2.
  apply OrderedTypeEx.String_as_OT.cmp_lt.
  apply OrderedTypeEx.String_as_OT.cmp_lt in H1, H2.
  exact (OrderedTypeEx.String_as_OT.lt_trans _ _ _ H1 H2).
Qed.

Lemma set_insert_In (x y : string) (l : list string) :
  In y (PyText.set_insert x l) <-> y = x \/ In y l.
Proof.
  induction l as [|z t IH]; simpl; [intuition congruence|].
  destruct (String.compare x z) eqn:E; simpl.
  - apply String.compare_eq_iff in E. subst z. intuition congruence.
  - intuition congruence.
  - rewrite IH. intuition congruence.
Qed.

Lemma sorted_set_In (y : string) (l : list string) :
  In y (PyText.sorted_set l) <-> In y l.
Proof.
  induction l as [|x t IH]; simpl; [tauto|].
  rewrite set_insert_In, IH. intuition congruence.
Qed.

Lemma set_insert_sorted (x : string) (l : list string) :
  StronglySorted text_lt l -> StronglySorted text_lt (PyText.set_insert x l).
Proof.
  induction l as [|z t IH]; intros Hs; simpl.
  - repeat constructor.
  - apply StronglySorted_inv in Hs as [Ht Hz].
    destruct (String.compare x z) eqn:E.
    + constructor; assumption.
    + constructor; [constructor; assumption|].
      constructor; [exact E|].
      eapply List.Forall_impl; [|exact Hz]. intros u Hu.
      exact (text_lt_trans _ _ _ E Hu).
    + constructor; [apply IH, Ht|].
      apply List.Forall_forall. intros u Hu.
      apply set_insert_In in Hu as [->|Hu].
      * unfold text_lt. rewrite String.compare_antisym, E. reflexivity.
      * rewrite List.Forall_forall in Hz. apply Hz, Hu.
Qed.

Lemma sorted_set_sorted (l : list string) :
  StronglySorted text_lt (PyText.sorted_set l).
Proof.
  induction l as [|x t IH]; simpl; [constructor|].
  apply set_insert_sorted, IH.
Qed.

(* ===================================================================== *)
(** * get_user_preferences: results *)
(* ===================================================================== *)

Lemma read_int_cases (min_val max_val : option Z) (line : string) :
  match read_int min_val max_val line with
  | Skipped => Py.strip line = EmptyString
  | Accepted v => int_in_range min_val max_val v = true
  | Rejected note => note = IntegerOutOfRange \/ note = NotAnInteger
  end.
Proof.
  unfold read_int. destruct (String.eqb_spec (Py.strip line) EmptyString) as [E|E].
  - exact E.
  - destruct (PyText.parse_int (Py.strip line)) as [v|]; [|right; reflexivity].
    destruct (int_in_range min_val max_val v) eqn:H; [exact H|left; reflexivity].
Qed.

Lemma read_float_cases (float : string -> option pyfloat) (min_val max_val : Q)
    (line : string) :
  match read_float float min_val max_val line with
  | Skipped => Py.strip line = EmptyString
  | Accepted q => (min_val <= q <= max_val)%Q
  | Rejected note => note = NumberOutOfRange \/ note = NotAFloat
  end.
Proof.
  unfold read_float.
  destruct (String.eqb_spec (Py.strip line) EmptyString) as [E|E]; [exact E|].
  destruct (float (Py.strip line)) as [[q| |]|];
    [|left; reflexivity|left; reflexivity|right; reflexivity].
  destruct (Qle_bool min_val q && Qle_bool q max_val) eqn:H;
    [|left; reflexivity].
  apply andb_true_iff in H as [H1 H2].
  split; apply Qle_bool_iff; assumption.
Qed.

Lemma survey_post_say (all_genres : list string) (q q' : question)
    (line : string) (rest : list string) (notes : list notice)
    (result : list notice * option (Prefs * list string)) :
  Forall (survey_note all_genres) notes ->
  questions_left q <= S (questions_left q') ->
  survey_post all_genres q' rest result ->
  survey_post all_genres q (line :: rest) (say notes result).
Proof.
  intros Hnotes Hleft. unfold survey_post, say. cbn [fst snd].
  destruct (snd result) as [[prefs rest']|].
  - intros (Hall & Hwf & consumed & last_line & -> & Hlen & Hfav).
    split; [apply Forall_app; split; assumption|]. split; [exact Hwf|].
    exists (line :: consumed), last_line. split; [reflexivity|].
    split; [simpl; lia|exact Hfav].
  - intros (notes' & -> & Hall). exists (notes ++ notes').
    split; [apply app_assoc|]. apply Forall_app. split; assumption.
Qed.

Lemma survey_post_step (all_genres : list string) (q q' : question)
    (line : string) (rest : list string)
    (result : list notice * option (Prefs * list string)) :
  questions_left q <= S (questions_left q') ->
  survey_post all_genres q' rest result ->
  survey_post all_genres q (line :: rest) result.
Proof.
  intros Hleft H.
  exact (survey_post_say all_genres q q' line rest [] result
           (List.Forall_nil _) Hleft H).
Qed.

Lemma survey_note_one (all_genres : list string) (n : notice) :
  survey_note all_genres n -> Forall (survey_note all_genres) [n].
Proof. intros H. constructor; [exact H|constructor]. Qed.

Lemma in_years (lo hi v : Z) :
  int_in_range (Some lo) (Some hi) v = true -> (lo <= v <= hi)%Z.
Proof. unfold int_in_range. rewrite andb_true_iff. lia. Qed.

(** The survey from any question whose collected answers are well
    formed. *)
Lemma survey_spec (float : string -> option pyfloat)
    (all_genres : list string) (inputs : list string) :
  forall q,
    well_formed all_genres (answers q) ->
    survey_post all_genres q inputs (survey float all_genres q inputs).
Proof.
  assert (Hplain : forall n,
             n <> InputEnded -> (forall l, n <> AvailableGenres l) ->
             Forall (survey_note all_genres) [n]).
  { intros n H1 H2. apply survey_note_one. split; [exact H1|].
    intros l E. destruct (H2 l E). }
  assert (Hint : forall note,
             note = IntegerOutOfRange \/ note = NotAnInteger ->
             Forall (survey_note all_genres) [note]).
  { intros note [->| ->]; apply Hplain; discriminate. }
  induction inputs as [|line rest IH]; intros q Hq.
  - simpl. exists []. split; [reflexivity|constructor].
  - destruct q as [| |g|g r|g r lo|g r lo hi|g r lo hi t]; cbn [survey].
    + (* the genre *)
      destruct (String.eqb_spec (PyText.title line) EmptyString) as [E|E].
      * apply (survey_post_say _ _ (AskMinRating None));
          [apply Hplain; discriminate|simpl; lia|].
        apply IH. exact Hq.
      * destruct (existsb (String.eqb (PyText.title line)) all_genres) eqn:Hin.
        -- apply (survey_post_say _ _ (AskMinRating (Some (PyText.title line))));
             [apply Hplain; discriminate|simpl; lia|].
           apply IH. destruct Hq as (_ & Hq).
           split; [|exact Hq]. simpl. intros g [= <-].
           split; [exact E|]. split; [|apply title_idem].
           apply existsb_exists in Hin as (g & Hg & Heq).
           apply String.eqb_eq in Heq. subst g. exact Hg.
        -- apply (survey_post_step _ _ AskSeeGenres); [simpl; lia|].
           apply IH. exact Hq.
    + (* the list of genres *)
      destruct (String.eqb (Py.lower (Py.strip line)) "y").
      * apply (survey_post_say _ _ AskGenre); [|simpl; lia|apply IH, Hq].
        apply survey_note_one. split; [discriminate|]. intros l [= <-].
        reflexivity.
      * destruct (String.eqb (Py.lower (Py.strip line)) "n").
        -- apply (survey_post_say _ _ AskGenre);
             [apply Hplain; discriminate|simpl; lia|apply IH, Hq].
        -- apply (survey_post_say _ _ AskSeeGenres);
             [apply Hplain; discriminate|simpl; lia|apply IH, Hq].
    + (* the rating *)
      pose proof (read_float_cases float 0 10 line) as Hr.
      destruct (read_float float 0 10 line) as [|v|note].
      * apply (survey_post_step _ _ (AskMinYear g None)); [simpl; lia|].
        apply IH. exact Hq.
      * apply (survey_post_step _ _ (AskMinYear g (Some v))); [simpl; lia|].
        apply IH. destruct Hq as (Hg & _ & Hq).
        split; [exact Hg|]. split; [|exact Hq]. simpl. intros r [= <-]. exact Hr.
      * apply (survey_post_say _ _ (AskMinRating g));
          [|simpl; lia|apply IH, Hq].
        destruct Hr as [->| ->]; apply Hplain; discriminate.
    + (* the earliest year *)
      pose proof (read_int_cases (Some 2006%Z) (Some 2016%Z) line) as Hr.
      destruct (read_int (Some 2006%Z) (Some 2016%Z) line) as [|v|note].
      * apply (survey_post_step _ _ (AskMaxYear g r None)); [simpl; lia|].
        apply IH. exact Hq.
      * apply (survey_post_step _ _ (AskMaxYear g r (Some v))); [simpl; lia|].
        apply IH. destruct Hq as (Hg & Hrt & _ & Hhi & _ & Hq).
        split; [exact Hg|]. split; [exact Hrt|].
        split; [simpl; intros y [= <-]; apply in_years, Hr|].
        split; [exact Hhi|]. split; [simpl; intros ? ? _ [=]|exact Hq].
      * apply (survey_post_say _ _ (AskMinYear g r));
          [apply Hint, Hr|simpl; lia|apply IH, Hq].
    + (* the latest year *)
      pose proof (read_int_cases (Some 2006%Z) (Some 2016%Z) line) as Hr.
      destruct (read_int (Some 2006%Z) (Some 2016%Z) line) as [|v|note];
        cbn [reading_value].
      * assert (E : match lo with
                    | Some _ | _ =>
                        survey float all_genres (AskMaxRuntime g r lo None) rest
                    end
                    = survey float all_genres (AskMaxRuntime g r lo None) rest)
          by (destruct lo; reflexivity).
        rewrite E.
        apply (survey_post_step _ _ (AskMaxRuntime g r lo None)); [simpl; lia|].
        apply IH. exact Hq.
      * destruct Hq as (Hg & Hrt & Hlo & _ & _ & Hq).
        assert (Hv : (2006 <= v <= 2016)%Z) by apply in_years, Hr.
        destruct lo as [l|].
        -- destruct (Z.leb_spec l v) as [Hle|Hgt].
           ++ apply (survey_post_step _ _ (AskMaxRuntime g r (Some l) (Some v)));
                [simpl; lia|].
              apply IH. split; [exact Hg|]. split; [exact Hrt|].
              split; [exact Hlo|].
              split; [simpl; intros y [= <-]; exact Hv|].
              split; [simpl; intros ? ? [= <-] [= <-]; exact Hle|exact Hq].
           ++ apply (survey_post_say _ _ (AskMinYear g r));
                [apply Hplain; discriminate|simpl; lia|].
              apply IH. split; [exact Hg|]. split; [exact Hrt|].
              split; [simpl; intros ? [=]|].
              split; [simpl; intros ? [=]|].
              split; [simpl; intros ? ? [=]|exact Hq].
        -- apply (survey_post_step _ _ (AskMaxRuntime g r None (Some v)));
             [simpl; lia|].
           apply IH. split; [exact Hg|]. split; [exact Hrt|].
           split; [exact Hlo|].
           split; [simpl; intros y [= <-]; exact Hv|].
           split; [simpl; intros ? ? [=]|exact Hq].
      * apply (survey_post_say _ _ (AskMaxYear g r lo));
          [apply Hint, Hr|simpl; lia|apply IH].
        destruct Hq as (Hg & Hrt & Hlo & _ & _ & Hq).
        split; [exact Hg|]. split; [exact Hrt|]. split; [exact Hlo|].
        split; [simpl; intros ? [=]|].
        split; [simpl; intros ? ? _ [=]|exact Hq].
    + (* the runtime *)
      pose proof (read_int_cases (Some 50%Z) None line) as Hr.
      destruct (read_int (Some 50%Z) None line) as [|v|note].
      * apply (survey_post_step _ _ (AskFavActor g r lo hi None)); [simpl; lia|].
        apply IH. exact Hq.
      * apply (survey_post_step _ _ (AskFavActor g r lo hi (Some v)));
          [simpl; lia|].
        apply IH. destruct Hq as (Hg & Hrt & Hlo & Hhi & Hord & _ & Hq).
        repeat (split; [assumption|]).
        split; [|exact Hq]. simpl. intros t [= <-].
        unfold int_in_range in Hr. rewrite andb_true_r in Hr. lia.
      * apply (survey_post_say _ _ (AskMaxRuntime g r lo hi));
          [apply Hint, Hr|simpl; lia|apply IH, Hq].
    + (* the favourite actor *)
      unfold survey_post. cbn [fst snd]. split; [constructor|].
      destruct Hq as (Hg & Hrt & Hlo & Hhi & Hord & Ht & _).
      split.
      * repeat (split; [assumption|]).
        exists (PyText.title (Py.strip line)). split; [reflexivity|].
        split; [apply title_idem|]. apply title_strip_fixed, strip_idem.
      * exists [], line. split; [reflexivity|]. split; [simpl; lia|reflexivity].
Qed.

Lemma answers_start (all_genres : list string) :
  well_formed all_genres (answers AskGenre).
Proof.
  unfold well_formed. simpl.
  repeat (split; [intros; discriminate|]).
  exists EmptyString. repeat split; reflexivity.
Qed.

Lemma offered_genre (df : list Movie) (g : string) :
  In g (PyText.sorted_set (concat (map Genre df))) <-> genre_of df g.
Proof.
  rewrite sorted_set_In, in_concat. unfold genre_of. split.
  - intros [l [Hl Hg]]. apply in_map_iff in Hl as [row [<- Hrow]].
    exists row. split; assumption.
  - intros [row [Hrow Hg]]. exists (Genre row).
    split; [apply in_map; exact Hrow|exact Hg].
Qed.

(** X14: the preferences the survey returns are well formed, whatever is
    typed and whatever [float] makes of it: a genre is a non-empty genre
    of some catalog row, in title case; the rating is between 0 and 10;
    the years are between 2006 and 2016 and, when both are set, in order;
    the runtime is at least 50; the favourite actor is never [None] but a
    text in title case without blanks at its ends. *)
Theorem get_user_preferences_well_formed (float : string -> option pyfloat)
    (df : list Movie) (inputs : list string) (notes : list notice)
    (prefs : Prefs) (rest : list string) :
  get_user_preferences float df inputs = (notes, Some (prefs, rest)) ->
  (forall g, genre prefs = Some g ->
             g <> EmptyString /\ PyText.title g = g /\ genre_of df g)
  /\ (forall r, min_rating prefs = Some r -> (0 <= r <= 10)%Q)
  /\ (forall y, min_year prefs = Some y -> (2006 <= y <= 2016)%Z)
  /\ (forall y, max_year prefs = Some y -> (2006 <= y <= 2016)%Z)
  /\ (forall lo hi, min_year prefs = Some lo -> max_year prefs = Some hi ->
                    (lo <= hi)%Z)
  /\ (forall t, max_runtime prefs = Some t -> (50 <= t)%Z)
  /\ (exists a, fav_actor prefs = Some a
                /\ PyText.title a = a /\ Py.strip a = a).
Proof.
  intros H.
  pose proof (survey_spec float (PyText.sorted_set (concat (map Genre df)))
                inputs AskGenre (answers_start _)) as Hpost.
  unfold get_user_preferences in H. unfold survey_post in Hpost.
  rewrite H in Hpost. cbn [fst snd] in Hpost.
  destruct Hpost as (_ & (Hg & Hrest) & _).
  split; [|exact Hrest]. intros g E.
  destruct (Hg g E) as (Hne & Hin & Ht).
  split; [exact Hne|]. split; [exact Ht|]. apply offered_genre, Hin.
Qed.

Lemma get_user_preferences_well_formed_witness : (2010 <= 2015)%Z.
Proof.
  refine (proj1 (proj2 (proj2 (proj2 (proj2
           (get_user_preferences_well_formed float_of_7_5 six_dramas
              ["drama"; "high"; "7.5"; "2015"; "2010"; "2010"; "2015"; "20";
               ""; " brie larson"; "n"]
              [FilterHeading; NotAFloat; YearsInverted; IntegerOutOfRange]
              {| genre := Some "Drama"; min_rating := Some (75 # 10);
                 min_year := Some 2010%Z; max_year := Some 2015%Z;
                 max_runtime := None; fav_actor := Some "Brie Larson" |}
              ["n"] eq_refl))))) 2010%Z 2015%Z eq_refl eq_refl).
Defined.

(** X15: the survey reads the typed lines in order, at least six of them,
    and leaves the others untouched; the last line it reads is the
    favourite actor.  When the input ends before the last question, no
    preferences are returned and the end of the input is the last thing
    that happens; with fewer than six lines this is always so. *)
Theorem get_user_preferences_reads_lines (float : string -> option pyfloat)
    (df : list Movie) (inputs : list string) :
  match get_user_preferences float df inputs with
  | (notes, Some (prefs, rest)) =>
      ~ In InputEnded notes
      /\ exists consumed line,
           inputs = consumed ++ line :: rest
           /\ 5 <= length consumed
           /\ fav_actor prefs = Some (PyText.title (Py.strip line))
  | (notes, None) =>
      exists said, notes = said ++ [InputEnded] /\ ~ In InputEnded said
  end
  /\ (length inputs < 6 ->
      snd (get_user_preferences float df inputs) = None).
Proof.
  pose proof (survey_spec float (PyText.sorted_set (concat (map Genre df)))
                inputs AskGenre (answers_start _)) as Hpost.
  unfold get_user_preferences. unfold survey_post in Hpost.
  assert (Hsaid : forall notes,
             Forall (survey_note (PyText.sorted_set (concat (map Genre df))))
               notes -> ~ In InputEnded notes).
  { intros notes Hall Hin. rewrite List.Forall_forall in Hall.
    destruct (Hall _ Hin) as [Hne _]. apply Hne. reflexivity. }
  destruct (survey float _ AskGenre inputs) as [notes [[prefs rest]|]];
    cbn [fst snd] in *.
  - destruct Hpost as (Hall & _ & consumed & line & -> & Hlen & Hfav).
    split.
    + split; [apply Hsaid, Hall|]. exists consumed, line.
      split; [reflexivity|]. split; [simpl in Hlen; lia|exact Hfav].
    + rewrite length_app. simpl in *. lia.
  - split; [|reflexivity]. destruct Hpost as (said & -> & Hall).
    exists said. split; [reflexivity|apply Hsaid, Hall].
Qed.

(** X16: whenever the survey prints the available genres, it prints the
    genres of the catalog rows, each once, in increasing order. *)
Theorem get_user_preferences_offers_genres (float : string -> option pyfloat)
    (df : list Movie) (inputs : list string) (genres : list string) :
  In (AvailableGenres genres) (fst (get_user_preferences float df inputs)) ->
  StronglySorted text_lt genres /\ forall g, In g genres <-> genre_of df g.
Proof.
  pose proof (survey_spec float (PyText.sorted_set (concat (map Genre df)))
                inputs AskGenre (answers_start _)) as Hpost.
  unfold get_user_preferences. unfold survey_post in Hpost. intros Hin.
  assert (E : genres = PyText.sorted_set (concat (map Genre df))).
  { destruct (survey float _ AskGenre inputs) as [notes [[prefs rest]|]];
      cbn [fst snd] in *.
    - destruct Hpost as (Hall & _). rewrite List.Forall_forall in Hall.
      destruct (Hall _ Hin) as [_ Hl]. apply Hl. reflexivity.
    - destruct Hpost as (said & -> & Hall). rewrite List.Forall_forall in Hall.
      apply in_app_or in Hin as [Hin|[Hin|[]]]; [|discriminate Hin].
      destruct (Hall _ Hin) as [_ Hl]. apply Hl. reflexivity. }
  subst genres. split; [apply sorted_set_sorted|]. intros g.
  apply offered_genre.
Qed.

Lemma get_user_preferences_offers_genres_witness :
  StronglySorted text_lt ["Comedy"; "Drama"]
  /\ forall g, In g ["Comedy"; "Drama"]
               <-> genre_of [drama "Room" (82 # 10) 250 "Brie Larson";
                             {| Title := "Paddington";
                                Genre := ["Drama"; "Comedy"];
                                Year := 2014; Rating := 72 # 10;
                                Runtime := 95; Votes := 80;
                                Actors := None |}] g.
Proof.
  apply (get_user_preferences_offers_genres (fun _ => None) _
           ["western"; "y"]).
  left. reflexivity.
Defined.

(** Once the genre question is behind, the genre stays as collected. *)
Lemma survey_keeps_genre (float : string -> option pyfloat)
    (all_genres : list string) (inputs : list string) :
  forall q prefs rest,
    past_genre q = true ->
    snd (survey float all_genres q inputs) = Some (prefs, rest) ->
    genre prefs = genre (answers q).
Proof.
  induction inputs as [|line rest0 IH]; intros q prefs rest Hq H;
    [discriminate H|].
  destruct q as [| |g|g r|g r lo|g r lo hi|g r lo hi t];
    try discriminate Hq; cbn [survey] in H.
  - destruct (read_float float 0 10 line); cbn [say snd] in H;
      apply IH in H; try reflexivity; exact H.
  - destruct (read_int (Some 2006%Z) (Some 2016%Z) line); cbn [say snd] in H;
      apply IH in H; try reflexivity; exact H.
  - destruct (read_int (Some 2006%Z) (Some 2016%Z) line) as [|v|note];
      cbn [reading_value say snd] in H.
    + destruct lo; apply IH in H; try reflexivity; exact H.
    + destruct lo as [l|]; [destruct (l <=? v)%Z|]; cbn [say snd] in H;
        apply IH in H; try reflexivity; exact H.
    + apply IH in H; try reflexivity; exact H.
  - destruct (read_int (Some 50%Z) None line); cbn [say snd] in H;
      apply IH in H; try reflexivity; exact H.
  - injection H as <- _. reflexivity.
Qed.

(** X17: a first answer that is empty, or whose title-case form is a
    genre of some catalog row, settles the genre question at once: the
    survey goes on to the filters, and whatever it returns has no genre
    in the first case and that title-case form in the second. *)
Theorem get_user_preferences_accepts_genre (float : string -> option pyfloat)
    (df : list Movie) (line : string) (inputs : list string)
    (notes : list notice) (prefs : Prefs) (rest : list string) :
  line = EmptyString \/ genre_of df (PyText.title line) ->
  get_user_preferences float df (line :: inputs) = (notes, Some (prefs, rest)) ->
  genre prefs = (if String.eqb line EmptyString then None
                 else Some (PyText.title line))
  /\ exists later, notes = FilterHeading :: later.
Proof.
  intros Hline. unfold get_user_preferences. cbn [survey].
  destruct (String.eqb_spec line EmptyString) as [->|Hne].
  - cbn [PyText.title PyText.title_from String.eqb]. intros H.
    unfold say in H. cbn [app] in H. injection H as Hn Hs.
    split; [|eexists; symmetry; exact Hn].
    exact (survey_keeps_genre float _ inputs (AskMinRating None) prefs rest
             eq_refl Hs).
  - destruct Hline as [E|Hg]; [contradiction|].
    destruct (String.eqb_spec (PyText.title line) EmptyString) as [E|_].
    { apply title_from_empty in E. contradiction. }
    apply offered_genre in Hg.
    assert (Hin : existsb (String.eqb (PyText.title line))
                    (PyText.sorted_set (concat (map Genre df))) = true).
    { apply existsb_exists. exists (PyText.title line).
      split; [exact Hg|apply String.eqb_refl]. }
    rewrite Hin. intros H.
    unfold say in H. cbn [app] in H. injection H as Hn Hs.
    split; [|eexists; symmetry; exact Hn].
    exact (survey_keeps_genre float _ inputs
             (AskMinRating (Some (PyText.title line))) prefs rest
             eq_refl Hs).
Qed.

Lemma get_user_preferences_accepts_genre_witness :
  Some "Drama" = (if String.eqb "dRAMA" EmptyString then None
                  else Some (PyText.title "dRAMA"))
  /\ exists later, [FilterHeading; NotAnInteger] = FilterHeading :: later.
Proof.
  apply (get_user_preferences_accepts_genre (fun _ => None) six_dramas
           "dRAMA" [""; "x"; ""; ""; ""; "nobody"; "n"]
           [FilterHeading; NotAnInteger]
           {| genre := Some "Drama"; min_rating := None; min_year := None;
              max_year := None; max_runtime := None;
              fav_actor := Some "Nobody" |} ["n"]).
  - right. exists (drama "Selma" (75 # 10) 70 "David Oyelowo").
    split; [left; reflexivity|left; reflexivity].
  - reflexivity.
Defined.

(** Every row of a loaded catalog is a cleaned row of the file. *)
Lemma loaded_rows (raws : list RawMovie) (frame : DataFrame) :
  load_movie_data (Some raws) = ([], Some frame) ->
  forall m, In m (map snd frame) ->
            exists raw, In raw raws /\ cleaned raw = Some m.
Proof.
  intros H m Hm. unfold load_movie_data in H. injection H as <-.
  apply in_map_iff in Hm as [[i m'] [E Hin]]. simpl in E. subst m'.
  destruct (load_rows_spec raws 0) as [_ [_ [Hspec _]]]. cbv zeta in Hspec.
  apply Hspec in Hin as [raw [_ [Hraw Hc]]]. exists raw.
  split; [|exact Hc].
  apply list_elem_of_In. eapply list_elem_of_lookup_2. exact Hraw.
Qed.

Lemma loaded_genres_trimmed (raws : list RawMovie) (frame : DataFrame) :
  load_movie_data (Some raws) = ([], Some frame) ->
  forall g, genre_of (map snd frame) g -> Py.strip g = g.
Proof.
  intros H g [row [Hrow Hg]].
  destruct (loaded_rows raws frame H row Hrow) as [raw [_ Hc]].
  apply cleaned_spec in Hc. destruct Hc as (_ & _ & _ & _ & _ & E & _).
  rewrite E in Hg. unfold genre_list in Hg.
  apply in_map_iff in Hg as [piece [<- _]]. apply strip_idem.
Qed.

(** X18: the genre answer is taken as typed, blanks included, while the
    genres of a loaded catalog have no blank at their ends.  So a first
    answer with a blank at an end (a line of blanks too) neither names a
    genre nor skips the question: the survey asks whether to show the
    genres, and starts over with the lines that follow on "n", and on "y"
    after the list; on any other reply it asks that again. *)
Theorem get_user_preferences_refuses_blanks (float : string -> option pyfloat)
    (raws : list RawMovie) (frame : DataFrame) (line reply : string)
    (inputs : list string) :
  load_movie_data (Some raws) = ([], Some frame) ->
  Py.strip line <> line ->
  let df := map snd frame in
  let see_genres := Py.lower (Py.strip reply) in
  get_user_preferences float df (line :: reply :: inputs)
  = if String.eqb see_genres "y" then
      say [AvailableGenres (PyText.sorted_set (concat (map Genre df)))]
          (get_user_preferences float df inputs)
    else if String.eqb see_genres "n" then
      say [TryGenreAgain] (get_user_preferences float df inputs)
    else say [InvalidYesNo] (get_user_preferences float df (line :: inputs)).
Proof.
  intros Hload Hline df see_genres.
  assert (Hne : String.eqb (PyText.title line) EmptyString = false).
  { apply String.eqb_neq. intros E. apply title_from_empty in E. subst line.
    apply Hline. reflexivity. }
  assert (Hout : existsb (String.eqb (PyText.title line))
                   (PyText.sorted_set (concat (map Genre df))) = false).
  { destruct (existsb _ _) eqn:E; [|reflexivity]. exfalso.
    apply existsb_exists in E as [g [Hg E]]. apply String.eqb_eq in E.
    subst g. apply offered_genre in Hg.
    apply (loaded_genres_trimmed raws frame Hload) in Hg.
    apply Hline. apply (proj1 (title_strip_fixed line)). exact Hg. }
  assert (Hstep : forall rest,
             get_user_preferences float df (line :: rest)
             = survey float (PyText.sorted_set (concat (map Genre df)))
                 AskSeeGenres rest).
  { intros rest. unfold get_user_preferences. cbn [survey].
    rewrite Hne, Hout. reflexivity. }
  rewrite !Hstep. cbn [survey]. fold see_genres.
  destruct (String.eqb see_genres "y"); [reflexivity|].
  destruct (String.eqb see_genres "n"); reflexivity.
Qed.

Lemma get_user_preferences_refuses_blanks_witness :
  get_user_preferences (fun _ => None)
    [drama "Room" (82 # 10) 250 "Brie Larson"] ["Drama "; " N"; "drama"]
  = say [TryGenreAgain]
      (get_user_preferences (fun _ => None)
         [drama "Room" (82 # 10) 250 "Brie Larson"] ["drama"]).
Proof.
  apply (get_user_preferences_refuses_blanks (fun _ => None)
           [{| raw_title := "Room"; raw_genre := Some "Drama";
               raw_year := Some 2014%Z; raw_rating := Some (82 # 10);
               raw_runtime := Some 107%Z; raw_votes := Some 250%Z;
               raw_actors := Some "Brie Larson" |}]
           [(0, drama "Room" (82 # 10) 250 "Brie Larson")]
           "Drama " " N" ["drama"]).
  - reflexivity.
  - discriminate.
Defined.




(* ===================================================================== *)
(** * main: results *)
(* ===================================================================== *)

Lemma listings_In (out : list event) (indices : list nat) (lines : list Line) :
  In (Recommendations indices lines) out <-> In (indices, lines) (listings out).
Proof.
  induction out as [|e out IH]; simpl; [tauto|].
  destruct e; simpl; rewrite <- IH; intuition (try discriminate; congruence).
Qed.

(** Every line of every listing shows a row of the ranking. *)
Lemma show_recommendations_lines (recommendations : DataFrame)
    (oscar_df : option (list OscarRow)) (fav_actor : option string)
    (inputs : list string) (out : list event) :
  show_recommendations recommendations oscar_df fav_actor inputs = Done out ->
  forall indices lines line,
    In (Recommendations indices lines) out -> In line lines ->
    In (shown line) (map snd recommendations).
Proof.
  unfold show_recommendations. intros H indices lines line Hin Hline.
  destruct (start (length (map snd recommendations))) as [out0 [w|]] eqn:S.
  - pose proof (start_inv _ _ _ S) as Hinv.
    assert (E0 : out0 = []).
    { unfold start in S. destruct (length (map snd recommendations));
        [discriminate S|]. injection S as <- _. reflexivity. }
    subst out0.
    destruct (show_loop (map snd recommendations) oscar_df fav_actor w inputs)
      as [later|] eqn:L; [|discriminate H].
    cbn [bind app] in H. injection H as <-.
    destruct (show_loop_chain _ oscar_df fav_actor inputs w later Hinv L)
      as [ws [Hshows _]].
    apply listings_In in Hin. apply list_elem_of_In in Hin.
    apply list_elem_of_lookup in Hin as [k Hk].
    destruct (Forall2_lookup_r _ _ _ _ _ Hshows Hk) as [w' [_ [_ Hl]]].
    cbn [snd] in Hl. apply lines_from_length in Hl as [_ Hl].
    rewrite List.Forall_forall in Hl. apply Hl, Hline.
  - injection H as <-. unfold start in S.
    destruct (length (map snd recommendations)); [|discriminate S].
    injection S as <-. destruct Hin as [Hin|[]]. discriminate Hin.
Qed.

(** [filter_movies] prints no listing. *)
Lemma filter_movies_events (df : list Movie) (prefs : Prefs)
    (out : list event) (ranked : DataFrame) :
  filter_movies df prefs = Done (out, ranked) ->
  forall indices lines, ~ In (Recommendations indices lines) out.
Proof.
  rewrite filter_movies_unfold. intros H indices lines Hin.
  destruct (truthy (fav_actor prefs)).
  - cbv zeta in H. destruct (negb (has_str (map Actors df))); [discriminate H|].
    destruct (Re.compile (default EmptyString (fav_actor prefs)));
      [|discriminate H].
    injection H as <- _. destruct (existsb id _); [destruct Hin|].
    destruct Hin as [Hin|[]]. discriminate Hin.
  - injection H as <- _. destruct Hin.
Qed.

(** X20: both files are read before the welcome, so a run starts with
    the message for each missing file, the welcome and the instructions.
    When a file is missing that is all of it: the program asks nothing and
    recommends nothing, whatever is typed. *)
Theorem main_missing_file (float : string -> option pyfloat)
    (movie_file : option (list RawMovie)) (oscar_file : option (list OscarRow))
    (inputs : list string) (out : list printed) :
  main float movie_file oscar_file inputs = Done out ->
  exists later,
    out = map Note (match movie_file with
                    | Some _ => []
                    | None => [MovieFileMissing]
                    end
                    ++ match oscar_file with
                       | Some _ => []
                       | None => [OscarFileMissing]
                       end
                    ++ [Welcome; Instructions])
          ++ later
    /\ (movie_file = None \/ oscar_file = None -> later = []).
Proof.
  unfold main. intros H.
  destruct movie_file as [raws|]; cbn [load_movie_data] in H.
  - destruct oscar_file as [oscars|]; cbn [load_oscar_data bind] in H.
    + destruct (has_str (map film oscars)); [|discriminate H].
      cbn [bind fst snd app] in H.
      destruct (negb (bool_decide _)); [discriminate H|].
      destruct (get_user_preferences float _ inputs)
        as [notes2 [[prefs rest]|]].
      * destruct (filter_movies _ prefs) as [ranked|]; [|discriminate H].
        cbn [bind] in H.
        destruct (show_recommendations _ _ _ rest) as [shown|];
          [|discriminate H].
        cbn [bind] in H. injection H as <-.
        eexists. split; [reflexivity|]. intros [E|E]; discriminate E.
      * injection H as <-. eexists. split; [reflexivity|].
        intros [E|E]; discriminate E.
    + cbn [fst snd app] in H. injection H as <-. exists [].
      split; [reflexivity|reflexivity].
  - destruct oscar_file as [oscars|]; cbn [load_oscar_data bind] in H.
    + destruct (has_str (map film oscars)); [|discriminate H].
      cbn [bind fst snd app] in H. injection H as <-. exists [].
      split; reflexivity.
    + cbn [fst snd app] in H. injection H as <-. exists [].
      split; reflexivity.
Qed.

Lemma main_missing_file_witness :
  exists later,
    [Note MovieFileMissing; Note Welcome; Note Instructions]
    = map Note ([MovieFileMissing] ++ [] ++ [Welcome; Instructions]) ++ later
    /\ (@None (list RawMovie) = None
        \/ Some [award "Room" "ACTRESS" true] = None -> later = []).
Proof.
  apply (main_missing_file (fun _ => None) None
           (Some [award "Room" "ACTRESS" true]) ["drama"; "n"]).
  reflexivity.
Defined.

(** X21: end to end, a run recommends only rows of the movie file that
    match the answers of the survey.  Every line of every listing shows a
    row read from the file, complete and with its genre list, and that
    row satisfies each preference the survey returned for the typed
    lines. *)
Theorem main_lists_matching_rows (float : string -> option pyfloat)
    (raws : list RawMovie) (oscars : list OscarRow) (inputs : list string)
    (out : list printed) :
  main float (Some raws) (Some oscars) inputs = Done out ->
  forall indices lines line,
    In (Event (Recommendations indices lines)) out -> In line lines ->
    exists frame notes prefs rest raw,
      load_movie_data (Some raws) = ([], Some frame)
      /\ get_user_preferences float (map snd frame) inputs
         = (notes, Some (prefs, rest))
      /\ In raw raws /\ cleaned_from raw (shown line)
      /\ satisfies prefs (shown line).
Proof.
  unfold main. intros H indices lines line Hin Hline.
  destruct (load_movie_data (Some raws)) as [notes1 movie_df] eqn:Hload.
  assert (Hframe : exists frame, notes1 = [] /\ movie_df = Some frame).
  { unfold load_movie_data in Hload. injection Hload as <- <-.
    eexists. split; reflexivity. }
  destruct Hframe as [frame [-> ->]].
  cbn [load_oscar_data bind] in H.
  destruct (has_str (map film oscars)); [|discriminate H].
  cbn [bind fst snd app] in H.
  destruct (negb (bool_decide _)); [discriminate H|].
  destruct (get_user_preferences float (map snd frame) inputs)
    as [notes2 [[prefs rest]|]] eqn:G.
  - destruct (filter_movies (map snd frame) prefs) as [[said ranked]|] eqn:F;
      [|discriminate H].
    cbn [bind fst snd] in H.
    destruct (show_recommendations ranked _ _ rest) as [shown_out|] eqn:S;
      [|discriminate H].
    cbn [bind] in H. injection H as <-.
    assert (Hev : In (Recommendations indices lines) shown_out).
    { destruct Hin as [E|[E|Hin]]; [discriminate E|discriminate E|].
      apply in_app_or in Hin as [Hin|Hin].
      - apply in_map_iff in Hin as [n [E _]]. discriminate E.
      - apply in_map_iff in Hin as [e [E He]]. injection E as ->.
        apply in_app_or in He as [He|He]; [|exact He].
        destruct (filter_movies_events _ _ _ _ F _ _ He). }
    pose proof (show_recommendations_lines _ _ _ _ _ S _ _ _ Hev Hline) as Hrow.
    apply in_map_iff in Hrow as [[i row] [E Hrow]]. cbn [snd] in E. subst row.
    destruct (filter_movies_ranked _ _ _ _ F) as [Hperm _].
    apply (Permutation_in _ Hperm) in Hrow.
    apply ranked_row_in_catalog in Hrow as [Hlook Hkeep]. cbn [fst snd] in *.
    assert (Hcat : In (shown line) (map snd frame)).
    { apply list_elem_of_In. eapply list_elem_of_lookup_2. exact Hlook. }
    destruct (loaded_rows raws frame Hload _ Hcat) as [raw [Hraw Hc]].
    exists frame, notes2, prefs, rest, raw.
    split; [reflexivity|]. split; [exact G|]. split; [exact Hraw|].
    split; [apply cleaned_spec, Hc|apply keeps_satisfies, Hkeep].
  - injection H as <-. exfalso.
    destruct Hin as [E|[E|Hin]]; [discriminate E|discriminate E|].
    apply in_map_iff in Hin as [n [E _]]. discriminate E.
Qed.

Lemma main_lists_matching_rows_witness :
  exists frame notes prefs rest raw,
    load_movie_data (Some example_file) = ([], Some frame)
    /\ get_user_preferences float_of_7_5 (map snd frame) example_answers
       = (notes, Some (prefs, rest))
    /\ In raw example_file /\ cleaned_from raw (shown example_line)
    /\ satisfies prefs (shown example_line).
Proof.
  destruct (main float_of_7_5 (Some example_file) (Some example_awards)
              example_answers) as [out|] eqn:M;
    [|vm_compute in M; discriminate M].
  apply (main_lists_matching_rows float_of_7_5 example_file example_awards
           example_answers out M [0; 1]
           [{| number := 1;
               shown := {| Title := "Room"; Genre := ["Drama"; "Thriller"];
                           Year := 2015; Rating := 82 # 10; Runtime := 118;
                           Votes := 250;
                           Actors := Some "Brie Larson, Jacob Tremblay" |};
               oscar_note := Some ["Winner for ACTRESS IN A LEADING ROLE"];
               actor_note := true |}; example_line]).
  - vm_compute in M. injection M as <-.
    right. right. right. left. reflexivity.
  - right. left. reflexivity.
Defined.










(* ===================================================================== *)
(** * show_recommendations: the lines of a listing *)
(* ===================================================================== *)

Lemma lines_from_spec (top_matches : list Movie)
    (oscar_df : option (list OscarRow)) (fav_actor : option string)
    (indices : list nat) :
  forall i lines,
    lines_from top_matches oscar_df fav_actor i indices = Done lines ->
    Forall2 (line_of top_matches oscar_df fav_actor) indices lines
    /\ map number lines = seq (S i) (length indices).
Proof.
  induction indices as [|idx rest IH]; intros i lines H.
  - injection H as <-. split; [constructor|reflexivity].
  - cbn [lines_from] in H. unfold line_for in H.
    destruct (top_matches !! idx) as [movie|] eqn:Hrow; [|discriminate H].
    destruct (check_oscar_status (Title movie) oscar_df) as [info|] eqn:Hinfo;
      [|discriminate H].
    cbn [bind] in H.
    assert (Hnote : exists announced,
               (if truthy fav_actor then
                  match Actors movie with
                  | Some actors =>
                      Done (features (default EmptyString fav_actor) actors)
                  | None => Unsupported
                  end
                else Done false) = Done announced
               /\ announced
                  = (truthy fav_actor
                     && actor_contains (default EmptyString fav_actor) movie)).
    { unfold actor_contains. destruct (truthy fav_actor).
      - destruct (Actors movie) as [actors|]; [|discriminate H].
        eexists. split; reflexivity.
      - eexists. split; reflexivity. }
    destruct Hnote as [announced [E Hannounced]]. rewrite E in H.
    cbn [bind] in H.
    destruct (lines_from top_matches oscar_df fav_actor (S i) rest)
      as [lines'|] eqn:Hrest; [|discriminate H].
    cbn [bind] in H. injection H as <-.
    destruct (IH (S i) lines' Hrest) as [Hall Hnum]. split.
    + constructor; [|exact Hall]. repeat split; cbn; assumption.
    + cbn [map number length seq]. rewrite Hnum.
      replace (i + 1) with (S i) by lia. reflexivity.
Qed.

(** The loop starts with the listing of its window. *)
Lemma show_loop_head (top_matches : list Movie)
    (oscar_df : option (list OscarRow)) (fav_actor : option string)
    (w : Window) (inputs : list string) (out : list event) :
  show_loop top_matches oscar_df fav_actor w inputs = Done out ->
  exists lines rest,
    out = Recommendations (display_indices w) lines :: rest
    /\ lines_from top_matches oscar_df fav_actor 0 (display_indices w)
       = Done lines.
Proof.
  rewrite show_loop_eq.
  destruct (lines_from _ _ _ _ _) as [lines|]; [|discriminate].
  cbn [bind]. cbv zeta. intros H. exists lines.
  destruct inputs as [|answer rest].
  - injection H as <-. eexists. split; reflexivity.
  - destruct (String.eqb _ "n").
    + injection H as <-. eexists. split; reflexivity.
    + destruct (String.eqb _ "y").
      * destruct rest as [|seen_nums rest'].
        -- injection H as <-. eexists. split; reflexivity.
        -- destruct (mark_seen _ w seen_nums) as [round|]; [|discriminate H].
           cbn [bind] in H.
           destruct (show_loop _ _ _ (fst round) rest') as [later|];
             [|discriminate H].
           injection H as <-. eexists. split; reflexivity.
      * destruct (show_loop _ _ _ w rest) as [later|]; [|discriminate H].
        injection H as <-. eexists. split; reflexivity.
Qed.

Lemma first_rows {A : Type} (f : Line -> A) (top : list A) (m : nat) :
  forall a lines,
    Forall2 (fun idx line => top !! idx = Some (f line)) (seq a m) lines ->
    map f lines = take m (drop a top).
Proof.
  induction m as [|m IH]; intros a lines H.
  - inversion H. reflexivity.
  - cbn [seq] in H. inversion H as [|idx line rest lines' Hrow Hrest]; subst.
    cbn [map]. rewrite (IH (S a) lines' Hrest).
    rewrite (drop_S top (f line) a Hrow). reflexivity.
Qed.

(** The first listing of a session: the first five rows of the ranking,
    in order. *)
Lemma first_listing (recommendations : DataFrame)
    (oscar_df : option (list OscarRow)) (fav_actor : option string)
    (inputs : list string) (out : list event) :
  show_recommendations recommendations oscar_df fav_actor inputs = Done out ->
  recommendations <> [] ->
  exists lines rest,
    out = Recommendations (seq 0 (Nat.min 5 (length recommendations))) lines
          :: rest
    /\ Forall2 (line_of (map snd recommendations) oscar_df fav_actor)
         (seq 0 (Nat.min 5 (length recommendations))) lines
    /\ map shown lines = map snd (take 5 recommendations).
Proof.
  intros H Hne.
  assert (Hpos : 0 < length recommendations)
    by (destruct recommendations; [contradiction|simpl; lia]).
  pose proof (start_positive _ Hpos) as Hstart.
  rewrite (show_recommendations_eq _ oscar_df fav_actor inputs _ Hstart) in H.
  apply show_loop_head in H as [lines [rest [-> Hlines]]].
  cbn [display_indices] in *.
  apply lines_from_spec in Hlines as [Hall _].
  exists lines, rest. split; [reflexivity|]. split; [exact Hall|].
  rewrite (first_rows shown (map snd recommendations)
             (Nat.min 5 (length recommendations)) 0 lines).
  - rewrite drop_0, <- fmap_take. f_equal.
    destruct (Nat.min_spec 5 (length recommendations)) as [[_ ->]|[Hle ->]];
      [reflexivity|].
    rewrite !take_ge by lia. reflexivity.
  - eapply Forall2_impl; [exact Hall|]. intros idx line [Hrow _]. exact Hrow.
Qed.

(** X23: each line of each listing of a session is the line for its
    displayed index: the lines are numbered from 1, the [k]-th shows the
    row of the ranking at the [k]-th displayed index with the award lines
    found for its title, and it announces the favourite actor exactly
    when one is set and the actors of the row contain it, letter case
    ignored. *)
Theorem show_recommendations_lines_follow (recommendations : DataFrame)
    (oscar_df : option (list OscarRow)) (fav_actor : option string)
    (inputs : list string) (out : list event) :
  show_recommendations recommendations oscar_df fav_actor inputs = Done out ->
  forall indices lines,
    In (Recommendations indices lines) out ->
    Forall2 (line_of (map snd recommendations) oscar_df fav_actor)
      indices lines
    /\ map number lines = seq 1 (length indices).
Proof.
  unfold show_recommendations. intros H indices lines Hin.
  destruct (start (length (map snd recommendations))) as [out0 [w|]] eqn:S.
  - pose proof (start_inv _ _ _ S) as Hinv.
    assert (E0 : out0 = []).
    { unfold start in S. destruct (length (map snd recommendations));
        [discriminate S|]. injection S as <- _. reflexivity. }
    subst out0.
    destruct (show_loop (map snd recommendations) oscar_df fav_actor w inputs)
      as [later|] eqn:L; [|discriminate H].
    cbn [bind app] in H. injection H as <-.
    destruct (show_loop_chain _ oscar_df fav_actor inputs w later Hinv L)
      as [ws [Hshows _]].
    apply listings_In in Hin. apply list_elem_of_In in Hin.
    apply list_elem_of_lookup in Hin as [k Hk].
    destruct (Forall2_lookup_r _ _ _ _ _ Hshows Hk) as [w' [_ [Hd Hl]]].
    cbn [fst snd] in Hd, Hl. rewrite <- Hd in Hl.
    apply (lines_from_spec _ _ _ _ 0 lines Hl).
  - injection H as <-. unfold start in S.
    destruct (length (map snd recommendations)); [|discriminate S].
    injection S as <-. destruct Hin as [Hin|[]]. discriminate Hin.
Qed.

Lemma show_recommendations_lines_follow_witness :
  Forall2 (line_of [shown example_line] (Some example_awards) None)
    [0] [example_first]
  /\ map number [example_first] = seq 1 (length [0]).
Proof.
  apply (show_recommendations_lines_follow
           [(1, shown example_line)] (Some example_awards) None ["n"]
           [Recommendations [0] [example_first]; Enjoy] eq_refl
           [0] [example_first]).
  left. reflexivity.
Defined.

(** X24: a session starts with the top of the ranking: the first listing
    shows the first five rows of the recommendations (all of them when
    there are fewer), in ranking order. *)
Theorem show_recommendations_first_listing (recommendations : DataFrame)
    (oscar_df : option (list OscarRow)) (fav_actor : option string)
    (inputs : list string) (out : list event) :
  show_recommendations recommendations oscar_df fav_actor inputs = Done out ->
  recommendations <> [] ->
  exists lines rest,
    out = Recommendations (seq 0 (Nat.min 5 (length recommendations))) lines
          :: rest
    /\ map shown lines = map snd (take 5 recommendations).
Proof.
  intros H Hne.
  destruct (first_listing _ _ _ _ _ H Hne) as [lines [rest [E [_ Hrows]]]].
  exists lines, rest. split; assumption.
Qed.

Lemma show_recommendations_first_listing_witness :
  exists lines rest,
    [Recommendations [0] [example_first]; Enjoy]
    = Recommendations (seq 0 (Nat.min 5 1)) lines :: rest
    /\ map shown lines = [shown example_line].
Proof.
  apply (show_recommendations_first_listing
           [(1, shown example_line)] (Some example_awards) None ["n"]
           [Recommendations [0] [example_first]; Enjoy] eq_refl).
  discriminate.
Defined.

(** X25: [filter_movies] and [show_recommendations] agree on the
    favourite actor when it has no special character: in the first
    listing of the ranking [filter_movies] returned, no line that
    announces the actor stands after one that does not. *)
Theorem first_listing_announces_first (df : list Movie) (prefs : Prefs)
    (actor : string) (said : list event) (ranked : DataFrame)
    (oscar_df : option (list OscarRow)) (inputs : list string)
    (out : list event) :
  fav_actor prefs = Some actor -> plain actor = true ->
  filter_movies df prefs = Done (said, ranked) ->
  show_recommendations ranked oscar_df (fav_actor prefs) inputs = Done out ->
  forall indices lines rest,
    out = Recommendations indices lines :: rest ->
    forall i j a b,
      i < j -> lines !! i = Some a -> lines !! j = Some b ->
      actor_note b = true -> actor_note a = true.
Proof.
  intros Hfav Hplain F S indices lines rest -> i j a b Hij Ha Hb Hnote.
  destruct ranked as [|row0 ranked0] eqn:Er.
  { discriminate S. }
  rewrite <- Er in *.
  assert (Hne : ranked <> []) by (rewrite Er; discriminate).
  destruct (first_listing _ _ _ _ _ S Hne) as [lines' [rest' [E [Hall _]]]].
  injection E as _ <- _.
  assert (Hline : forall k line,
             lines !! k = Some line ->
             exists p, ranked !! k = Some p /\ snd p = shown line
                       /\ actor_note line
                          = (truthy (Some actor)
                             && actor_contains actor (shown line))).
  { intros k line Hk.
    destruct (Forall2_lookup_r _ _ _ _ _ Hall Hk) as [idx [Hidx Hl]].
    apply lookup_seq in Hidx as [-> _]. cbn [Nat.add] in Hl.
    destruct Hl as (Hrow & _ & Hn). rewrite list_lookup_fmap in Hrow.
    destruct (ranked !! k) as [p|]; [|discriminate Hrow].
    injection Hrow as Hrow. exists p. split; [reflexivity|].
    split; [exact Hrow|]. rewrite Hfav in Hn. exact Hn. }
  destruct (Hline i a Ha) as [pa [Hpa [Ea Hna]]].
  destruct (Hline j b Hb) as [pb [Hpb [Eb Hnb]]].
  rewrite Hnb in Hnote. apply andb_true_iff in Hnote as [Ht Hcb].
  rewrite Hna, Ht. cbn [andb]. rewrite <- Ea.
  apply (filter_movies_actor_first_plain df prefs actor said ranked Hfav Ht
           Hplain F i j pa pb Hij Hpa Hpb).
  rewrite Eb. exact Hcb.
Qed.

Lemma first_listing_announces_first_witness :
  actor_note {| number := 1;
                shown := drama "Room" (82 # 10) 250 "Brie Larson";
                oscar_note := None; actor_note := true |} = true.
Proof.
  apply (first_listing_announces_first
           [drama "Short Term 12" (80 # 10) 70 "Brie Larson, Rami Malek";
            drama "Room" (82 # 10) 250 "Brie Larson"]
           (with_fav_actor "brie") "brie" []
           [(1, drama "Room" (82 # 10) 250 "Brie Larson");
            (0, drama "Short Term 12" (80 # 10) 70 "Brie Larson, Rami Malek")]
           None ["n"]
           [Recommendations [0; 1]
              [{| number := 1;
                  shown := drama "Room" (82 # 10) 250 "Brie Larson";
                  oscar_note := None; actor_note := true |};
               {| number := 2;
                  shown := drama "Short Term 12" (80 # 10) 70
                             "Brie Larson, Rami Malek";
                  oscar_note := None; actor_note := true |}];
            Enjoy]
           eq_refl eq_refl eq_refl eq_refl
           [0; 1] _ [Enjoy] eq_refl 0 1 _
           {| number := 2;
              shown := drama "Short Term 12" (80 # 10) 70
                         "Brie Larson, Rami Malek";
              oscar_note := None; actor_note := true |});
    [lia|reflexivity|reflexivity|reflexivity].
Defined.
